(** * Storage abstraction of the PDF-to-XML converter

    A shallow embedding of [server/storage.ts] (the in-memory and the
    MongoDB backed implementations of [IStorage]) and of
    [server/storage-manager.ts] (the runtime selector between the two),
    together with the properties of their filter / sort / pagination
    contract.  Around them: the connection logic of [server/db/mongodb.ts],
    the handlers of the routes for one conversion, and [register] of
    [server/auth.ts].

    Conventions of the embedding:
    - JavaScript numbers that the code uses as sizes, counters, page
      numbers and epoch milliseconds are integers of [Z]; [NaN],
      fractions and [Invalid Date] are outside the model.
    - Strings are Rocq strings of one-byte characters; [toLowerCase]
      lowers the ASCII letters.
    - An [ObjectId] is kept in its 24 digit hexadecimal form, so that
      [_id.toString()] is the identity.
    - In [Mem] the readings of [new Date()] and [Date.now()] within one
      call of a storage method are one clock value [now]; [Clocked] has
      the listing with every reading on its own, and the two agree on
      every backend whose records all carry their date.
    - A request handler runs to its end before the next request is
      served. *)

From Stdlib Require Import ZArith List String Ascii Bool Lia Sorted Permutation.
From Stdlib Require OrderedTypeEx.
From stdpp Require Import base list.
Import ListNotations.
Local Open Scope string_scope.
Local Open Scope list_scope.
Local Open Scope Z_scope.

(** ** JavaScript strings *)

Definition lowerAscii (c : ascii) : ascii :=
  let n := nat_of_ascii c in
  if ((65 <=? n) && (n <=? 90))%nat then ascii_of_nat (n + 32) else c.

Fixpoint toLowerCase (s : string) : string :=
  match s with
  | EmptyString => EmptyString
  | String c r => String (lowerAscii c) (toLowerCase r)
  end.

Fixpoint startsWith (s p : string) {struct p} : bool :=
  match p, s with
  | EmptyString, _ => true
  | String _ _, EmptyString => false
  | String b p', String a s' => Ascii.eqb a b && startsWith s' p'
  end.

(** [s.includes(sub)]: [sub] occurs in [s] at some position. *)
Fixpoint includes (s sub : string) : bool :=
  startsWith s sub ||
  match s with
  | EmptyString => false
  | String _ r => includes r sub
  end.

(** ** JavaScript arrays as values *)

(** [xs.slice(start, end)], with the clamping of negative and oversized
    indices that ECMAScript prescribes. *)
Definition js_slice {A} (xs : list A) (start end_ : Z) : list A :=
  let len := Z.of_nat (length xs) in
  let k := if start <? 0 then Z.max (len + start) 0 else Z.min start len in
  let final := if end_ <? 0 then Z.max (len + end_) 0 else Z.min end_ len in
  take (Z.to_nat (final - k)) (drop (Z.to_nat k) xs).

(** A stable sort: an element moves in front of another one only when
    the comparator says it is strictly smaller.  [xs.sort(cmp)] of
    ECMAScript is stable, so for a comparator that orders the elements
    consistently this is its result. *)
Fixpoint sort_insert {A} (cmp : A -> A -> Z) (x : A) (l : list A) : list A :=
  match l with
  | [] => [x]
  | y :: l' => if cmp x y <=? 0 then x :: y :: l' else y :: sort_insert cmp x l'
  end.

Fixpoint stable_sort {A} (cmp : A -> A -> Z) (l : list A) : list A :=
  match l with
  | [] => []
  | x :: l' => sort_insert cmp x (stable_sort cmp l')
  end.

(** [xs.find(p)] *)
Fixpoint js_find {A} (p : A -> bool) (l : list A) : option A :=
  match l with
  | [] => None
  | x :: l' => if p x then Some x else js_find p l'
  end.

(** Values compared by [<] and [>] in the sort comparator. *)
Inductive JsValue :=
| VStr (s : string)
| VNum (n : Z).

Definition js_gt (a b : JsValue) : bool :=
  match a, b with
  | VStr s, VStr t => match String.compare s t with Gt => true | _ => false end
  | VNum n, VNum m => m <? n
  | _, _ => false
  end.

Definition js_lt (a b : JsValue) : bool := js_gt b a.

(** ** shared/schema.ts *)

Definition ObjectId := string.

Module Schema.

Record User := mkUser {
  u_id : ObjectId;
  email : string;
  password : string;
  createdAt : option Z
}.

Record InsertUser := mkInsertUser {
  ins_email : string;
  ins_password : string
}.

Record Conversion := mkConversion {
  _id : ObjectId;
  userId : string;
  filename : string;
  originalSize : Z;
  xmlContent : string;
  convertedAt : option Z
}.

Record InsertConversion := mkInsertConversion {
  ins_userId : string;
  ins_filename : string;
  ins_originalSize : Z;
  ins_xmlContent : string
}.

End Schema.

Import Schema.

(** ** The option records of [IStorage] *)

Record ConversionFilters := mkFilters {
  search : option string;
  dateFrom : option Z;
  dateTo : option Z;
  sizeMin : option Z;
  sizeMax : option Z
}.

Inductive SortField := Field_filename | Field_convertedAt | Field_originalSize.
Inductive SortOrder := asc | desc.

Record SortOptions := mkSort {
  field : SortField;
  order : SortOrder
}.

Record PaginationOptions := mkPagination {
  page : Z;
  limit : Z
}.

(** [if (filters.search)]: an absent or empty string is falsy. *)
Definition truthy (s : option string) : option string :=
  match s with
  | Some EmptyString => None
  | other => other
  end.

(** [sortOptions?.field || 'convertedAt'] and [sortOptions?.order || 'desc'] *)
Definition field_or_default (s : option SortOptions) : SortField :=
  match s with Some o => field o | None => Field_convertedAt end.

Definition order_or_default (s : option SortOptions) : SortOrder :=
  match s with Some o => order o | None => desc end.

(** ** MemStorage: the in-memory backend

    The [conversions] arrays are JavaScript objects: [filter] and [slice]
    allocate a new array, [sort] and [push] update the array they are
    called on.  They live in a store of arrays addressed by location, and
    the [conversions] field of the storage object holds a location.  The
    [users] array is never copied or handed out, it is kept as a value. *)

Module Mem.

Definition loc := nat.

Record MemStorage := mkMemStorage {
  users : list User;
  conversions : loc;
  userId : Z;
  conversionId : Z
}.

Record Machine := mkMachine {
  arrays : list (list Conversion);
  this : MemStorage
}.

(** Computations of a method body: they read and update the machine. *)
Definition M (A : Type) : Type := Machine -> A * Machine.

Definition ret {A} (a : A) : M A := fun m => (a, m).

Definition bind {A B} (c : M A) (k : A -> M B) : M B :=
  fun m => let (a, m') := c m in k a m'.

Notation "x <- c ;; k" := (bind c (fun x => k))
  (at level 60, c at next level, right associativity).

Definition readArray (a : loc) (m : Machine) : list Conversion :=
  default [] (arrays m !! a).

Definition alloc (xs : list Conversion) : M loc :=
  fun m => (length (arrays m), mkMachine (arrays m ++ [xs]) (this m)).

Definition get_this : M MemStorage := fun m => (this m, m).

Definition set_this (t : MemStorage) : M unit :=
  fun m => (tt, mkMachine (arrays m) t).

Definition Array_filter (p : Conversion -> bool) (a : loc) : M loc :=
  fun m => alloc (List.filter p (readArray a m)) m.

Definition Array_sort (cmp : Conversion -> Conversion -> Z) (a : loc) : M unit :=
  fun m => (tt, mkMachine (<[a := stable_sort cmp (readArray a m)]> (arrays m)) (this m)).

Definition Array_slice (a : loc) (start end_ : Z) : M loc :=
  fun m => alloc (js_slice (readArray a m) start end_) m.

Definition Array_length (a : loc) : M Z :=
  fun m => (Z.of_nat (length (readArray a m)), m).

Definition Array_find (p : Conversion -> bool) (a : loc) : M (option Conversion) :=
  fun m => (js_find p (readArray a m), m).

Definition Array_push (a : loc) (x : Conversion) : M unit :=
  fun m => (tt, mkMachine (<[a := readArray a m ++ [x]]> (arrays m)) (this m)).

(** [new MemStorage()] *)
Definition constructor : Machine :=
  mkMachine [[]] (mkMemStorage [] 0%nat 1 1).

(** [conv.convertedAt ? new Date(conv.convertedAt) : new Date()] *)
Definition convDate (now : Z) (conv : Conversion) : Z :=
  match convertedAt conv with
  | Some d => d
  | None => now
  end.

(** The [valA] / [valB] of the sort comparator. *)
Definition sortVal (f : SortField) (now : Z) (a : Conversion) : JsValue :=
  match f with
  | Field_filename => VStr (toLowerCase (filename a))
  | Field_originalSize => VNum (originalSize a)
  | Field_convertedAt =>
      VNum (match convertedAt a with Some d => d | None => now end)
  end.

Definition compareFn (f : SortField) (o : SortOrder) (now : Z)
    (a b : Conversion) : Z :=
  let valA := sortVal f now a in
  let valB := sortVal f now b in
  match o with
  | asc => if js_gt valA valB then 1 else if js_lt valA valB then -1 else 0
  | desc => if js_lt valA valB then 1 else if js_gt valA valB then -1 else 0
  end.

Definition getUserById (id : string) : M (option User) :=
  t <- get_this ;;
  ret (js_find (fun user => String.eqb (u_id user) id) (users t)).

Definition getUserByEmail (email : string) : M (option User) :=
  t <- get_this ;;
  ret (js_find (fun user => String.eqb (Schema.email user) email) (users t)).

(** [fresh] is the value of [new ObjectId(this.userId++)]. *)
Definition createUser (fresh : ObjectId) (now : Z) (insertUser : InsertUser) : M User :=
  t <- get_this ;;
  let user := mkUser fresh (ins_email insertUser) (ins_password insertUser) (Some now) in
  _ <- set_this (mkMemStorage (users t ++ [user]) (conversions t)
                   (userId t + 1) (conversionId t)) ;;
  ret user.

(** The filters that follow the [userId] filter, in the order of the
    source; [getConversions] and [getConversionsCount] each carry their own
    copy of this code. *)
Definition getConversions (now : Z) (userId : string)
    (filters : option ConversionFilters) (sortOptions : option SortOptions)
    (pagination : option PaginationOptions) : M loc :=
  t <- get_this ;;
  filtered <- Array_filter (fun conv => String.eqb (Schema.userId conv) userId)
                (conversions t) ;;
  filtered <-
    match filters with
    | Some filters =>
        filtered <-
          match truthy (search filters) with
          | Some s =>
              let searchLower := toLowerCase s in
              Array_filter
                (fun conv => includes (toLowerCase (filename conv)) searchLower)
                filtered
          | None => ret filtered
          end ;;
        filtered <-
          match dateFrom filters with
          | Some d => Array_filter (fun conv => d <=? convDate now conv) filtered
          | None => ret filtered
          end ;;
        filtered <-
          match dateTo filters with
          | Some d => Array_filter (fun conv => convDate now conv <=? d) filtered
          | None => ret filtered
          end ;;
        filtered <-
          match sizeMin filters with
          | Some n => Array_filter (fun conv => n <=? originalSize conv) filtered
          | None => ret filtered
          end ;;
        match sizeMax filters with
        | Some n => Array_filter (fun conv => originalSize conv <=? n) filtered
        | None => ret filtered
        end
    | None => ret filtered
    end ;;
  let f := field_or_default sortOptions in
  let o := order_or_default sortOptions in
  _ <- Array_sort (compareFn f o now) filtered ;;
  match pagination with
  | Some p =>
      let startIndex := (page p - 1) * limit p in
      Array_slice filtered startIndex (startIndex + limit p)
  | None => ret filtered
  end.

Definition getConversionsCount (now : Z) (userId : string)
    (filters : option ConversionFilters) : M Z :=
  t <- get_this ;;
  filtered <- Array_filter (fun conv => String.eqb (Schema.userId conv) userId)
                (conversions t) ;;
  filtered <-
    match filters with
    | Some filters =>
        filtered <-
          match truthy (search filters) with
          | Some s =>
              let searchLower := toLowerCase s in
              Array_filter
                (fun conv => includes (toLowerCase (filename conv)) searchLower)
                filtered
          | None => ret filtered
          end ;;
        filtered <-
          match dateFrom filters with
          | Some d => Array_filter (fun conv => d <=? convDate now conv) filtered
          | None => ret filtered
          end ;;
        filtered <-
          match dateTo filters with
          | Some d => Array_filter (fun conv => convDate now conv <=? d) filtered
          | None => ret filtered
          end ;;
        filtered <-
          match sizeMin filters with
          | Some n => Array_filter (fun conv => n <=? originalSize conv) filtered
          | None => ret filtered
          end ;;
        match sizeMax filters with
        | Some n => Array_filter (fun conv => originalSize conv <=? n) filtered
        | None => ret filtered
        end
    | None => ret filtered
    end ;;
  Array_length filtered.

Definition getConversion (id : string) : M (option Conversion) :=
  t <- get_this ;;
  Array_find (fun conv => String.eqb (_id conv) id) (conversions t).

(** [fresh] is the value of [new ObjectId(this.conversionId++)]. *)
Definition createConversion (fresh : ObjectId) (now : Z)
    (insertConversion : InsertConversion) : M Conversion :=
  t <- get_this ;;
  _ <- set_this (mkMemStorage (users t) (conversions t) (userId t)
                   (conversionId t + 1)) ;;
  let conversion :=
    mkConversion fresh (ins_userId insertConversion)
      (ins_filename insertConversion) (ins_originalSize insertConversion)
      (ins_xmlContent insertConversion) (Some now) in
  _ <- Array_push (conversions t) conversion ;;
  ret conversion.

Definition deleteConversion (id : string) : M bool :=
  t <- get_this ;;
  initialLength <- Array_length (conversions t) ;;
  kept <- Array_filter (fun conv => negb (String.eqb (_id conv) id)) (conversions t) ;;
  _ <- set_this (mkMemStorage (users t) kept (userId t) (conversionId t)) ;;
  newLength <- Array_length kept ;;
  ret (newLength <? initialLength).

(** The array a method returned, read back from the machine it left. *)
Definition returned (r : loc * Machine) : list Conversion :=
  readArray (fst r) (snd r).

(** The stored conversions of a machine. *)
Definition stored (m : Machine) : list Conversion :=
  readArray (conversions (this m)) m.

End Mem.

(** ** Results of code that can throw *)

Inductive outcome (A : Type) : Type :=
| Returned (a : A)
| Thrown (error : string).

Arguments Returned {A} a.
Arguments Thrown {A} error.

(** [try { body } catch (error) { handler }] *)
Definition try_catch {A} (body : outcome A) (handler : string -> outcome A) : outcome A :=
  match body with
  | Returned a => Returned a
  | Thrown error => handler error
  end.

Definition obind {A B} (c : outcome A) (k : A -> outcome B) : outcome B :=
  match c with
  | Returned a => k a
  | Thrown error => Thrown error
  end.

Notation "'await' x <- c ;; k" := (obind c (fun x => k))
  (at level 10, x name, c at level 99, k at level 200).

(** ** The document store behind MongoDBStorage

    The store is the environment of the persistent backend.  It is
    modelled by what its documentation says of the operations the code
    calls: a collection is a sequence of documents in insertion order,
    [_id] is unique in it, a query document selects the documents that
    satisfy all its clauses, [sort] orders by the BSON order of one field
    (strings by their bytes, an absent field first), [skip] rejects a
    negative count and [limit] takes the magnitude of its argument, zero
    meaning no limit. *)

Module Driver.

(** How the process sees the store: [LinkUp], the connection is ready and
    commands are answered; [LinkDown], the connection is not ready and
    [getCollection] gives [null]; [LinkStale], the connection still looks
    ready but every command is rejected. *)
Inductive Link := LinkUp | LinkDown | LinkStale.

Record Store := mkStore {
  link : Link;
  users : list User;
  conversions : list Conversion
}.

(** The regular expression engine of the store: compiling a pattern with
    its options gives a matcher, or fails on an invalid pattern. *)
Definition RegexEngine := string -> string -> option (string -> bool).

Record Range := mkRange {
  gte : option Z;
  lte : option Z
}.

(** The query documents the code builds for the [conversions] collection. *)
Record Query := mkQuery {
  q_userId : string;
  q_filename : option (string * string);
  q_convertedAt : option Range;
  q_originalSize : option Range
}.

Definition set_filename (q : Query) (re : string * string) : Query :=
  mkQuery (q_userId q) (Some re) (q_convertedAt q) (q_originalSize q).

Definition set_convertedAt (q : Query) (r : Range) : Query :=
  mkQuery (q_userId q) (q_filename q) (Some r) (q_originalSize q).

Definition set_originalSize (q : Query) (r : Range) : Query :=
  mkQuery (q_userId q) (q_filename q) (q_convertedAt q) (Some r).

Definition set_gte (r : Range) (v : Z) : Range := mkRange (Some v) (lte r).
Definition set_lte (r : Range) (v : Z) : Range := mkRange (gte r) (Some v).

(** A field satisfies a range clause when it is present and within the
    bounds given; a clause with no operator is an equality with the empty
    document, which no date or number satisfies. *)
Definition in_range (r : Range) (v : option Z) : bool :=
  match v, gte r, lte r with
  | None, _, _ => false
  | Some _, None, None => false
  | Some x, lo, hi =>
      match lo with Some l => l <=? x | None => true end &&
      match hi with Some h => x <=? h | None => true end
  end.

Definition matches (re : option (string -> bool)) (q : Query) (d : Conversion) : bool :=
  String.eqb (userId d) (q_userId q) &&
  match re with Some m => m (filename d) | None => true end &&
  match q_convertedAt q with Some r => in_range r (convertedAt d) | None => true end &&
  match q_originalSize q with Some r => in_range r (Some (originalSize d)) | None => true end.

(** BSON values of the sortable fields and their order. *)
Inductive Bson :=
| BNull
| BNumber (n : Z)
| BString (s : string)
| BDate (t : Z).

Definition bson_rank (v : Bson) : Z :=
  match v with
  | BNull => 2
  | BNumber _ => 3
  | BString _ => 4
  | BDate _ => 10
  end.

Definition bson_compare (a b : Bson) : comparison :=
  match a, b with
  | BNumber n, BNumber m => Z.compare n m
  | BString s, BString t => String.compare s t
  | BDate s, BDate t => Z.compare s t
  | _, _ => Z.compare (bson_rank a) (bson_rank b)
  end.

Definition bson_field (f : SortField) (d : Conversion) : Bson :=
  match f with
  | Field_filename => BString (filename d)
  | Field_originalSize => BNumber (originalSize d)
  | Field_convertedAt =>
      match convertedAt d with Some t => BDate t | None => BNull end
  end.

(** The comparator of [sort({field: direction})]. *)
Definition sort_cmp (f : SortField) (direction : Z) (a b : Conversion) : Z :=
  match bson_compare (bson_field f a) (bson_field f b) with
  | Eq => 0
  | Lt => if direction <? 0 then 1 else -1
  | Gt => if direction <? 0 then -1 else 1
  end.

(** A cursor: the query with the directives chained on it, run by
    [toArray]. *)
Record Cursor := mkCursor {
  c_query : Query;
  c_sort : option (SortField * Z);
  c_skip : option Z;
  c_limit : option Z
}.

Definition find (q : Query) : Cursor := mkCursor q None None None.

Definition sort (c : Cursor) (f : SortField) (direction : Z) : Cursor :=
  mkCursor (c_query c) (Some (f, direction)) (c_skip c) (c_limit c).

Definition skip (c : Cursor) (n : Z) : Cursor :=
  mkCursor (c_query c) (c_sort c) (Some n) (c_limit c).

Definition limit_ (c : Cursor) (n : Z) : Cursor :=
  mkCursor (c_query c) (c_sort c) (c_skip c) (Some n).

Definition apply_limit (n : option Z) (l : list Conversion) : list Conversion :=
  match n with
  | None => l
  | Some n => if n =? 0 then l else take (Z.to_nat (Z.abs n)) l
  end.

Definition apply_skip (n : option Z) (l : list Conversion) : list Conversion :=
  match n with
  | None => l
  | Some n => drop (Z.to_nat n) l
  end.

Definition apply_sort (s : option (SortField * Z)) (l : list Conversion) : list Conversion :=
  match s with
  | None => l
  | Some (f, direction) => stable_sort (sort_cmp f direction) l
  end.

Section Commands.

Variable engine : RegexEngine.

(** Compiling the [$regex] clause of a query, when it has one. *)
Definition compile_clause (q : Query) : outcome (option (string -> bool)) :=
  match q_filename q with
  | None => Returned None
  | Some (pattern, options) =>
      match engine pattern options with
      | Some m => Returned (Some m)
      | None => Thrown "Regular expression is invalid"
      end
  end.

Definition toArray (s : Store) (c : Cursor) : outcome (list Conversion) :=
  match link s with
  | LinkUp =>
      await re <- compile_clause (c_query c) ;;
      if match c_skip c with Some n => n <? 0 | None => false end
      then Thrown "Skip value must be non-negative"
      else
        Returned
          (apply_limit (c_limit c)
             (apply_skip (c_skip c)
                (apply_sort (c_sort c)
                   (List.filter (matches re (c_query c)) (conversions s)))))
  | _ => Thrown "connection closed"
  end.

Definition countDocuments (s : Store) (q : Query) : outcome Z :=
  match link s with
  | LinkUp =>
      await re <- compile_clause q ;;
      Returned (Z.of_nat (length (List.filter (matches re q) (conversions s))))
  | _ => Thrown "connection closed"
  end.

End Commands.

(** [getCollection(name)] of [db/mongodb.ts]: the collection when the
    connection is ready, [null] otherwise; it catches its own errors. *)
Definition getCollection (name : string) (s : Store) : option string :=
  match link s with
  | LinkDown => None
  | _ => Some name
  end.

Definition isHexDigit (c : ascii) : bool :=
  let n := nat_of_ascii c in
  (((48 <=? n) && (n <=? 57)) || ((65 <=? n) && (n <=? 70)) ||
   ((97 <=? n) && (n <=? 102)))%nat.

Fixpoint allHex (s : string) : bool :=
  match s with
  | EmptyString => true
  | String c r => isHexDigit c && allHex r
  end.

(** [new ObjectId(id)] of a string: 24 hexadecimal digits, or an error. *)
Definition new_ObjectId (id : string) : outcome ObjectId :=
  if (String.length id =? 24)%nat && allHex id
  then Returned (toLowerCase id)
  else Thrown "input must be a 24 character hex string".

Definition findOne_user (s : Store) (p : User -> bool) : outcome (option User) :=
  match link s with
  | LinkUp => Returned (js_find p (users s))
  | _ => Thrown "connection closed"
  end.

Definition findOne_conversion (s : Store) (p : Conversion -> bool) : outcome (option Conversion) :=
  match link s with
  | LinkUp => Returned (js_find p (conversions s))
  | _ => Thrown "connection closed"
  end.

(** [insertOne]: the document, which has no [_id] of its own yet, enters
    the collection under the identity [fresh] the driver drew for it; a
    duplicate identity is rejected. *)
Definition insertOne_user (fresh : ObjectId) (d : User) (s : Store) : outcome ObjectId * Store :=
  match link s with
  | LinkUp =>
      if existsb (fun u => String.eqb (u_id u) fresh) (users s)
      then (Thrown "E11000 duplicate key error", s)
      else (Returned fresh,
            mkStore (link s)
              (users s ++ [mkUser fresh (email d) (password d) (createdAt d)])
              (conversions s))
  | _ => (Thrown "connection closed", s)
  end.

Definition insertOne_conversion (fresh : ObjectId) (d : Conversion) (s : Store) : outcome ObjectId * Store :=
  match link s with
  | LinkUp =>
      if existsb (fun c => String.eqb (_id c) fresh) (conversions s)
      then (Thrown "E11000 duplicate key error", s)
      else (Returned fresh,
            mkStore (link s) (users s)
              (conversions s ++
                 [mkConversion fresh (userId d) (filename d) (originalSize d)
                    (xmlContent d) (convertedAt d)]))
  | _ => (Thrown "connection closed", s)
  end.

Fixpoint remove_first (p : Conversion -> bool) (l : list Conversion) : list Conversion :=
  match l with
  | [] => []
  | x :: l' => if p x then l' else x :: remove_first p l'
  end.

(** [deleteOne({_id})]: the answer is [deletedCount]. *)
Definition deleteOne (s : Store) (id : ObjectId) : outcome Z * Store :=
  match link s with
  | LinkUp =>
      let p := fun c => String.eqb (_id c) id in
      if existsb p (conversions s)
      then (Returned 1, mkStore (link s) (users s) (remove_first p (conversions s)))
      else (Returned 0, s)
  | _ => (Thrown "connection closed", s)
  end.

End Driver.

(** ** MongoDBStorage: the persistent backend *)

Module Mongo.

Import Driver.

(** A [try] block around a command that also updates the store. *)
Definition try_catch_st {A} (body : outcome A * Store) (handler : string -> outcome A)
    : outcome A * Store :=
  (try_catch (fst body) handler, snd body).

Section Methods.

Variable engine : RegexEngine.

Definition getUserById (s : Store) (id : string) : outcome (option User) :=
  try_catch
    (match getCollection "users" s with
     | None => Returned None
     | Some _ =>
         await oid <- new_ObjectId id ;;
         await user <- findOne_user s (fun u => String.eqb (u_id u) oid) ;;
         Returned user
     end)
    (fun error => Returned None).

Definition getUserByEmail (s : Store) (email : string) : outcome (option User) :=
  try_catch
    (match getCollection "users" s with
     | None => Returned None
     | Some _ =>
         await user <- findOne_user s (fun u => String.eqb (Schema.email u) email) ;;
         Returned user
     end)
    (fun error => Returned None).

Definition createUser (fresh : ObjectId) (now : Z) (s : Store) (insertUser : InsertUser)
    : outcome User * Store :=
  try_catch_st
    (match getCollection "users" s with
     | None => (Thrown "MongoDB collection not available", s)
     | Some _ =>
         let userWithDate :=
           mkUser EmptyString (ins_email insertUser) (ins_password insertUser) (Some now) in
         match insertOne_user fresh userWithDate s with
         | (Returned insertedId, s') =>
             (Returned (mkUser insertedId (Schema.email userWithDate)
                          (password userWithDate) (createdAt userWithDate)), s')
         | (Thrown error, s') => (Thrown error, s')
         end
     end)
    (fun error => Thrown error).

Definition getConversions (s : Store) (userId : string)
    (filters : option ConversionFilters) (sortOptions : option SortOptions)
    (pagination : option PaginationOptions) : outcome (list Conversion) :=
  try_catch
    (match getCollection "conversions" s with
     | None => Returned []
     | Some _ =>
         let query := mkQuery userId None None None in
         let query :=
           match filters with
           | Some filters =>
               let query :=
                 match truthy (search filters) with
                 | Some s => set_filename query (s, "i")
                 | None => query
                 end in
               let query :=
                 match dateFrom filters, dateTo filters with
                 | None, None => query
                 | from, to =>
                     let r := mkRange None None in
                     let r := match from with Some d => set_gte r d | None => r end in
                     let r := match to with Some d => set_lte r d | None => r end in
                     set_convertedAt query r
                 end in
               match sizeMin filters, sizeMax filters with
               | None, None => query
               | smin, smax =>
                   let r := mkRange None None in
                   let r := match smin with Some n => set_gte r n | None => r end in
                   let r := match smax with Some n => set_lte r n | None => r end in
                   set_originalSize query r
               end
           | None => query
           end in
         let sortField := field_or_default sortOptions in
         let sortOrder :=
           match sortOptions with
           | Some (mkSort _ asc) => 1
           | _ => -1
           end in
         let dbQuery := sort (find query) sortField sortOrder in
         let dbQuery :=
           match pagination with
           | Some p =>
               let skip_ := (page p - 1) * limit p in
               limit_ (skip dbQuery skip_) (limit p)
           | None => dbQuery
           end in
         await conversions <- toArray engine s dbQuery ;;
         Returned conversions
     end)
    (fun error => Returned []).

Definition getConversionsCount (s : Store) (userId : string)
    (filters : option ConversionFilters) : outcome Z :=
  try_catch
    (match getCollection "conversions" s with
     | None => Returned 0
     | Some _ =>
         let query := mkQuery userId None None None in
         let query :=
           match filters with
           | Some filters =>
               let query :=
                 match truthy (search filters) with
                 | Some s => set_filename query (s, "i")
                 | None => query
                 end in
               let query :=
                 match dateFrom filters, dateTo filters with
                 | None, None => query
                 | from, to =>
                     let r := mkRange None None in
                     let r := match from with Some d => set_gte r d | None => r end in
                     let r := match to with Some d => set_lte r d | None => r end in
                     set_convertedAt query r
                 end in
               match sizeMin filters, sizeMax filters with
               | None, None => query
               | smin, smax =>
                   let r := mkRange None None in
                   let r := match smin with Some n => set_gte r n | None => r end in
                   let r := match smax with Some n => set_lte r n | None => r end in
                   set_originalSize query r
               end
           | None => query
           end in
         countDocuments engine s query
     end)
    (fun error => Returned 0).

Definition getConversion (s : Store) (id : string) : outcome (option Conversion) :=
  try_catch
    (match getCollection "conversions" s with
     | None => Returned None
     | Some _ =>
         await oid <- new_ObjectId id ;;
         await conversion <- findOne_conversion s (fun c => String.eqb (_id c) oid) ;;
         Returned conversion
     end)
    (fun error => Returned None).

Definition createConversion (fresh : ObjectId) (now : Z) (s : Store)
    (insertConversion : InsertConversion) : outcome Conversion * Store :=
  try_catch_st
    (match getCollection "conversions" s with
     | None => (Thrown "MongoDB collection not available", s)
     | Some _ =>
         let conversionWithDate :=
           mkConversion EmptyString (ins_userId insertConversion)
             (ins_filename insertConversion) (ins_originalSize insertConversion)
             (ins_xmlContent insertConversion) (Some now) in
         match insertOne_conversion fresh conversionWithDate s with
         | (Returned insertedId, s') =>
             (Returned (mkConversion insertedId (userId conversionWithDate)
                          (filename conversionWithDate)
                          (originalSize conversionWithDate)
                          (xmlContent conversionWithDate)
                          (convertedAt conversionWithDate)), s')
         | (Thrown error, s') => (Thrown error, s')
         end
     end)
    (fun error => Thrown error).

Definition deleteConversion (s : Store) (id : string) : outcome bool * Store :=
  try_catch_st
    (match getCollection "conversions" s with
     | None => (Returned false, s)
     | Some _ =>
         match new_ObjectId id with
         | Returned oid =>
             match deleteOne s oid with
             | (Returned deletedCount, s') => (Returned (0 <? deletedCount), s')
             | (Thrown error, s') => (Thrown error, s')
             end
         | Thrown error => (Thrown error, s)
         end
     end)
    (fun error => Returned false).

End Methods.

End Mongo.

(** ** storage-manager.ts: the selector of the active backend *)

Module Manager.

(** The storage objects [setStorage] can be given: the module's
    [memStorage], its lazily built [mongoStorage], another instance of
    [MemStorage] or of [MongoDBStorage] (such as the one [storage.ts]
    exports), or any other implementation of [IStorage].  [instanceof]
    tells the classes apart, [===] the objects. *)
Inductive StorageRef :=
| TheMemStorage
| TheMongoStorage
| AnotherMemStorage
| AnotherMongoDBStorage
| OtherStorage.

Definition instanceof_MemStorage (r : StorageRef) : bool :=
  match r with
  | TheMemStorage | AnotherMemStorage => true
  | _ => false
  end.

Definition instanceof_MongoDBStorage (r : StorageRef) : bool :=
  match r with
  | TheMongoStorage | AnotherMongoDBStorage => true
  | _ => false
  end.

(** [a === b], for [b] one of the two objects of the module: an object
    from elsewhere is neither. *)
Definition same_object (a b : StorageRef) : bool :=
  match a, b with
  | TheMemStorage, TheMemStorage => true
  | TheMongoStorage, TheMongoStorage => true
  | _, _ => false
  end.

(** The module-level variables, the two backends they refer to, and the
    console output. *)
Record System := mkSystem {
  activeStorage : StorageRef;
  hasAttemptedMigration : bool;
  mongoStorage : option StorageRef;
  memStorage : Mem.Machine;
  mongoStore : Driver.Store;
  console : list string
}.

Definition log (msg : string) (sys : System) : System :=
  mkSystem (activeStorage sys) (hasAttemptedMigration sys) (mongoStorage sys)
    (memStorage sys) (mongoStore sys) (console sys ++ [msg]).

Definition initial (store : Driver.Store) : System :=
  mkSystem TheMemStorage false None Mem.constructor store [].

(** [built] tells whether [new MongoDBStorage()] returned or threw. *)
Definition getMongoStorage (built : bool) (sys : System) : option StorageRef * System :=
  match mongoStorage sys with
  | None =>
      if built
      then
        let sys := mkSystem (activeStorage sys) (hasAttemptedMigration sys)
                     (Some TheMongoStorage) (memStorage sys) (mongoStore sys)
                     (console sys) in
        let sys := log "MongoDB storage initialized successfully" sys in
        (mongoStorage sys, sys)
      else
        let sys := log "Failed to initialize MongoDB storage:" sys in
        (None, sys)
  | Some r => (Some r, sys)
  end.

Definition migrateMemoryToMongo (mem : Mem.Machine) (mongo : Driver.Store)
    (sys : System) : outcome unit * System :=
  let sys := mkSystem (activeStorage sys) true (mongoStorage sys)
               (memStorage sys) (mongoStore sys) (console sys) in
  let sys := log "Attempting to migrate data from memory storage to MongoDB..." sys in
  (* the [try] block only logs: its comment says that a real
     implementation would migrate all users and their conversions *)
  (try_catch (Returned tt) (fun error => Thrown error),
   log "Migration of data from memory to MongoDB completed" sys).

Definition setStorage (storage : StorageRef) (sys : System) : System :=
  let previousStorage := activeStorage sys in
  let sys := mkSystem storage (hasAttemptedMigration sys) (mongoStorage sys)
               (memStorage sys) (mongoStore sys) (console sys) in
  let sys := log "Storage implementation has been updated" sys in
  let sys :=
    if instanceof_MongoDBStorage storage then log "Now using: MongoDB storage" sys
    else if instanceof_MemStorage storage then log "Now using: In-memory storage" sys
    else log "Now using: Unknown storage type" sys in
  if instanceof_MemStorage previousStorage &&
     instanceof_MongoDBStorage storage &&
     negb (hasAttemptedMigration sys)
  then snd (migrateMemoryToMongo (memStorage sys) (mongoStore sys) sys)
  else sys.

(** One run of the periodic check; [isConnected] is the flag of
    [db/mongodb.ts] at that moment. *)
Definition useMongoDBWithFallback (built isConnected : bool) (sys : System) : bool * System :=
  let (mongo, sys) := getMongoStorage built sys in
  match mongo with
  | None =>
      if negb (instanceof_MemStorage (activeStorage sys))
      then (false, log "Using in-memory storage (MongoDB not initialized)"
                     (setStorage TheMemStorage sys))
      else (false, sys)
  | Some mongo =>
      if isConnected
      then
        if negb (same_object (activeStorage sys) mongo)
        then (true, log "Using MongoDB storage (connected)" (setStorage mongo sys))
        else (true, sys)
      else
        if negb (instanceof_MemStorage (activeStorage sys))
        then (false, log "Using in-memory storage (MongoDB not connected)"
                       (setStorage TheMemStorage sys))
        else (false, sys)
  end.

(** The proxy [createConversion]: it delegates to the active storage.  An
    object other than the two of this module keeps its data elsewhere. *)
Definition createConversion (fresh : ObjectId) (now : Z)
    (conversion : InsertConversion) (sys : System) : System :=
  match activeStorage sys with
  | TheMemStorage =>
      mkSystem (activeStorage sys) (hasAttemptedMigration sys) (mongoStorage sys)
        (snd (Mem.createConversion fresh now conversion (memStorage sys)))
        (mongoStore sys) (console sys)
  | TheMongoStorage =>
      mkSystem (activeStorage sys) (hasAttemptedMigration sys) (mongoStorage sys)
        (memStorage sys)
        (snd (Mongo.createConversion fresh now (mongoStore sys) conversion))
        (console sys)
  | AnotherMemStorage | AnotherMongoDBStorage | OtherStorage => sys
  end.

(** What happens to the selector during a run of the process: a call of
    [setStorage], one periodic check, or an upload through the proxy. *)
Inductive Event :=
| SetStorage (storage : StorageRef)
| Check (built isConnected : bool)
| Create (fresh : ObjectId) (now : Z) (conversion : InsertConversion).

Definition step (sys : System) (e : Event) : System :=
  match e with
  | SetStorage storage => setStorage storage sys
  | Check built isConnected => snd (useMongoDBWithFallback built isConnected sys)
  | Create fresh now conversion => createConversion fresh now conversion sys
  end.

Definition run (es : list Event) (sys : System) : System := fold_left step es sys.

Definition announcement : string :=
  "Attempting to migrate data from memory storage to MongoDB...".

(** The number of migration attempts the console shows. *)
Definition attempts (sys : System) : nat :=
  length (List.filter (String.eqb announcement) (console sys)).

(** The flag and the console agree on the number of attempts. *)
Definition Agree (sys : System) : Prop :=
  attempts sys = if hasAttemptedMigration sys then 1%nat else 0%nat.

(** A message the selector prints other than the announcement. *)
Definition other (msg : string) : Prop := String.eqb announcement msg = false.

End Manager.

(** ** A reference regular expression engine

    The fragment of the store's PCRE syntax made of literal characters,
    the wildcard [.] and backslash-escaped metacharacters, searched
    anywhere in the subject, with the option [i] for case-insensitivity.
    Patterns using other metacharacters are outside the fragment and are
    rejected; the results that hold for every engine do not depend on this
    one. *)

Module Regex.

Inductive Atom :=
| AnyChar
| Lit (c : ascii).

Definition isMeta (c : ascii) : bool :=
  existsb (Ascii.eqb c) (list_ascii_of_string "\^$.|?*+()[]{}").

Fixpoint parse (p : string) : option (list Atom) :=
  match p with
  | EmptyString => Some []
  | String c r =>
      if Ascii.eqb c "\"
      then
        match r with
        | String d r' => if isMeta d then option_map (cons (Lit d)) (parse r') else None
        | EmptyString => None
        end
      else if Ascii.eqb c "." then option_map (cons AnyChar) (parse r)
      else if isMeta c then None
      else option_map (cons (Lit c)) (parse r)
  end.

Definition atom_ok (caseless : bool) (a : Atom) (c : ascii) : bool :=
  match a with
  | AnyChar => negb (Ascii.eqb c (ascii_of_nat 10))
  | Lit l =>
      if caseless then Ascii.eqb (lowerAscii l) (lowerAscii c) else Ascii.eqb l c
  end.

Fixpoint match_here (caseless : bool) (atoms : list Atom) (t : string) : bool :=
  match atoms, t with
  | [], _ => true
  | _ :: _, EmptyString => false
  | a :: atoms', String c t' => atom_ok caseless a c && match_here caseless atoms' t'
  end.

Fixpoint search_in (caseless : bool) (atoms : list Atom) (t : string) : bool :=
  match_here caseless atoms t ||
  match t with
  | EmptyString => false
  | String _ t' => search_in caseless atoms t'
  end.

Definition engine : Driver.RegexEngine :=
  fun pattern options =>
    match parse pattern with
    | None => None
    | Some atoms =>
        if String.eqb options "i" then Some (search_in true atoms)
        else if String.eqb options EmptyString then Some (search_in false atoms)
        else None
    end.

End Regex.

(** ** The contract in the words of the specification *)

Module Contract.

(** [sub] occurs in [s]. *)
Definition substring (sub s : string) : Prop :=
  exists pre post : string, s = (pre ++ sub ++ post)%string.

(** The search filter: a case-insensitive substring match against the
    filename. *)
Definition search_accepts (s : string) (c : Conversion) : Prop :=
  substring (toLowerCase s) (toLowerCase (filename c)).

(** The filter predicate over a record whose [convertedAt] is [t]: every
    filter that is provided accepts the record. *)
Definition accepts (filters : ConversionFilters) (t : Z) (c : Conversion) : Prop :=
  (forall s, search filters = Some s -> search_accepts s c) /\
  (forall d, dateFrom filters = Some d -> d <= t) /\
  (forall d, dateTo filters = Some d -> t <= d) /\
  (forall n, sizeMin filters = Some n -> n <= originalSize c) /\
  (forall n, sizeMax filters = Some n -> originalSize c <= n).

(** The elements of [xs] at the indices of the interval [[lo, hi)]. *)
Fixpoint slice_from {A} (i : Z) (lo hi : Z) (xs : list A) : list A :=
  match xs with
  | [] => []
  | x :: xs' =>
      if (lo <=? i) && (i <? hi) then x :: slice_from (i + 1) lo hi xs'
      else slice_from (i + 1) lo hi xs'
  end.

Definition slice {A} (lo hi : Z) (xs : list A) : list A := slice_from 0 lo hi xs.

End Contract.

(** ** The in-memory backend as a function of the stored conversions *)

Module MemView.

Import Mem.

Definition optFilter {A} (o : option A) (p : A -> Conversion -> bool)
    (l : list Conversion) : list Conversion :=
  match o with
  | Some a => List.filter (p a) l
  | None => l
  end.

Definition applyFilters (now : Z) (filters : option ConversionFilters)
    (l : list Conversion) : list Conversion :=
  match filters with
  | Some f =>
      optFilter (sizeMax f) (fun n conv => originalSize conv <=? n)
        (optFilter (sizeMin f) (fun n conv => n <=? originalSize conv)
           (optFilter (dateTo f) (fun d conv => convDate now conv <=? d)
              (optFilter (dateFrom f) (fun d conv => d <=? convDate now conv)
                 (optFilter (truthy (search f))
                    (fun s conv => includes (toLowerCase (filename conv)) (toLowerCase s))
                    l))))
  | None => l
  end.

Definition selected (now : Z) (userId : string) (filters : option ConversionFilters)
    (l : list Conversion) : list Conversion :=
  applyFilters now filters
    (List.filter (fun conv => String.eqb (Schema.userId conv) userId) l).

Definition ordered (now : Z) (sortOptions : option SortOptions)
    (l : list Conversion) : list Conversion :=
  stable_sort
    (compareFn (field_or_default sortOptions) (order_or_default sortOptions) now) l.

Definition paged (pagination : option PaginationOptions)
    (l : list Conversion) : list Conversion :=
  match pagination with
  | Some p =>
      js_slice l ((page p - 1) * limit p) ((page p - 1) * limit p + limit p)
  | None => l
  end.

(** What a method that allocates may do to a machine [m0]: keep [this],
    keep every array of [m0], and leave its result [xs] in an array that
    did not exist in [m0]. *)
Definition Fresh (m0 : Machine) (xs : list Conversion) (r : loc * Machine) : Prop :=
  this (snd r) = this m0 /\
  arrays m0 `prefix_of` arrays (snd r) /\
  (length (arrays m0) <= fst r)%nat /\
  arrays (snd r) !! fst r = Some xs.

(** The conversions array of the storage object exists in the machine. *)
Definition valid (m : Machine) : Prop :=
  (conversions (this m) < length (arrays m))%nat.

(** Every stored conversion has its [convertedAt]. *)
Definition dated (m : Machine) : Prop :=
  Forall (fun c => convertedAt c <> None) (stored m).

End MemView.

(** ** The in-memory listing with the clock read where the source reads it

    [Mem.getConversions] takes one value of the clock for a call.  The
    source reads the clock once for each record without [convertedAt] in
    each date filter ([new Date()]) and once for each such side of each
    comparison of the sort ([Date.now()]).  Here every reading is one of
    its own; the method works on the stored conversions as a list. *)

Module Clocked.

(** The clock of one call: [clock k] is what reading number [k] of the
    call returns. *)
Definition Clock : Type := nat -> Z.

(** Code that reads the clock: given the number of readings made so far,
    its result and the number of readings made after it. *)
Definition R (A : Type) : Type := nat -> A * nat.

Definition ret {A} (a : A) : R A := fun k => (a, k).

Definition bind {A B} (c : R A) (f : A -> R B) : R B :=
  fun k => let (a, k') := c k in f a k'.

Notation "x <- c ;; k" := (bind c (fun x => k))
  (at level 60, c at next level, right associativity).

Section Call.

Variable clock : Clock.

(** [new Date()], [Date.now()] *)
Definition read : R Z := fun k => (clock k, S k).

(** [conv.convertedAt ? new Date(conv.convertedAt) : new Date()] *)
Definition convDate (conv : Conversion) : R Z :=
  match convertedAt conv with
  | Some d => ret d
  | None => read
  end.

(** [xs.filter(p)]: the callback runs once on each element, in the order
    of the indices. *)
Fixpoint Array_filter (p : Conversion -> R bool) (l : list Conversion)
    : R (list Conversion) :=
  match l with
  | [] => ret []
  | x :: l' =>
      keep <- p x ;;
      rest <- Array_filter p l' ;;
      ret (if keep then x :: rest else rest)
  end.

(** The [valA] / [valB] of the sort comparator. *)
Definition sortVal (f : SortField) (a : Conversion) : R JsValue :=
  match f with
  | Field_filename => ret (VStr (toLowerCase (filename a)))
  | Field_originalSize => ret (VNum (originalSize a))
  | Field_convertedAt =>
      match convertedAt a with
      | Some d => ret (VNum d)
      | None => t <- read ;; ret (VNum t)
      end
  end.

Definition compareFn (f : SortField) (o : SortOrder) (a b : Conversion) : R Z :=
  valA <- sortVal f a ;;
  valB <- sortVal f b ;;
  ret (match o with
       | asc => if js_gt valA valB then 1 else if js_lt valA valB then -1 else 0
       | desc => if js_lt valA valB then 1 else if js_gt valA valB then -1 else 0
       end).

(** [xs.sort(cmp)] with a comparator that reads the clock: the stable
    insertion of the top, each comparison made when the insertion meets
    it. *)
Fixpoint sort_insert (cmp : Conversion -> Conversion -> R Z) (x : Conversion)
    (l : list Conversion) : R (list Conversion) :=
  match l with
  | [] => ret [x]
  | y :: l' =>
      c <- cmp x y ;;
      if c <=? 0 then ret (x :: y :: l')
      else (rest <- sort_insert cmp x l' ;; ret (y :: rest))
  end.

Fixpoint Array_sort (cmp : Conversion -> Conversion -> R Z) (l : list Conversion)
    : R (list Conversion) :=
  match l with
  | [] => ret []
  | x :: l' =>
      sorted <- Array_sort cmp l' ;;
      sort_insert cmp x sorted
  end.

(** The filters that follow the [userId] filter, in the order of the
    source. *)
Definition applyFilters (filters : option ConversionFilters)
    (filtered : list Conversion) : R (list Conversion) :=
  match filters with
  | Some filters =>
      let filtered :=
        match truthy (search filters) with
        | Some s =>
            let searchLower := toLowerCase s in
            List.filter
              (fun conv => includes (toLowerCase (filename conv)) searchLower)
              filtered
        | None => filtered
        end in
      filtered <-
        match dateFrom filters with
        | Some d =>
            Array_filter (fun conv => t <- convDate conv ;; ret (d <=? t)) filtered
        | None => ret filtered
        end ;;
      filtered <-
        match dateTo filters with
        | Some d =>
            Array_filter (fun conv => t <- convDate conv ;; ret (t <=? d)) filtered
        | None => ret filtered
        end ;;
      let filtered :=
        match sizeMin filters with
        | Some n => List.filter (fun conv => n <=? originalSize conv) filtered
        | None => filtered
        end in
      ret (match sizeMax filters with
           | Some n => List.filter (fun conv => originalSize conv <=? n) filtered
           | None => filtered
           end)
  | None => ret filtered
  end.

Definition getConversions (userId : string)
    (filters : option ConversionFilters) (sortOptions : option SortOptions)
    (pagination : option PaginationOptions) (stored : list Conversion)
    : R (list Conversion) :=
  filtered <-
    applyFilters filters
      (List.filter (fun conv => String.eqb (Schema.userId conv) userId) stored) ;;
  let f := field_or_default sortOptions in
  let o := order_or_default sortOptions in
  sorted <- Array_sort (compareFn f o) filtered ;;
  ret (match pagination with
       | Some p =>
           let startIndex := (page p - 1) * limit p in
           js_slice sorted startIndex (startIndex + limit p)
       | None => sorted
       end).

Definition getConversionsCount (userId : string)
    (filters : option ConversionFilters) (stored : list Conversion) : R Z :=
  filtered <-
    applyFilters filters
      (List.filter (fun conv => String.eqb (Schema.userId conv) userId) stored) ;;
  ret (Z.of_nat (length filtered)).

End Call.

(** The call listed by reading a clock from its first reading on. *)
Definition listed (clock : Clock) (userId : string)
    (filters : option ConversionFilters) (sortOptions : option SortOptions)
    (pagination : option PaginationOptions) (stored : list Conversion)
    : list Conversion :=
  fst (getConversions clock userId filters sortOptions pagination stored O).

Definition counted (clock : Clock) (userId : string)
    (filters : option ConversionFilters) (stored : list Conversion) : Z :=
  fst (getConversionsCount clock userId filters stored O).

(** A record without [convertedAt]. *)
Definition undated (c : Conversion) : bool :=
  match convertedAt c with
  | None => true
  | Some _ => false
  end.

(** Every date the records carry lies before [t]. *)
Definition before (t : Z) (l : list Conversion) : Prop :=
  Forall (fun c => forall d, convertedAt c = Some d -> d < t) l.

(** One clock value for the whole call is right for [l]: the clock
    stands still, or no record of [l] makes the code read it. *)
Definition steady (clock : Clock) (now : Z) (l : list Conversion) : Prop :=
  (forall k, clock k = now) \/ Forall (fun c => convertedAt c <> None) l.

(** The filters with one of the date bounds left out. *)
Definition without_dateTo (f : ConversionFilters) : ConversionFilters :=
  mkFilters (search f) (dateFrom f) None (sizeMin f) (sizeMax f).

Definition without_dateFrom (f : ConversionFilters) : ConversionFilters :=
  mkFilters (search f) None (dateTo f) (sizeMin f) (sizeMax f).

End Clocked.

(** ** The persistent backend as a query on the store *)

Module MongoView.

Import Driver.

(** The query both methods of the persistent backend build. *)
Definition query_of (userId : string) (filters : option ConversionFilters) : Query :=
  let query := mkQuery userId None None None in
  match filters with
  | Some filters =>
      let query :=
        match truthy (search filters) with
        | Some s => set_filename query (s, "i")
        | None => query
        end in
      let query :=
        match dateFrom filters, dateTo filters with
        | None, None => query
        | from, to =>
            let r := mkRange None None in
            let r := match from with Some d => set_gte r d | None => r end in
            let r := match to with Some d => set_lte r d | None => r end in
            set_convertedAt query r
        end in
      match sizeMin filters, sizeMax filters with
      | None, None => query
      | smin, smax =>
          let r := mkRange None None in
          let r := match smin with Some n => set_gte r n | None => r end in
          let r := match smax with Some n => set_lte r n | None => r end in
          set_originalSize query r
      end
  | None => query
  end.

Definition no_search (filters : option ConversionFilters) : Prop :=
  match filters with
  | Some f => truthy (search f) = None
  | None => True
  end.

(** The direction both backends derive from the sort order. *)
Definition direction (sortOptions : option SortOptions) : Z :=
  match sortOptions with
  | Some (mkSort _ asc) => 1
  | _ => -1
  end.

(** The filtered and sorted sequence of the persistent backend: the
    documents of the collection that satisfy the query, [re] being the
    compiled search pattern when there is one, in the order of the sort
    directive. *)
Definition selected (re : option (string -> bool)) (userId : string)
    (filters : option ConversionFilters) (docs : list Conversion) : list Conversion :=
  List.filter (matches re (query_of userId filters)) docs.

Definition ordered (sortOptions : option SortOptions) (l : list Conversion)
    : list Conversion :=
  stable_sort (sort_cmp (field_or_default sortOptions) (direction sortOptions)) l.

End MongoView.

(** ** Scenarios

    Machines and stores reached from the empty ones by [createConversion],
    used to run the two backends side by side on the same records. *)

Module Scenario.

Definition oid (n : string) : ObjectId :=
  ("00000000000000000000000" ++ n)%string.

Definition upload (name : string) (size : Z) : InsertConversion :=
  mkInsertConversion "u1" name size "<document/>".

(** Each entry: the identity drawn, the clock, and the upload. *)
Definition Creation : Type := ObjectId * Z * InsertConversion.

Definition mem_after (cs : list Creation) : Mem.Machine :=
  fold_left
    (fun m '(fresh, now, ins) => snd (Mem.createConversion fresh now ins m))
    cs Mem.constructor.

Definition empty_store : Driver.Store := Driver.mkStore Driver.LinkUp [] [].

Definition mongo_after (cs : list Creation) : Driver.Store :=
  fold_left
    (fun s '(fresh, now, ins) => snd (Mongo.createConversion fresh now s ins))
    cs empty_store.

(** Two uploads whose names differ in the case of the first letter. *)
Definition mixed_case : list Creation :=
  [ (oid "1", 1000, upload "a.pdf" 100);
    (oid "2", 2000, upload "B.pdf" 200) ].

(** One upload whose name has no dot in it. *)
Definition no_dot : list Creation :=
  [ (oid "1", 1000, upload "abc" 100) ].

(** Two uploads of different sizes. *)
Definition two_sizes : list Creation :=
  [ (oid "1", 1000, upload "a.pdf" 100);
    (oid "2", 2000, upload "b.pdf" 5000) ].

Definition by_filename_asc : option SortOptions := Some (mkSort Field_filename asc).

Definition search_for (s : string) : option ConversionFilters :=
  Some (mkFilters (Some s) None None None None).

Definition no_filters : ConversionFilters := mkFilters None None None None None.

Definition unreachable_store : Driver.Store := Driver.mkStore Driver.LinkDown [] [].

Definition registration : InsertUser := mkInsertUser "ann@example.org" "hash".

(** A record that has no [convertedAt]. *)
Definition undated : Conversion :=
  mkConversion (oid "7") "u1" "old.pdf" 300 "<document/>" None.

(** An in-memory backend holding a record converted at 1000 and, after
    it, the record that has no [convertedAt]. *)
Definition mem_one_undated : Mem.Machine :=
  Mem.mkMachine
    [[mkConversion (oid "6") "u1" "new.pdf" 200 "<document/>" (Some 1000); undated]]
    (Mem.mkMemStorage [] 0%nat 1 3).

(** A clock that starts at 5000 and advances by one at each of its first
    readings. *)
Definition ticking : Clocked.Clock := fun k => Z.min (5000 + Z.of_nat k) 5009.

(** The process starts on the in-memory backend and takes one upload. *)
Definition outage : list Manager.Event :=
  [ Manager.Create (oid "1") 1000 (upload "a.pdf" 100) ].

End Scenario.

(** ** Sort keys *)

Module Keys.

(** Two keys of one sort field are both strings or both numbers. *)
Definition same_kind (a b : JsValue) : Prop :=
  match a, b with
  | VStr _, VStr _ => True
  | VNum _, VNum _ => True
  | _, _ => False
  end.

(** Equality of two keys. *)
Definition eqb (a b : JsValue) : bool :=
  match a, b with
  | VStr s, VStr t => String.eqb s t
  | VNum n, VNum m => n =? m
  | _, _ => false
  end.

End Keys.

(** ** MongoDBStorage.checkConnection: the probe of the persistent backend *)

Module Probe.

Import Driver.

(** The private flag of the storage object and the console. *)
Record Backend := mkBackend {
  connectionOK : bool;
  console : list string
}.

Definition say (msg : string) (b : Backend) : Backend :=
  mkBackend (connectionOK b) (console b ++ [msg]).

(** The lines the awaited [getCollection] prints, with
    [connectToDatabase] and [isMongoConnected] under it. *)
Definition hear (lines : list string) (b : Backend) : Backend :=
  mkBackend (connectionOK b) (console b ++ lines).

Definition set_connectionOK (v : bool) (b : Backend) : Backend :=
  mkBackend v (console b).

(** [usersCollection.countDocuments({}, { limit: 1 })] *)
Definition countDocuments_one (s : Store) : outcome Z :=
  match link s with
  | LinkUp => Returned (Z.min 1 (Z.of_nat (length (users s))))
  | _ => Thrown "connection closed"
  end.

(** [new MongoDBStorage()] leaves the flag unset. *)
Definition constructor : Backend := mkBackend false [].

(** [heard] is what [getCollection] prints during this call; [b] holds
    the flag as it is when the awaits have settled, where the method reads
    and writes it. *)
Definition checkConnection (heard : list string) (s : Store) (b : Backend)
    : bool * Backend :=
  let b := hear heard b in
  match getCollection "users" s with
  | None =>
      if connectionOK b
      then (false, set_connectionOK false (say "MongoDB connection lost" b))
      else (false, b)
  | Some _ =>
      match countDocuments_one s with
      | Returned _ =>
          if negb (connectionOK b)
          then (true, set_connectionOK true
                        (say "MongoDB connection established successfully" b))
          else (true, b)
      | Thrown error =>
          if connectionOK b
          then (false, set_connectionOK false (say "MongoDB connection error:" b))
          else (false, b)
      end
  end.

End Probe.

(** ** db/mongodb.ts: connecting, with a bounded number of attempts

    [mongoose] is the environment: its [readyState] changes when it
    connects, loses the connection or reconnects, and it tells the
    listeners this module registered after a successful [connect]. *)

Module Connection.

Definition MAX_CONNECTION_ATTEMPTS : Z := 5.

(** The module variables, the URI of the environment, the state of
    mongoose, the number of times the listeners were registered, the
    attempt numbers announced on the console (one line [Attempt k/5] for
    each call of [mongoose.connect]), and the number of calls of
    [connectToDatabase] that wait for their [mongoose.connect]. *)
Record State := mkState {
  uri : option string;
  readyState : Z;
  isConnected : bool;
  connectionAttempts : Z;
  listeners : nat;
  announced : list Z;
  pending : nat
}.

(** The process starts disconnected. *)
Definition initial (u : option string) : State := mkState u 0 false 0 0 [] 0.

(** How the race of [mongoose.connect] against the 30 second timer ends:
    the connection is established, or the attempt is rejected and leaves
    the connection in some other state. *)
Inductive Attempt :=
| Resolves
| Rejects (readyState_after : Z).

(** What a call has done when it reaches its [await] or returns before
    it: it has answered ([true] for the connection, [false] for [null]),
    or it has called [mongoose.connect] and waits. *)
Inductive Begun :=
| Answered (connection : bool)
| Awaiting.

(** [connectToDatabase] up to its [await]. *)
Definition begin (st : State) : Begun * State :=
  if readyState st =? 1
  then (Answered true,
        mkState (uri st) (readyState st) true (connectionAttempts st)
          (listeners st) (announced st) (pending st))
  else if MAX_CONNECTION_ATTEMPTS <=? connectionAttempts st
  then (Answered false, st)
  else
    match truthy (uri st) with
    | None => (Answered false, st)
    | Some _ =>
        let attempts := connectionAttempts st + 1 in
        (Awaiting,
         mkState (uri st) (readyState st) (isConnected st) attempts
           (listeners st) (announced st ++ [attempts]) (S (pending st)))
    end.

(** [connectToDatabase] after its [await], once the race is settled: the
    rest of the [try] block, or the [catch] block. *)
Definition settle (a : Attempt) (st : State) : bool * State :=
  match a with
  | Resolves =>
      (true,
       mkState (uri st) 1 true 0 (S (listeners st)) (announced st)
         (Nat.pred (pending st)))
  | Rejects after =>
      (false,
       mkState (uri st) after (isConnected st) (connectionAttempts st)
         (listeners st) (announced st) (Nat.pred (pending st)))
  end.

(** A call of [connectToDatabase] during which nothing else runs.  The
    result is [true] for the connection and [false] for [null]. *)
Definition connectToDatabase (a : Attempt) (st : State) : bool * State :=
  match begin st with
  | (Answered connection, st) => (connection, st)
  | (Awaiting, st) => settle a st
  end.

Definition isMongoConnected (st : State) : bool := readyState st =? 1.

(** The condition of the timer of this module: every 30 seconds, one
    more call when the connection is not ready and attempts are left. *)
Definition due (st : State) : bool :=
  negb (isMongoConnected st) &&
  (connectionAttempts st <? MAX_CONNECTION_ATTEMPTS).

Definition tick (a : Attempt) (st : State) : State :=
  if due st then snd (connectToDatabase a st) else st.

(** The handlers registered after a successful connect are the only
    writers of [isConnected] outside [connectToDatabase]. *)
Definition heard (v : bool) (st : State) : bool :=
  match listeners st with
  | O => isConnected st
  | S _ => v
  end.

(** What can happen to the module during a run.  A call of
    [connectToDatabase] (by [getCollection] or by anyone) or of the timer
    either settles before anything else happens ([Connect], [Tick]), or
    it starts ([Begin], [TickBegin]) and its race is settled later
    ([Settle]), with other events in between; a call can only be waiting
    when there is a URI.  The other events are the three events of
    mongoose and a change of its state that comes with no event. *)
Inductive Event :=
| Connect (a : Attempt)
| Tick (a : Attempt)
| Begin
| TickBegin
| Settle (a : Attempt)
| Disconnected
| ErrorEvent
| Reconnected
| StateChange (readyState_after : Z).

Definition step (st : State) (e : Event) : State :=
  match e with
  | Connect a => snd (connectToDatabase a st)
  | Tick a => tick a st
  | Begin => snd (begin st)
  | TickBegin => if due st then snd (begin st) else st
  | Settle a =>
      match pending st, truthy (uri st) with
      | S _, Some _ => snd (settle a st)
      | _, _ => st
      end
  | Disconnected =>
      mkState (uri st) 0 (heard false st) (connectionAttempts st) (listeners st)
        (announced st) (pending st)
  | ErrorEvent =>
      mkState (uri st) (readyState st) (heard false st) (connectionAttempts st)
        (listeners st) (announced st) (pending st)
  | Reconnected =>
      mkState (uri st) 1 (heard true st) (connectionAttempts st) (listeners st)
        (announced st) (pending st)
  | StateChange after =>
      mkState (uri st) after (isConnected st) (connectionAttempts st)
        (listeners st) (announced st) (pending st)
  end.

Definition run (es : list Event) (st : State) : State := fold_left step es st.

(** The attempts counted and announced stay within the maximum. *)
Definition Bounded (st : State) : Prop :=
  0 <= connectionAttempts st <= MAX_CONNECTION_ATTEMPTS /\
  List.Forall (fun k => 1 <= k <= MAX_CONNECTION_ATTEMPTS) (announced st).

End Connection.

(** ** Reading the console of the selector *)

Module ManagerView.

Import Manager.

(** How many times the selector has printed [line]. *)
Definition printed (line : string) (sys : System) : nat :=
  length (List.filter (String.eqb line) (console sys)).

Definition built_line : string := "MongoDB storage initialized successfully".

(** The slot of the lazily built storage holds nothing or that storage. *)
Definition slot_ok (sys : System) : Prop :=
  mongoStorage sys = None \/ mongoStorage sys = Some TheMongoStorage.

Definition is_built (sys : System) : bool :=
  match mongoStorage sys with
  | Some _ => true
  | None => false
  end.

(** The console shows the line of the build once exactly when the slot
    is filled. *)
Definition Once (sys : System) : Prop :=
  printed built_line sys = if is_built sys then 1%nat else 0%nat.

End ManagerView.

(** ** The interface [IStorage] and its two implementations *)

Module Storage.

(** The methods of [IStorage] the handlers below call.  A method may
    throw; the in-memory implementation never does. *)
Class IStorage (S : Type) := {
  getUserByEmail : string -> S -> outcome (option User) * S;
  createUser : ObjectId -> Z -> InsertUser -> S -> outcome User * S;
  getConversion : string -> S -> outcome (option Conversion) * S;
  deleteConversion : string -> S -> outcome bool * S
}.

Definition lift {A} (c : Mem.M A) (m : Mem.Machine) : outcome A * Mem.Machine :=
  (Returned (fst (c m)), snd (c m)).

#[global] Instance MemStorage_IStorage : IStorage Mem.Machine := {
  getUserByEmail email := lift (Mem.getUserByEmail email);
  createUser fresh now insertUser := lift (Mem.createUser fresh now insertUser);
  getConversion id := lift (Mem.getConversion id);
  deleteConversion id := lift (Mem.deleteConversion id)
}.

(** The persistent backend as one request meets it: the store, and the
    states in which the coming calls of the request will find the link.
    Between these calls the link may change; writes of other requests in
    between are not part of this view. *)
Record Remote := mkRemote {
  store : Driver.Store;
  forecast : list Driver.Link
}.

Definition arrive (r : Remote) : Remote :=
  match forecast r with
  | [] => r
  | l :: ls =>
      mkRemote (Driver.mkStore l (Driver.users (store r))
                  (Driver.conversions (store r))) ls
  end.

#[global] Instance MongoDBStorage_IStorage : IStorage Remote := {
  getUserByEmail email r :=
    let r := arrive r in
    (Mongo.getUserByEmail (store r) email, r);
  createUser fresh now insertUser r :=
    let r := arrive r in
    (fst (Mongo.createUser fresh now (store r) insertUser),
     mkRemote (snd (Mongo.createUser fresh now (store r) insertUser)) (forecast r));
  getConversion id r :=
    let r := arrive r in
    (Mongo.getConversion (store r) id, r);
  deleteConversion id r :=
    let r := arrive r in
    (fst (Mongo.deleteConversion (store r) id),
     mkRemote (snd (Mongo.deleteConversion (store r) id)) (forecast r))
}.

(** What the persistent [getConversion] finds: the first document with
    the identity the request names, when the link is up and the name is an
    identity; nothing otherwise. *)
Definition found (s : Driver.Store) (id : string) : option Conversion :=
  match Driver.link s, Driver.new_ObjectId id with
  | Driver.LinkUp, Returned oid =>
      js_find (fun c => String.eqb (_id c) oid) (Driver.conversions s)
  | _, _ => None
  end.

End Storage.

(** ** The handlers of the conversion routes *)

Module Routes.

Inductive Body :=
| Message (message : string)
| ConversionData (id : string) (filename : string) (convertedAt : option Z)
    (xmlContent : string).

Record Response := mkResponse {
  status : Z;
  json : Body
}.

(** [error.message || fallback] *)
Definition message_or (fallback : string) (error : string) : string :=
  default fallback (truthy (Some error)).

Section Handlers.

Context {S : Type} `{Storage.IStorage S}.

(** [GET /api/conversions/:id]; [user] is [req.user]. *)
Definition getConversionRoute (user : option User) (conversionId : string) (s : S)
    : Response * S :=
  match user with
  | None => (mkResponse 401 (Message "Authentication required"), s)
  | Some u =>
      match Storage.getConversion conversionId s with
      | (Returned None, s) => (mkResponse 404 (Message "Conversion not found"), s)
      | (Returned (Some conversion), s) =>
          if negb (String.eqb (userId conversion) (u_id u))
          then (mkResponse 403
                  (Message "You do not have permission to access this conversion"), s)
          else (mkResponse 200
                  (ConversionData (_id conversion) (filename conversion)
                     (convertedAt conversion) (xmlContent conversion)), s)
      | (Thrown error, s) =>
          (mkResponse 500 (Message (message_or "Failed to fetch conversion" error)), s)
      end
  end.

(** [DELETE /api/conversions/:id] *)
Definition deleteConversionRoute (user : option User) (conversionId : string) (s : S)
    : Response * S :=
  match user with
  | None => (mkResponse 401 (Message "Authentication required"), s)
  | Some u =>
      match Storage.getConversion conversionId s with
      | (Returned None, s) => (mkResponse 404 (Message "Conversion not found"), s)
      | (Returned (Some conversion), s) =>
          if negb (String.eqb (userId conversion) (u_id u))
          then (mkResponse 403
                  (Message "You do not have permission to delete this conversion"), s)
          else
            match Storage.deleteConversion conversionId s with
            | (Returned true, s) =>
                (mkResponse 200 (Message "Conversion deleted successfully"), s)
            | (Returned false, s) =>
                (mkResponse 500 (Message "Failed to delete conversion"), s)
            | (Thrown error, s) =>
                (mkResponse 500
                   (Message (message_or "Failed to delete conversion" error)), s)
            end
      | (Thrown error, s) =>
          (mkResponse 500 (Message (message_or "Failed to delete conversion" error)), s)
      end
  end.

End Handlers.

End Routes.

(** ** Registration *)

Module Auth.

(** The fields of the request body; a field that is missing or not a
    string is [None]. *)
Record RegisterBody := mkRegisterBody {
  b_email : option string;
  b_password : option string;
  b_confirmPassword : option string
}.

Definition between (lo hi : nat) (c : ascii) : bool :=
  ((lo <=? nat_of_ascii c) && (nat_of_ascii c <=? hi))%nat.

Definition isUpper : ascii -> bool := between 65 90.
Definition isLower : ascii -> bool := between 97 122.
Definition isDigit : ascii -> bool := between 48 57.

(** [/[^a-zA-Z0-9]/] *)
Definition isSpecial (c : ascii) : bool :=
  negb (isLower c || isUpper c || isDigit c).

(** Whether a regular expression of one character class finds a match. *)
Definition has (class : ascii -> bool) (s : string) : bool :=
  existsb class (list_ascii_of_string s).

Inductive Reply :=
| Errors
| Error (error : string)
| Created (id : ObjectId) (email : string) (createdAt : option Z) (token : string).

Record Response := mkResponse {
  status : Z;
  json : Reply
}.

Section Registration.

Context {S : Type} `{Storage.IStorage S}.

(** The check of the email format is the one of the validation library. *)
Variable isEmail : string -> bool.

(** [registerSchema.safeParse(req.body)]: the data on success. *)
Definition registerSchema_safeParse (body : RegisterBody) : option (string * string) :=
  match b_email body, b_password body, b_confirmPassword body with
  | Some email, Some password, Some confirmPassword =>
      if isEmail email &&
         (6 <=? String.length password)%nat &&
         has isUpper password &&
         has isLower password &&
         has isSpecial password &&
         (1 <=? String.length confirmPassword)%nat &&
         String.eqb password confirmPassword
      then Some (email, password)
      else None
  | _, _, _ => None
  end.

(** What the request meets outside the storage: the salted hash, the
    signed token, the identity and the clock of [createUser]. *)
Variable hashPassword : string -> outcome string.
Variable generateToken : User -> outcome string.
Variable fresh : ObjectId.
Variable now : Z.

Definition server_error : Response :=
  mkResponse 500 (Error "Server error during registration").

Definition register (body : RegisterBody) (s : S) : Response * S :=
  match registerSchema_safeParse body with
  | None => (mkResponse 400 Errors, s)
  | Some (email, password) =>
      match Storage.getUserByEmail email s with
      | (Returned (Some existingUser), s) =>
          (mkResponse 400 (Error "Email already exists"), s)
      | (Returned None, s) =>
          match hashPassword password with
          | Returned hashedPassword =>
              match Storage.createUser fresh now (mkInsertUser email hashedPassword) s with
              | (Returned newUser, s) =>
                  match generateToken newUser with
                  | Returned token =>
                      (mkResponse 201
                         (Created (u_id newUser) (Schema.email newUser)
                            (createdAt newUser) token), s)
                  | Thrown error => (server_error, s)
                  end
              | (Thrown error, s) => (server_error, s)
              end
          | Thrown error => (server_error, s)
          end
      | (Thrown error, s) => (server_error, s)
      end
  end.

End Registration.

(** One registration request with what it meets. *)
Record Request := mkRequest {
  isEmail : string -> bool;
  hashPassword : string -> outcome string;
  generateToken : User -> outcome string;
  fresh : ObjectId;
  now : Z;
  body : RegisterBody
}.

(** Requests handled one after the other by the in-memory backend. *)
Definition serve (m : Mem.Machine) (q : Request) : Mem.Machine :=
  snd (register (isEmail q) (hashPassword q) (generateToken q) (fresh q) (now q)
         (body q) m).

Definition serve_all (qs : list Request) (m : Mem.Machine) : Mem.Machine :=
  fold_left serve qs m.

End Auth.

(** * Properties *)

(** ** Running the methods of the in-memory backend *)

Module MemFacts.

Import Mem MemView.

Lemma bind_run {A B} (c : M A) (k : A -> M B) (m : Machine) :
  bind c k m = k (fst (c m)) (snd (c m)).
Proof. unfold bind. destruct (c m); reflexivity. Qed.

Lemma readArray_lookup (a : loc) (m : Machine) (xs : list Conversion) :
  arrays m !! a = Some xs -> readArray a m = xs.
Proof. unfold readArray. intros ->. reflexivity. Qed.

Lemma prefix_insert_beyond (l1 l2 : list (list Conversion)) (i : nat) (x : list Conversion) :
  l1 `prefix_of` l2 -> (length l1 <= i)%nat -> l1 `prefix_of` <[i := x]> l2.
Proof.
  intros [k ->] Hi. rewrite insert_app_r_alt by exact Hi.
  eexists. reflexivity.
Qed.

Lemma Fresh_first (m0 : Machine) (p : Conversion -> bool) :
  Fresh m0 (List.filter p (stored m0)) (Array_filter p (conversions (this m0)) m0).
Proof.
  unfold Fresh, Array_filter, alloc, stored; simpl. repeat split.
  - apply prefix_app_r. reflexivity.
  - lia.
  - rewrite lookup_app_r by lia. rewrite Nat.sub_diag. reflexivity.
Qed.

Lemma Fresh_filter (m0 : Machine) (xs : list Conversion) (l : loc) (m : Machine)
    (p : Conversion -> bool) :
  Fresh m0 xs (l, m) -> Fresh m0 (List.filter p xs) (Array_filter p l m).
Proof.
  unfold Fresh, Array_filter, alloc; simpl. intros (Ht & Hp & Hl & Hx).
  rewrite (readArray_lookup _ _ _ Hx). repeat split.
  - exact Ht.
  - apply prefix_app_r. exact Hp.
  - apply prefix_length in Hp. lia.
  - rewrite lookup_app_r by lia. rewrite Nat.sub_diag. reflexivity.
Qed.

Lemma Fresh_opt {A} (m0 : Machine) (xs : list Conversion) (l : loc) (m : Machine)
    (o : option A) (p : A -> Conversion -> bool) :
  Fresh m0 xs (l, m) ->
  Fresh m0 (optFilter o p xs)
    (match o with Some a => Array_filter (p a) l | None => ret l end m).
Proof.
  intros H. destruct o as [a|]; simpl.
  - apply Fresh_filter. exact H.
  - exact H.
Qed.

Lemma Fresh_sort (m0 : Machine) (xs : list Conversion) (l : loc) (m : Machine)
    (cmp : Conversion -> Conversion -> Z) :
  Fresh m0 xs (l, m) ->
  Fresh m0 (stable_sort cmp xs) (l, snd (Array_sort cmp l m)).
Proof.
  unfold Fresh, Array_sort; simpl. intros (Ht & Hp & Hl & Hx).
  rewrite (readArray_lookup _ _ _ Hx). repeat split.
  - exact Ht.
  - apply prefix_insert_beyond; assumption.
  - exact Hl.
  - apply list_lookup_insert_eq. eapply lookup_lt_Some. exact Hx.
Qed.

Lemma Fresh_slice (m0 : Machine) (xs : list Conversion) (l : loc) (m : Machine)
    (a b : Z) :
  Fresh m0 xs (l, m) -> Fresh m0 (js_slice xs a b) (Array_slice l a b m).
Proof.
  unfold Fresh, Array_slice, alloc; simpl. intros (Ht & Hp & Hl & Hx).
  rewrite (readArray_lookup _ _ _ Hx). repeat split.
  - exact Ht.
  - apply prefix_app_r. exact Hp.
  - apply prefix_length in Hp. lia.
  - rewrite lookup_app_r by lia. rewrite Nat.sub_diag. reflexivity.
Qed.

Lemma Fresh_bind (m0 : Machine) (xs ys : list Conversion) (c : M loc)
    (k : loc -> M loc) (m : Machine) :
  Fresh m0 xs (c m) ->
  (forall l' m', Fresh m0 xs (l', m') -> Fresh m0 ys (k l' m')) ->
  Fresh m0 ys (bind c k m).
Proof.
  intros Hc Hk. rewrite bind_run. apply Hk. destruct (c m); exact Hc.
Qed.

(** The filter steps that [getConversions] and [getConversionsCount] run
    after the [userId] filter. *)
Lemma Fresh_filters (m0 : Machine) (xs : list Conversion) (l : loc) (m : Machine)
    (now : Z) (filters : option ConversionFilters) (r : loc * Machine) :
  Fresh m0 xs (l, m) ->
  r = (match filters with
      | Some filters =>
          (filtered <-
             match truthy (search filters) with
             | Some s =>
                 let searchLower := toLowerCase s in
                 Array_filter
                   (fun conv => includes (toLowerCase (filename conv)) searchLower)
                   l
             | None => ret l
             end ;;
           filtered <-
             match dateFrom filters with
             | Some d => Array_filter (fun conv => d <=? convDate now conv) filtered
             | None => ret filtered
             end ;;
           filtered <-
             match dateTo filters with
             | Some d => Array_filter (fun conv => convDate now conv <=? d) filtered
             | None => ret filtered
             end ;;
           filtered <-
             match sizeMin filters with
             | Some n => Array_filter (fun conv => n <=? originalSize conv) filtered
             | None => ret filtered
             end ;;
           match sizeMax filters with
           | Some n => Array_filter (fun conv => originalSize conv <=? n) filtered
           | None => ret filtered
           end)
      | None => ret l
      end) m ->
  Fresh m0 (applyFilters now filters xs) r.
Proof.
  intros H ->. destruct filters as [f|]; [|exact H].
  eapply Fresh_bind.
  { exact (Fresh_opt m0 xs l m (truthy (search f))
      (fun s conv => includes (toLowerCase (filename conv)) (toLowerCase s)) H). }
  intros l1 m1 H1. eapply Fresh_bind.
  { exact (Fresh_opt m0 _ l1 m1 (dateFrom f)
      (fun d conv => d <=? convDate now conv) H1). }
  intros l2 m2 H2. eapply Fresh_bind.
  { exact (Fresh_opt m0 _ l2 m2 (dateTo f)
      (fun d conv => convDate now conv <=? d) H2). }
  intros l3 m3 H3. eapply Fresh_bind.
  { exact (Fresh_opt m0 _ l3 m3 (sizeMin f)
      (fun n conv => n <=? originalSize conv) H3). }
  intros l4 m4 H4.
  exact (Fresh_opt m0 _ l4 m4 (sizeMax f)
    (fun n conv => originalSize conv <=? n) H4).
Qed.

Lemma bind_rule {A B} (P : A * Machine -> Prop) (Q : B * Machine -> Prop)
    (c : M A) (k : A -> M B) (m : Machine) :
  P (c m) -> (forall a m', P (a, m') -> Q (k a m')) -> Q (bind c k m).
Proof.
  intros Hc Hk. rewrite bind_run. apply Hk. destruct (c m); exact Hc.
Qed.

(** [getConversions] leaves, in a new array, the page of the ordered
    selection of the stored conversions. *)
Lemma getConversions_run (now : Z) (userId : string)
    (filters : option ConversionFilters) (sortOptions : option SortOptions)
    (pagination : option PaginationOptions) (m : Machine) :
  Fresh m (paged pagination (ordered now sortOptions
             (selected now userId filters (stored m))))
    (getConversions now userId filters sortOptions pagination m).
Proof.
  unfold getConversions.
  apply (bind_rule (fun r => r = (this m, m))); [reflexivity|].
  intros t m' [= -> ->].
  apply (bind_rule (Fresh m (List.filter
           (fun conv => String.eqb (Schema.userId conv) userId) (stored m)))).
  { apply Fresh_first. }
  intros l0 m0 H0.
  apply (bind_rule (Fresh m (selected now userId filters (stored m)))).
  { unfold selected. eapply Fresh_filters; [exact H0|reflexivity]. }
  intros l1 m1 H1.
  apply (bind_rule (fun r => Fresh m (ordered now sortOptions
           (selected now userId filters (stored m))) (l1, snd r))).
  { apply Fresh_sort. exact H1. }
  intros [] m2 H2. simpl in H2.
  destruct pagination as [p|]; simpl.
  - apply Fresh_slice. exact H2.
  - exact H2.
Qed.

Lemma getConversionsCount_run (now : Z) (userId : string)
    (filters : option ConversionFilters) (m : Machine) :
  fst (getConversionsCount now userId filters m) =
    Z.of_nat (length (selected now userId filters (stored m))) /\
  this (snd (getConversionsCount now userId filters m)) = this m /\
  arrays m `prefix_of` arrays (snd (getConversionsCount now userId filters m)).
Proof.
  unfold getConversionsCount.
  apply (bind_rule (fun r => r = (this m, m))); [reflexivity|].
  intros t m' [= -> ->].
  apply (bind_rule (Fresh m (List.filter
           (fun conv => String.eqb (Schema.userId conv) userId) (stored m)))).
  { apply Fresh_first. }
  intros l0 m0 H0.
  apply (bind_rule (Fresh m (selected now userId filters (stored m)))).
  { unfold selected. eapply Fresh_filters; [exact H0|reflexivity]. }
  intros l1 m1 (Ht & Hp & _ & Hx).
  unfold Array_length; simpl in *.
  rewrite (readArray_lookup _ _ _ Hx). auto.
Qed.

(** The array [getConversions] returns. *)
Lemma getConversions_returned (now : Z) (userId : string)
    (filters : option ConversionFilters) (sortOptions : option SortOptions)
    (pagination : option PaginationOptions) (m : Machine) :
  returned (getConversions now userId filters sortOptions pagination m) =
  paged pagination (ordered now sortOptions (selected now userId filters (stored m))).
Proof.
  destruct (getConversions_run now userId filters sortOptions pagination m)
    as (_ & _ & _ & Hx).
  unfold returned. apply readArray_lookup. exact Hx.
Qed.

End MemFacts.

(** ** Lists and strings *)

Module Basics.

Lemma sort_insert_Permutation {A} (cmp : A -> A -> Z) (x : A) (l : list A) :
  Permutation (x :: l) (sort_insert cmp x l).
Proof.
  induction l as [|y l IH]; simpl.
  - reflexivity.
  - destruct (cmp x y <=? 0).
    + reflexivity.
    + rewrite perm_swap. constructor. exact IH.
Qed.

Lemma stable_sort_Permutation {A} (cmp : A -> A -> Z) (l : list A) :
  Permutation l (stable_sort cmp l).
Proof.
  induction l as [|x l IH]; simpl.
  - reflexivity.
  - rewrite <- sort_insert_Permutation. constructor. exact IH.
Qed.

Lemma length_stable_sort {A} (cmp : A -> A -> Z) (l : list A) :
  length (stable_sort cmp l) = length l.
Proof. symmetry. apply Permutation_length, stable_sort_Permutation. Qed.

Lemma elem_of_stable_sort {A} (cmp : A -> A -> Z) (l : list A) (x : A) :
  In x (stable_sort cmp l) <-> In x l.
Proof.
  split; apply Permutation_in;
    [symmetry|]; apply stable_sort_Permutation.
Qed.

Lemma startsWith_spec (s p : string) :
  startsWith s p = true <-> exists post, s = (p ++ post)%string.
Proof.
  revert s. induction p as [|b p IH]; intros s; simpl.
  - split; [intros _; exists s; reflexivity | reflexivity].
  - destruct s as [|a s].
    + split; [discriminate | intros [post H]; discriminate].
    + rewrite andb_true_iff, Ascii.eqb_eq, IH. split.
      * intros [-> [post ->]]. exists post. reflexivity.
      * intros [post [= -> ->]]. split; [reflexivity | exists post; reflexivity].
Qed.

Lemma includes_spec (s sub : string) :
  includes s sub = true <-> Contract.substring sub s.
Proof.
  unfold Contract.substring. induction s as [|a s IH]; simpl.
  - rewrite orb_false_r, startsWith_spec. split.
    + intros [post H]. exists EmptyString, post. exact H.
    + intros [pre [post H]]. destruct pre; [exists post; exact H|discriminate].
  - rewrite orb_true_iff, startsWith_spec, IH. split.
    + intros [[post H] | [pre [post H]]].
      * exists EmptyString, post. exact H.
      * exists (String a pre), post. simpl. rewrite H. reflexivity.
    + intros [pre [post H]]. destruct pre as [|b pre]; simpl in H.
      * left. exists post. exact H.
      * right. injection H as -> ->. exists pre, post. reflexivity.
Qed.

Lemma slice_from_past {A} (i lo hi : Z) (xs : list A) :
  hi <= i -> Contract.slice_from i lo hi xs = [].
Proof.
  revert i. induction xs as [|x xs IH]; intros i Hi; simpl.
  - reflexivity.
  - replace (i <? hi) with false by lia. rewrite andb_false_r.
    apply IH. lia.
Qed.

Lemma slice_from_inside {A} (i lo hi : Z) (xs : list A) :
  lo <= i -> Contract.slice_from i lo hi xs = take (Z.to_nat (hi - i)) xs.
Proof.
  revert i. induction xs as [|x xs IH]; intros i Hi; simpl.
  - rewrite take_nil. reflexivity.
  - replace (lo <=? i) with true by lia. simpl.
    destruct (i <? hi) eqn:E.
    + rewrite IH by lia.
      replace (Z.to_nat (hi - i)) with (S (Z.to_nat (hi - (i + 1)))) by lia.
      reflexivity.
    + rewrite slice_from_past by lia.
      replace (Z.to_nat (hi - i)) with 0%nat by lia. reflexivity.
Qed.

Lemma slice_from_before {A} (i lo hi : Z) (xs : list A) :
  i <= lo ->
  Contract.slice_from i lo hi xs =
  take (Z.to_nat (hi - lo)) (drop (Z.to_nat (lo - i)) xs).
Proof.
  revert i. induction xs as [|x xs IH]; intros i Hi; simpl.
  - rewrite drop_nil, take_nil. reflexivity.
  - destruct (lo <=? i) eqn:E.
    + assert (i = lo) as -> by lia. rewrite Z.sub_diag. simpl.
      rewrite <- (slice_from_inside lo lo hi (x :: xs)) by lia.
      simpl. rewrite Z.leb_refl. reflexivity.
    + simpl. rewrite IH by lia.
      replace (Z.to_nat (lo - i)) with (S (Z.to_nat (lo - (i + 1)))) by lia.
      reflexivity.
Qed.

(** The interval [[lo, lo + n)] of a sequence, for a start and a length
    that are not negative. *)
Lemma slice_take_drop {A} (lo n : Z) (xs : list A) :
  0 <= lo -> 0 <= n ->
  Contract.slice lo (lo + n) xs = take (Z.to_nat n) (drop (Z.to_nat lo) xs).
Proof.
  intros Hlo Hn. unfold Contract.slice. rewrite slice_from_before by lia.
  f_equal; [f_equal; lia | f_equal; f_equal; lia].
Qed.

Lemma js_slice_take_drop {A} (lo n : Z) (xs : list A) :
  0 <= lo -> 0 <= n ->
  js_slice xs lo (lo + n) = take (Z.to_nat n) (drop (Z.to_nat lo) xs).
Proof.
  intros Hlo Hn. unfold js_slice.
  replace (lo <? 0) with false by lia.
  replace (lo + n <? 0) with false by lia.
  destruct (Z.le_gt_cases (Z.of_nat (length xs)) lo) as [Hge|Hlt].
  - rewrite !drop_ge by lia. rewrite !take_nil. reflexivity.
  - rewrite (Z.min_l lo) by lia.
    destruct (Z.le_gt_cases (lo + n) (Z.of_nat (length xs))) as [H1|H1].
    + rewrite (Z.min_l (lo + n)) by lia. f_equal. lia.
    + rewrite (Z.min_r (lo + n)) by lia.
      rewrite !take_ge; [reflexivity | |]; rewrite length_drop; lia.
Qed.

End Basics.

(** ** The count and the list *)

Module CountFacts.

Import Driver.

(** What the persistent backend answers on a store that is up, for the
    query [q] that [getConversions] and [getConversionsCount] both build
    from the same [userId] and filters. *)
Lemma mongo_count_list (engine : RegexEngine) (s : Store) (userId : string)
    (filters : option ConversionFilters) (sortOptions : option SortOptions) :
  exists xs : list Conversion,
    Mongo.getConversions engine s userId filters sortOptions None = Returned xs /\
    Mongo.getConversionsCount engine s userId filters = Returned (Z.of_nat (length xs)).
Proof.
  unfold Mongo.getConversions, Mongo.getConversionsCount, getCollection,
    toArray, countDocuments.
  destruct (link s); simpl.
  - match goal with
    | |- context [compile_clause engine ?q] =>
        destruct (compile_clause engine q) as [re|e]; simpl
    end.
    + eexists. split; [reflexivity|].
      rewrite Basics.length_stable_sort. reflexivity.
    + exists []. split; reflexivity.
  - exists []. split; reflexivity.
  - exists []. split; reflexivity.
Qed.

(** The machines the in-memory backend reaches keep their conversions
    array allocated and every stored conversion dated. *)
Lemma constructor_ok : MemView.valid Mem.constructor /\ MemView.dated Mem.constructor.
Proof.
  split.
  - unfold MemView.valid. simpl. lia.
  - unfold MemView.dated. apply Forall_nil_2.
Qed.

Lemma createConversion_ok (fresh : ObjectId) (now : Z) (ins : InsertConversion)
    (m : Mem.Machine) :
  MemView.valid m ->
  Mem.stored (snd (Mem.createConversion fresh now ins m)) =
    Mem.stored m ++ [fst (Mem.createConversion fresh now ins m)] /\
  convertedAt (fst (Mem.createConversion fresh now ins m)) = Some now /\
  MemView.valid (snd (Mem.createConversion fresh now ins m)) /\
  (MemView.dated m -> MemView.dated (snd (Mem.createConversion fresh now ins m))).
Proof.
  unfold MemView.valid, MemView.dated. intros Hv.
  assert (Mem.stored (snd (Mem.createConversion fresh now ins m)) =
          Mem.stored m ++ [fst (Mem.createConversion fresh now ins m)]) as Hs.
  { unfold Mem.createConversion, Mem.bind, Mem.get_this, Mem.set_this,
      Mem.Array_push, Mem.ret, Mem.stored; simpl.
    unfold Mem.readArray at 1. simpl.
    rewrite list_lookup_insert_eq by exact Hv. reflexivity. }
  split; [exact Hs|]. split; [reflexivity|]. split.
  - unfold Mem.createConversion, Mem.bind, Mem.get_this, Mem.set_this,
      Mem.Array_push, Mem.ret; simpl.
    rewrite length_insert. exact Hv.
  - intros Hd. rewrite Hs. apply Forall_app. split; [exact Hd|].
    apply Forall_singleton. discriminate.
Qed.

Lemma deleteConversion_ok (id : string) (m : Mem.Machine) :
  MemView.valid (snd (Mem.deleteConversion id m)) /\
  (MemView.dated m -> MemView.dated (snd (Mem.deleteConversion id m))).
Proof.
  unfold MemView.valid, MemView.dated. split.
  - unfold Mem.deleteConversion, Mem.bind, Mem.get_this, Mem.set_this,
      Mem.Array_length, Mem.Array_filter, Mem.alloc, Mem.ret; simpl.
    rewrite length_app. simpl. lia.
  - intros Hd.
    assert (Mem.stored (snd (Mem.deleteConversion id m)) =
            List.filter (fun conv => negb (String.eqb (_id conv) id)) (Mem.stored m))
      as ->.
    { unfold Mem.deleteConversion, Mem.bind, Mem.get_this, Mem.set_this,
        Mem.Array_length, Mem.Array_filter, Mem.alloc, Mem.ret, Mem.stored; simpl.
      unfold Mem.readArray at 1. simpl.
      rewrite lookup_app_r by lia. rewrite Nat.sub_diag. reflexivity. }
    rewrite Forall_forall in *. intros c Hc. apply Hd.
    apply list_elem_of_In. apply list_elem_of_In in Hc.
    apply filter_In in Hc. tauto.
Qed.

Lemma optFilter_ext {A} (o : option A) (p q : A -> Conversion -> bool)
    (l : list Conversion) :
  (forall a x, In x l -> p a x = q a x) ->
  MemView.optFilter o p l = MemView.optFilter o q l.
Proof.
  intros H. destruct o as [a|]; simpl; [|reflexivity].
  apply List.filter_ext_in. intros x Hx. apply H. exact Hx.
Qed.

Lemma optFilter_sub {A} (o : option A) (p : A -> Conversion -> bool)
    (l : list Conversion) (x : Conversion) :
  In x (MemView.optFilter o p l) -> In x l.
Proof.
  destruct o as [a|]; simpl; [|auto]. intros H. apply filter_In in H. tauto.
Qed.

(** On dated conversions the selection does not read the clock. *)
Lemma selected_any_clock (now1 now2 : Z) (userId : string)
    (filters : option ConversionFilters) (l : list Conversion) :
  Forall (fun c => convertedAt c <> None) l ->
  MemView.selected now1 userId filters l = MemView.selected now2 userId filters l.
Proof.
  intros Hd. unfold MemView.selected, MemView.applyFilters.
  destruct filters as [f|]; [|reflexivity].
  assert (forall x, In x l -> Mem.convDate now1 x = Mem.convDate now2 x) as Hdate.
  { intros x Hx. rewrite Forall_forall in Hd.
    apply list_elem_of_In, Hd in Hx.
    unfold Mem.convDate. destruct (convertedAt x); [reflexivity|congruence]. }
  set (l1 := MemView.optFilter (truthy (search f)) _ _).
  assert (forall x, In x l1 -> In x l) as Hsub.
  { intros x Hx. apply optFilter_sub, filter_In in Hx. tauto. }
  rewrite (optFilter_ext (dateFrom f) _ (fun d conv => d <=? Mem.convDate now2 conv) l1).
  2:{ intros d x Hx. rewrite (Hdate x) by auto. reflexivity. }
  set (l2 := MemView.optFilter (dateFrom f) _ l1).
  rewrite (optFilter_ext (dateTo f) _ (fun d conv => Mem.convDate now2 conv <=? d) l2).
  2:{ intros d x Hx. apply optFilter_sub in Hx. rewrite (Hdate x) by auto.
      reflexivity. }
  reflexivity.
Qed.

(** The count at one moment and the list at another agree once every
    stored conversion is dated. *)
Lemma mem_count_list_any_clock (now1 now2 : Z) (userId : string)
    (filters : option ConversionFilters) (sortOptions : option SortOptions)
    (m : Mem.Machine) :
  MemView.dated m ->
  fst (Mem.getConversionsCount now1 userId filters m) =
  Z.of_nat (length (Mem.returned
    (Mem.getConversions now2 userId filters sortOptions None m))).
Proof.
  intros Hd.
  destruct (MemFacts.getConversionsCount_run now1 userId filters m) as (-> & _).
  rewrite MemFacts.getConversions_returned. simpl.
  unfold MemView.ordered. rewrite Basics.length_stable_sort.
  rewrite (selected_any_clock now1 now2); [reflexivity|exact Hd].
Qed.

End CountFacts.

(** C2. For every user, filter combination and sort option,
    [getConversionsCount] equals the length of what [getConversions]
    returns without pagination, in the in-memory backend and in the
    persistent backend, each on its own. *)
Theorem count_equals_unpaginated_length
    (engine : Driver.RegexEngine) (now : Z) (userId : string)
    (filters : option ConversionFilters) (sortOptions : option SortOptions)
    (m : Mem.Machine) (s : Driver.Store) :
  fst (Mem.getConversionsCount now userId filters m) =
    Z.of_nat (length (Mem.returned
      (Mem.getConversions now userId filters sortOptions None m))) /\
  exists xs : list Conversion,
    Mongo.getConversions engine s userId filters sortOptions None = Returned xs /\
    Mongo.getConversionsCount engine s userId filters = Returned (Z.of_nat (length xs)).
Proof.
  split.
  - destruct (MemFacts.getConversionsCount_run now userId filters m) as (-> & _).
    rewrite MemFacts.getConversions_returned. simpl.
    unfold MemView.ordered. rewrite Basics.length_stable_sort. reflexivity.
  - apply CountFacts.mongo_count_list.
Qed.

(** ** The filter predicate *)

Module FilterFacts.

Import Mem MemView.

Lemma optFilter_In {A} (o : option A) (p : A -> Conversion -> bool)
    (l : list Conversion) (c : Conversion) :
  In c (optFilter o p l) <-> In c l /\ (forall a, o = Some a -> p a c = true).
Proof.
  destruct o as [a|]; simpl.
  - rewrite filter_In. split.
    + intros [H1 H2]. split; [exact H1|]. intros a' [= <-]. exact H2.
    + intros [H1 H2]. split; [exact H1|]. apply H2. reflexivity.
  - split; [intros H; split; [exact H | discriminate] | intros [H _]; exact H].
Qed.

Lemma truthy_search (o : option string) (c : Conversion) :
  (forall s, truthy o = Some s ->
     includes (toLowerCase (filename c)) (toLowerCase s) = true) <->
  (forall s, o = Some s -> Contract.search_accepts s c).
Proof.
  unfold Contract.search_accepts. split.
  - intros H s ->. destruct s as [|a s].
    + exists EmptyString, (toLowerCase (filename c)). reflexivity.
    + apply Basics.includes_spec. apply H. reflexivity.
  - intros H s Hs. apply Basics.includes_spec. apply H.
    destruct o as [[|a t]|]; simpl in Hs; try discriminate. exact Hs.
Qed.

(** The in-memory backend keeps a stored record exactly when it belongs
    to the user and every provided filter accepts it, the date bounds
    being taken on the date [convDate] gives the record. *)
Lemma mem_keeps_exactly_accepted (now : Z) (userId : string)
    (f : ConversionFilters) (sortOptions : option SortOptions)
    (m : Machine) (c : Conversion) :
  In c (returned (getConversions now userId (Some f) sortOptions None m)) <->
  In c (stored m) /\ Schema.userId c = userId /\
  Contract.accepts f (convDate now c) c.
Proof.
  rewrite MemFacts.getConversions_returned. simpl. unfold ordered.
  rewrite Basics.elem_of_stable_sort. unfold selected, applyFilters.
  rewrite !optFilter_In, filter_In, String.eqb_eq, truthy_search.
  unfold Contract.accepts.
  split.
  - intros [[[[[[H0 Hu] Hs] Hf] Ht] Hmin] Hmax].
    repeat split; try assumption.
    + intros d Hd. apply Z.leb_le. apply Hf. exact Hd.
    + intros d Hd. apply Z.leb_le. apply Ht. exact Hd.
    + intros n Hn. apply Z.leb_le. apply Hmin. exact Hn.
    + intros n Hn. apply Z.leb_le. apply Hmax. exact Hn.
  - intros (H0 & Hu & Hs & Hf & Ht & Hmin & Hmax).
    repeat split; try assumption.
    + intros d Hd. apply Z.leb_le. apply Hf. exact Hd.
    + intros d Hd. apply Z.leb_le. apply Ht. exact Hd.
    + intros n Hn. apply Z.leb_le. apply Hmin. exact Hn.
    + intros n Hn. apply Z.leb_le. apply Hmax. exact Hn.
Qed.

End FilterFacts.

(** C3. The persistent backend hands the search string to the store as a
    regular expression: searching for a dot keeps the upload named [abc],
    which a substring match rejects (the name holds no dot), and which
    the in-memory backend does not return. *)
Theorem regex_search_keeps_unaccepted_record :
  exists c : Conversion,
    Mongo.getConversions Regex.engine (Scenario.mongo_after Scenario.no_dot)
      "u1" (Scenario.search_for ".") None None = Returned [c] /\
    filename c = "abc" /\
    ~ Contract.search_accepts "." c /\
    Mem.returned
      (Mem.getConversions 5000 "u1" (Scenario.search_for ".") None None
         (Scenario.mem_after Scenario.no_dot)) = [].
Proof.
  eexists. split; [vm_compute; reflexivity|].
  split; [reflexivity|]. split; [|vm_compute; reflexivity].
  unfold Contract.search_accepts. rewrite <- Basics.includes_spec.
  vm_compute. discriminate.
Qed.

(** C1. The two backends, holding the same two uploads, order them
    differently by filename (the in-memory backend compares the lowered
    names, the store compares the bytes), and, holding the same single
    upload, answer the search for a dot differently (a substring for the
    in-memory backend, a regular expression for the store). *)
Theorem backends_differ_on_filename_sort_and_search :
  (Mem.stored (Scenario.mem_after Scenario.mixed_case) =
     Driver.conversions (Scenario.mongo_after Scenario.mixed_case) /\
   map filename
     (Mem.returned
        (Mem.getConversions 5000 "u1" None Scenario.by_filename_asc None
           (Scenario.mem_after Scenario.mixed_case))) = ["a.pdf"; "B.pdf"] /\
   exists xs : list Conversion,
     Mongo.getConversions Regex.engine (Scenario.mongo_after Scenario.mixed_case)
       "u1" None Scenario.by_filename_asc None = Returned xs /\
     map filename xs = ["B.pdf"; "a.pdf"]) /\
  (Mem.stored (Scenario.mem_after Scenario.no_dot) =
     Driver.conversions (Scenario.mongo_after Scenario.no_dot) /\
   map filename
     (Mem.returned
        (Mem.getConversions 5000 "u1" (Scenario.search_for ".") None None
           (Scenario.mem_after Scenario.no_dot))) = [] /\
   fst (Mem.getConversionsCount 5000 "u1" (Scenario.search_for ".")
          (Scenario.mem_after Scenario.no_dot)) = 0 /\
   Mongo.getConversionsCount Regex.engine (Scenario.mongo_after Scenario.no_dot)
     "u1" (Scenario.search_for ".") = Returned 1 /\
   exists xs : list Conversion,
     Mongo.getConversions Regex.engine (Scenario.mongo_after Scenario.no_dot)
       "u1" (Scenario.search_for ".") None None = Returned xs /\
     map filename xs = ["abc"]).
Proof.
  split.
  - split; [reflexivity|]. split; [vm_compute; reflexivity|].
    eexists. split; vm_compute; reflexivity.
  - split; [reflexivity|]. split; [vm_compute; reflexivity|].
    split; [vm_compute; reflexivity|].
    split; [vm_compute; reflexivity|].
    eexists. split; vm_compute; reflexivity.
Qed.

(** ** Where the two backends agree *)

Module AgreeFacts.

Import Driver MongoView.

Lemma optFilter_filter {A} (o : option A) (p : A -> Conversion -> bool)
    (l : list Conversion) :
  MemView.optFilter o p l =
  List.filter (fun x => match o with Some a => p a x | None => true end) l.
Proof.
  destruct o as [a|]; simpl; [reflexivity|].
  induction l as [|x l IH]; simpl; [reflexivity | rewrite <- IH; reflexivity].
Qed.

Lemma filter_twice {A} (p q : A -> bool) (l : list A) :
  List.filter q (List.filter p l) = List.filter (fun x => p x && q x) l.
Proof.
  induction l as [|x l IH]; simpl; [reflexivity|].
  destruct (p x); simpl; [destruct (q x)|]; rewrite IH; reflexivity.
Qed.

Lemma selected_matches (now : Z) (userId : string)
    (filters : option ConversionFilters) (l : list Conversion) :
  no_search filters ->
  Forall (fun c => convertedAt c <> None) l ->
  MemView.selected now userId filters l =
  List.filter (matches None (query_of userId filters)) l.
Proof.
  intros Hs Hd. unfold MemView.selected, MemView.applyFilters.
  destruct filters as [f|]; simpl in Hs.
  - rewrite Hs. rewrite !optFilter_filter, !filter_twice.
    apply List.filter_ext_in. intros x Hx.
    rewrite Forall_forall in Hd. apply list_elem_of_In, Hd in Hx.
    unfold matches, query_of, in_range, Mem.convDate. rewrite Hs.
    destruct (convertedAt x) as [t|]; [|congruence].
    destruct (dateFrom f), (dateTo f), (sizeMin f), (sizeMax f); simpl;
      repeat match goal with
      | |- context [String.eqb ?a ?b] => destruct (String.eqb a b); simpl
      | |- context [?a <=? ?b] => destruct (a <=? b); simpl
      end; reflexivity.
  - apply List.filter_ext. intros x. unfold matches, query_of. simpl.
    rewrite !andb_true_r. reflexivity.
Qed.

Lemma sort_insert_ext {A} (cmp1 cmp2 : A -> A -> Z) (x : A) (l : list A) :
  (forall b, In b l -> cmp1 x b = cmp2 x b) ->
  sort_insert cmp1 x l = sort_insert cmp2 x l.
Proof.
  induction l as [|y l IH]; intros H; simpl; [reflexivity|].
  rewrite (H y) by (left; reflexivity).
  destruct (cmp2 x y <=? 0); [reflexivity|].
  rewrite IH; [reflexivity|]. intros b Hb. apply H. right. exact Hb.
Qed.

Lemma stable_sort_ext {A} (cmp1 cmp2 : A -> A -> Z) (l : list A) :
  (forall a b, In a l -> In b l -> cmp1 a b = cmp2 a b) ->
  stable_sort cmp1 l = stable_sort cmp2 l.
Proof.
  induction l as [|x l IH]; intros H; simpl; [reflexivity|].
  rewrite IH by (intros a b Ha Hb; apply H; right; assumption).
  apply sort_insert_ext. intros b Hb.
  apply H; [left; reflexivity|]. right.
  apply Basics.elem_of_stable_sort in Hb. exact Hb.
Qed.

Lemma compare_same (now : Z) (sortOptions : option SortOptions) (a b : Conversion) :
  field_or_default sortOptions <> Field_filename ->
  convertedAt a <> None -> convertedAt b <> None ->
  Mem.compareFn (field_or_default sortOptions) (order_or_default sortOptions) now a b =
  sort_cmp (field_or_default sortOptions) (direction sortOptions) a b.
Proof.
  intros Hf Ha Hb. unfold Mem.compareFn, sort_cmp, Mem.sortVal, bson_field.
  destruct (convertedAt a) as [ta|]; [|congruence].
  destruct (convertedAt b) as [tb|]; [|congruence].
  destruct sortOptions as [[[] []]|]; simpl in *; try congruence;
    unfold js_lt, js_gt;
    match goal with
    | |- context [?x ?= ?y] => destruct (Z.compare_spec x y)
    end;
    repeat match goal with
    | |- context [?x <? ?y] => destruct (Z.ltb_spec x y)
    end; simpl; try reflexivity; lia.
Qed.

Lemma getConversions_query (engine : RegexEngine) (s : Store) (userId : string)
    (filters : option ConversionFilters) (sortOptions : option SortOptions)
    (pagination : option PaginationOptions) :
  Mongo.getConversions engine s userId filters sortOptions pagination =
  try_catch
    (match getCollection "conversions" s with
     | None => Returned []
     | Some _ =>
         let dbQuery :=
           sort (find (query_of userId filters)) (field_or_default sortOptions)
             (direction sortOptions) in
         let dbQuery :=
           match pagination with
           | Some p => limit_ (skip dbQuery ((page p - 1) * limit p)) (limit p)
           | None => dbQuery
           end in
         await conversions <- toArray engine s dbQuery ;;
         Returned conversions
     end)
    (fun error => Returned []).
Proof. reflexivity. Qed.

Lemma getConversionsCount_query (engine : RegexEngine) (s : Store) (userId : string)
    (filters : option ConversionFilters) :
  Mongo.getConversionsCount engine s userId filters =
  try_catch
    (match getCollection "conversions" s with
     | None => Returned 0
     | Some _ => countDocuments engine s (query_of userId filters)
     end)
    (fun error => Returned 0).
Proof. reflexivity. Qed.

Lemma no_search_clause (engine : RegexEngine) (userId : string)
    (filters : option ConversionFilters) :
  no_search filters ->
  compile_clause engine (query_of userId filters) = Returned None.
Proof.
  intros Hs. unfold compile_clause, query_of.
  destruct filters as [f|]; simpl in *; [|reflexivity].
  rewrite Hs.
  destruct (dateFrom f), (dateTo f), (sizeMin f), (sizeMax f); reflexivity.
Qed.

(** With the store up and holding the stored conversions of the
    in-memory backend, all of them dated, the two backends give the same
    list and the same count when there is no search string, the sort is
    not by filename, and the page and the limit are at least 1.  (The
    store is taken to keep the insertion order among equal sort keys, as
    the in-memory sort does.) *)
Lemma backends_agree (engine : RegexEngine) (now : Z) (userId : string)
    (filters : option ConversionFilters) (sortOptions : option SortOptions)
    (pagination : option PaginationOptions) (m : Mem.Machine) (s : Store) :
  link s = LinkUp ->
  Mem.stored m = conversions s ->
  MemView.dated m ->
  no_search filters ->
  field_or_default sortOptions <> Field_filename ->
  match pagination with
  | Some p => 1 <= page p /\ 1 <= limit p
  | None => True
  end ->
  Mongo.getConversions engine s userId filters sortOptions pagination =
    Returned (Mem.returned
      (Mem.getConversions now userId filters sortOptions pagination m)) /\
  Mongo.getConversionsCount engine s userId filters =
    Returned (fst (Mem.getConversionsCount now userId filters m)).
Proof.
  intros Hl Hst Hd Hs Hf Hp. unfold MemView.dated in Hd. split.
  - rewrite getConversions_query, MemFacts.getConversions_returned.
    unfold getCollection, toArray. rewrite Hl.
    assert (c_query
              (match pagination with
               | Some p =>
                   limit_
                     (skip
                        (sort (find (query_of userId filters))
                           (field_or_default sortOptions) (direction sortOptions))
                        ((page p - 1) * limit p)) (limit p)
               | None =>
                   sort (find (query_of userId filters))
                     (field_or_default sortOptions) (direction sortOptions)
               end) = query_of userId filters) as Hq.
    { destruct pagination; reflexivity. }
    cbv zeta. rewrite Hq, no_search_clause by exact Hs.
    rewrite (selected_matches now userId filters _ Hs Hd), Hst.
    assert (MemView.ordered now sortOptions
              (List.filter (matches None (query_of userId filters)) (conversions s)) =
            stable_sort (sort_cmp (field_or_default sortOptions) (direction sortOptions))
              (List.filter (matches None (query_of userId filters)) (conversions s)))
      as Ho.
    { unfold MemView.ordered. apply stable_sort_ext. intros a b Ha Hb.
      rewrite Hst in Hd. rewrite Forall_forall in Hd.
      apply compare_same; [exact Hf | |]; apply Hd, list_elem_of_In;
        [apply filter_In in Ha | apply filter_In in Hb]; tauto. }
    rewrite Ho. destruct pagination as [p|]; simpl.
    + destruct Hp as [Hp1 Hp2].
      replace ((page p - 1) * limit p <? 0) with false by nia.
      replace (limit p =? 0) with false by lia.
      rewrite Basics.js_slice_take_drop by nia.
      rewrite Z.abs_eq by lia. reflexivity.
    + reflexivity.
  - rewrite getConversionsCount_query.
    destruct (MemFacts.getConversionsCount_run now userId filters m) as (-> & _).
    unfold getCollection, countDocuments. rewrite Hl.
    rewrite no_search_clause by exact Hs. simpl.
    rewrite (selected_matches now userId filters _ Hs Hd), Hst. reflexivity.
Qed.

End AgreeFacts.

(** ** Pagination *)

Module PageFacts.

Import Driver.

Lemma mem_page (now : Z) (userId : string) (filters : option ConversionFilters)
    (sortOptions : option SortOptions) (p : PaginationOptions) (m : Mem.Machine) :
  1 <= page p -> 0 <= limit p ->
  Mem.returned (Mem.getConversions now userId filters sortOptions (Some p) m) =
  Contract.slice ((page p - 1) * limit p) (page p * limit p)
    (Mem.returned (Mem.getConversions now userId filters sortOptions None m)).
Proof.
  intros Hp Hl. rewrite !MemFacts.getConversions_returned. simpl.
  replace (page p * limit p) with ((page p - 1) * limit p + limit p) by ring.
  rewrite Basics.js_slice_take_drop, Basics.slice_take_drop by nia.
  reflexivity.
Qed.

Lemma mongo_page (engine : RegexEngine) (s : Store) (userId : string)
    (filters : option ConversionFilters) (sortOptions : option SortOptions)
    (p : PaginationOptions) :
  1 <= page p -> 1 <= limit p ->
  exists xs : list Conversion,
    Mongo.getConversions engine s userId filters sortOptions None = Returned xs /\
    Mongo.getConversions engine s userId filters sortOptions (Some p) =
      Returned (Contract.slice ((page p - 1) * limit p) (page p * limit p) xs).
Proof.
  intros Hp Hl.
  unfold Mongo.getConversions, getCollection, toArray.
  destruct (link s); simpl.
  - match goal with
    | |- context [compile_clause engine ?q] =>
        destruct (compile_clause engine q) as [re|e]; simpl
    end.
    + replace ((page p - 1) * limit p <? 0) with false by nia.
      replace (limit p =? 0) with false by lia.
      eexists. split; [reflexivity|]. f_equal.
      replace (page p * limit p) with ((page p - 1) * limit p + limit p) by ring.
      rewrite Basics.slice_take_drop by nia.
      rewrite Z.abs_eq by lia. reflexivity.
    + exists []. split; reflexivity.
  - exists []. split; reflexivity.
  - exists []. split; reflexivity.
Qed.

(** On a store that answers, the persistent backend returns the
    filtered and sorted sequence, and with pagination its interval. *)
Lemma mongo_listing (engine : RegexEngine) (s : Store) (userId : string)
    (filters : option ConversionFilters) (sortOptions : option SortOptions)
    (re : option (string -> bool)) :
  link s = LinkUp ->
  compile_clause engine (MongoView.query_of userId filters) = Returned re ->
  Mongo.getConversions engine s userId filters sortOptions None =
    Returned (MongoView.ordered sortOptions
                (MongoView.selected re userId filters (conversions s))) /\
  (forall p : PaginationOptions,
     1 <= page p -> 1 <= limit p ->
     Mongo.getConversions engine s userId filters sortOptions (Some p) =
       Returned (Contract.slice ((page p - 1) * limit p) (page p * limit p)
                   (MongoView.ordered sortOptions
                      (MongoView.selected re userId filters (conversions s))))).
Proof.
  intros Hl Hre. split.
  - rewrite AgreeFacts.getConversions_query.
    unfold getCollection, toArray. rewrite Hl. cbn [c_query sort find].
    rewrite Hre. reflexivity.
  - intros p Hp Hlim. rewrite AgreeFacts.getConversions_query.
    unfold getCollection, toArray. rewrite Hl.
    cbn [c_query c_skip c_limit c_sort sort find skip limit_].
    rewrite Hre. cbn [obind try_catch].
    replace ((page p - 1) * limit p <? 0) with false by nia.
    cbn [try_catch apply_limit apply_skip apply_sort].
    replace (limit p =? 0) with false by lia.
    f_equal.
    replace (page p * limit p) with ((page p - 1) * limit p + limit p) by ring.
    rewrite Basics.slice_take_drop by nia.
    rewrite Z.abs_eq by lia. reflexivity.
Qed.

End PageFacts.

(** C4, as stated, fails.  In the in-memory backend page 1 with limit -1 is
    [slice(0, -1)], every element but the last, where the interval
    [[0, -1)] is empty; in the persistent backend page 1 with limit 0 is
    [skip(0).limit(0)], every document, where the interval [[0, 0)] is
    empty. *)
Lemma degenerate_limit_is_not_the_interval :
  Mem.returned
    (Mem.getConversions 5000 "u1" None None (Some (mkPagination 1 (-1)))
       (Scenario.mem_after Scenario.two_sizes)) <>
  Contract.slice ((1 - 1) * (-1)) (1 * (-1))
    (Mem.returned
       (Mem.getConversions 5000 "u1" None None None
          (Scenario.mem_after Scenario.two_sizes))) /\
  (exists xs : list Conversion,
     Mongo.getConversions Regex.engine (Scenario.mongo_after Scenario.two_sizes)
       "u1" None None None = Returned xs /\
     Mongo.getConversions Regex.engine (Scenario.mongo_after Scenario.two_sizes)
       "u1" None None (Some (mkPagination 1 0)) <>
     Returned (Contract.slice ((1 - 1) * 0) (1 * 0) xs)).
Proof.
  split.
  - vm_compute. discriminate.
  - eexists. split; [vm_compute; reflexivity|]. vm_compute. discriminate.
Qed.

(** C4, amended.  For a page number of at least 1, [getConversions]
    returns the interval [[(page-1)*limit, page*limit)] of what it returns
    without pagination: in the in-memory backend for every limit that is
    not negative, in the persistent backend for every limit of at least 1.
    Without pagination the in-memory backend returns the whole ordered
    selection of the stored conversions, and so does the persistent
    backend on a store that answers (the link is up and the search
    pattern, if any, compiles): the documents the query selects, in the
    order of the sort directive. *)
Theorem pagination_is_the_interval
    (engine : Driver.RegexEngine) (now : Z) (userId : string)
    (filters : option ConversionFilters) (sortOptions : option SortOptions)
    (p : PaginationOptions) (m : Mem.Machine) (s : Driver.Store) :
  1 <= page p ->
  (0 <= limit p ->
   Mem.returned (Mem.getConversions now userId filters sortOptions (Some p) m) =
   Contract.slice ((page p - 1) * limit p) (page p * limit p)
     (Mem.returned (Mem.getConversions now userId filters sortOptions None m))) /\
  (1 <= limit p ->
   exists xs : list Conversion,
     Mongo.getConversions engine s userId filters sortOptions None = Returned xs /\
     Mongo.getConversions engine s userId filters sortOptions (Some p) =
       Returned (Contract.slice ((page p - 1) * limit p) (page p * limit p) xs)) /\
  Mem.returned (Mem.getConversions now userId filters sortOptions None m) =
    MemView.ordered now sortOptions
      (MemView.selected now userId filters (Mem.stored m)) /\
  (forall re : option (string -> bool),
     Driver.link s = Driver.LinkUp ->
     Driver.compile_clause engine (MongoView.query_of userId filters) = Returned re ->
     Mongo.getConversions engine s userId filters sortOptions None =
       Returned (MongoView.ordered sortOptions
                   (MongoView.selected re userId filters (Driver.conversions s))) /\
     (1 <= limit p ->
      Mongo.getConversions engine s userId filters sortOptions (Some p) =
        Returned (Contract.slice ((page p - 1) * limit p) (page p * limit p)
                    (MongoView.ordered sortOptions
                       (MongoView.selected re userId filters
                          (Driver.conversions s)))))).
Proof.
  intros Hp. split; [|split; [|split]].
  - intros Hl. apply PageFacts.mem_page; assumption.
  - intros Hl. apply PageFacts.mongo_page; assumption.
  - apply MemFacts.getConversions_returned.
  - intros re Hup Hre.
    destruct (PageFacts.mongo_listing engine s userId filters sortOptions re Hup Hre)
      as [Hall Hpage].
    split; [exact Hall|]. intros Hl. apply Hpage; assumption.
Qed.

Lemma pagination_is_the_interval_witness :
  Mem.returned
    (Mem.getConversions 5000 "u1" None None (Some (mkPagination 2 1))
       (Scenario.mem_after Scenario.two_sizes)) =
  Contract.slice ((2 - 1) * 1) (2 * 1)
    (Mem.returned
       (Mem.getConversions 5000 "u1" None None None
          (Scenario.mem_after Scenario.two_sizes))) /\
  (exists xs : list Conversion,
     Mongo.getConversions Regex.engine (Scenario.mongo_after Scenario.two_sizes)
       "u1" None None None = Returned xs /\
     Mongo.getConversions Regex.engine (Scenario.mongo_after Scenario.two_sizes)
       "u1" None None (Some (mkPagination 2 1)) =
       Returned (Contract.slice ((2 - 1) * 1) (2 * 1) xs)) /\
  Mongo.getConversions Regex.engine (Scenario.mongo_after Scenario.two_sizes)
    "u1" None None None =
    Returned
      [mkConversion (Scenario.oid "2") "u1" "b.pdf" 5000 "<document/>" (Some 2000);
       mkConversion (Scenario.oid "1") "u1" "a.pdf" 100 "<document/>" (Some 1000)] /\
  Mongo.getConversions Regex.engine (Scenario.mongo_after Scenario.two_sizes)
    "u1" None None (Some (mkPagination 2 1)) =
    Returned
      [mkConversion (Scenario.oid "1") "u1" "a.pdf" 100 "<document/>" (Some 1000)].
Proof.
  destruct (pagination_is_the_interval Regex.engine 5000 "u1" None None
              (mkPagination 2 1) (Scenario.mem_after Scenario.two_sizes)
              (Scenario.mongo_after Scenario.two_sizes)) as (H1 & H2 & _ & H4).
  - simpl. lia.
  - destruct (H4 None) as [Hall Hpage]; [reflexivity | reflexivity |].
    split; [apply H1; simpl; lia|].
    split; [apply H2; simpl; lia|].
    split.
    + rewrite Hall. reflexivity.
    + rewrite Hpage by (simpl; lia). reflexivity.
Defined.

(** ** Deletion *)

Module DeleteFacts.

Import Driver.

Lemma filter_shorter (p : Conversion -> bool) (l : list Conversion) :
  (length (List.filter p l) < length l)%nat <->
  exists c, In c l /\ p c = false.
Proof.
  induction l as [|x l IH]; simpl.
  - split; [lia | intros (c & [] & _)].
  - pose proof (filter_length_le p l) as Hle.
    destruct (p x) eqn:E; simpl.
    + rewrite <- Nat.succ_lt_mono, IH. split.
      * intros (c & Hc & Hp). exists c. auto.
      * intros (c & [<-|Hc] & Hp); [congruence | exists c; auto].
    + split; [intros _; exists x; auto | intros _; lia].
Qed.

(** What [deleteConversion] of the in-memory backend computes. *)
Lemma mem_delete_run (id : string) (m : Mem.Machine) :
  let keep := fun conv => negb (String.eqb (_id conv) id) in
  fst (Mem.deleteConversion id m) =
    (Z.of_nat (length (List.filter keep (Mem.stored m))) <?
     Z.of_nat (length (Mem.stored m))) /\
  Mem.stored (snd (Mem.deleteConversion id m)) = List.filter keep (Mem.stored m) /\
  Mem.users (Mem.this (snd (Mem.deleteConversion id m))) = Mem.users (Mem.this m).
Proof.
  intros keep.
  unfold Mem.deleteConversion, Mem.bind, Mem.get_this, Mem.Array_length,
    Mem.Array_filter, Mem.alloc, Mem.set_this, Mem.ret, Mem.stored; simpl.
  assert (Mem.readArray (length (Mem.arrays m))
            (Mem.mkMachine
               (Mem.arrays m ++
                  [List.filter keep (Mem.readArray (Mem.conversions (Mem.this m)) m)])
               (Mem.mkMemStorage (Mem.users (Mem.this m)) (length (Mem.arrays m))
                  (Mem.userId (Mem.this m)) (Mem.conversionId (Mem.this m)))) =
          List.filter keep (Mem.readArray (Mem.conversions (Mem.this m)) m)) as E.
  { unfold Mem.readArray at 1. simpl.
    rewrite lookup_app_r by lia. rewrite Nat.sub_diag. reflexivity. }
  fold keep. rewrite E. auto.
Qed.

Lemma remove_first_unique (oid : ObjectId) (l : list Conversion) :
  NoDup (map _id l) ->
  forall c, In c (remove_first (fun c => String.eqb (_id c) oid) l) -> _id c <> oid.
Proof.
  induction l as [|x l IH]; simpl; intros Hnd c Hc.
  - destruct Hc.
  - apply NoDup_cons in Hnd as [Hx Hnd].
    destruct (String.eqb (_id x) oid) eqn:E.
    + apply String.eqb_eq in E. subst oid. intros Heq. apply Hx.
      rewrite <- Heq. apply list_elem_of_In, in_map. exact Hc.
    + destruct Hc as [<-|Hc].
      * apply String.eqb_neq. exact E.
      * apply IH; assumption.
Qed.

Lemma existsb_id (oid : ObjectId) (l : list Conversion) :
  existsb (fun c => String.eqb (_id c) oid) l = true <->
  exists c, In c l /\ _id c = oid.
Proof.
  rewrite existsb_exists. split; intros (c & Hc & E); exists c; split; auto;
    apply String.eqb_eq; exact E.
Qed.

(** What [deleteConversion] of the persistent backend computes. *)
Lemma mongo_delete (s : Store) (id : string) :
  NoDup (map _id (conversions s)) ->
  exists (b : bool) (s' : Store),
    Mongo.deleteConversion s id = (Returned b, s') /\
    (b = true <->
       (exists c, In c (conversions s) /\ new_ObjectId id = Returned (_id c)) /\
       (forall c, In c (conversions s') -> new_ObjectId id <> Returned (_id c))) /\
    (b = true -> Mongo.deleteConversion s' id = (Returned false, s')).
Proof.
  intros Hnd. destruct s as [lk us cs]. simpl in Hnd.
  unfold Mongo.deleteConversion, Mongo.try_catch_st, getCollection, deleteOne.
  simpl. destruct lk; simpl.
  - destruct (new_ObjectId id) as [oid|e] eqn:Hid; simpl.
    + destruct (existsb (fun c => String.eqb (_id c) oid) cs) eqn:E; simpl.
      * pose proof (remove_first_unique oid cs Hnd) as Hrm.
        eexists _, _. split; [reflexivity|]. split; [split|].
        -- intros _. apply existsb_id in E as (c & Hc & <-). split.
           ++ exists c. auto.
           ++ intros c' Hc' [= Heq]. apply (Hrm c' Hc'). auto.
        -- reflexivity.
        -- intros _.
           unfold Mongo.deleteConversion, Mongo.try_catch_st, getCollection,
             deleteOne.
           simpl.
           destruct (existsb (fun c => String.eqb (_id c) oid)
                       (remove_first (fun c => String.eqb (_id c) oid) cs)) eqn:E'.
           ++ apply existsb_id in E' as (c & Hc & Heq).
              destruct (Hrm c Hc Heq).
           ++ reflexivity.
      * eexists _, _. split; [reflexivity|]. split; [split|]; try discriminate.
        intros [(c & Hc & [= Heq]) _].
        assert (existsb (fun c => String.eqb (_id c) oid) cs = true) as E'.
        { apply existsb_id. exists c. auto. }
        congruence.
    + eexists _, _. split; [reflexivity|]. split; [split|]; try discriminate.
      intros [(c & _ & Heq) _]. discriminate.
  - eexists _, _. split; [reflexivity|]. split; [split|]; try discriminate.
    intros [(c & Hc & Heq) Hno]. destruct (Hno c Hc Heq).
  - destruct (new_ObjectId id) as [oid|e] eqn:Hid; simpl.
    + eexists _, _. split; [reflexivity|]. split; [split|]; try discriminate.
      intros [(c & Hc & Heq) Hno]. destruct (Hno c Hc Heq).
    + eexists _, _. split; [reflexivity|]. split; [split|]; try discriminate.
      intros [(c & _ & Heq) _]. discriminate.
Qed.

Lemma mongo_deleteConversion_run (s : Store) (id : string) :
  Mongo.deleteConversion s id =
  match link s, new_ObjectId id with
  | LinkUp, Returned oid =>
      if existsb (fun c => String.eqb (_id c) oid) (conversions s)
      then (Returned true,
            mkStore (link s) (users s)
              (remove_first (fun c => String.eqb (_id c) oid)
                 (conversions s)))
      else (Returned false, s)
  | _, _ => (Returned false, s)
  end.
Proof.
  unfold Mongo.deleteConversion, Mongo.try_catch_st, getCollection,
    deleteOne.
  destruct (link s) eqn:El; simpl; try reflexivity;
    destruct (new_ObjectId id); simpl; try reflexivity;
    rewrite ?El; simpl; try reflexivity.
  destruct (existsb _ (conversions s)); reflexivity.
Qed.

Lemma In_remove_first_other (p : Conversion -> bool) (l : list Conversion)
    (c : Conversion) :
  In c l -> p c = false -> In c (remove_first p l).
Proof.
  induction l as [|x l IH]; simpl; [auto|].
  intros [<-|Hc] Hp.
  - rewrite Hp. left. reflexivity.
  - destruct (p x); [exact Hc | right; auto].
Qed.

End DeleteFacts.

(** C5. [deleteConversion] returns true exactly when a conversion with
    that id existed and is gone afterwards, and a second call on the id
    just deleted returns false; no call raises an error.  In the
    in-memory backend every record with the id is dropped; in the
    persistent backend, where the store keeps [_id] unique, the one record
    with the id is.  On a store that is up the persistent backend does
    delete: a document with the id makes the answer true, the answer true
    means that the first document with the id has been removed from the
    collection, the answer false that the store is as it was, and the
    users and the documents with another id are always kept. *)
Theorem delete_true_iff_existed_and_removed
    (id : string) (m : Mem.Machine) (s : Driver.Store) :
  NoDup (map _id (Driver.conversions s)) ->
  (let r := Mem.deleteConversion id m in
   (fst r = true <->
      (exists c, In c (Mem.stored m) /\ _id c = id) /\
      (forall c, In c (Mem.stored (snd r)) -> _id c <> id)) /\
   Mem.stored (snd r) =
     List.filter (fun conv => negb (String.eqb (_id conv) id)) (Mem.stored m) /\
   fst (Mem.deleteConversion id (snd r)) = false) /\
  (exists (b : bool) (s' : Driver.Store),
     Mongo.deleteConversion s id = (Returned b, s') /\
     (b = true <->
        (exists c, In c (Driver.conversions s) /\
                   Driver.new_ObjectId id = Returned (_id c)) /\
        (forall c, In c (Driver.conversions s') ->
                   Driver.new_ObjectId id <> Returned (_id c))) /\
     (b = true -> Mongo.deleteConversion s' id = (Returned false, s')) /\
     (Driver.link s = Driver.LinkUp ->
      (exists c, In c (Driver.conversions s) /\
                 Driver.new_ObjectId id = Returned (_id c)) ->
      b = true) /\
     (b = true ->
      exists oid,
        Driver.link s = Driver.LinkUp /\
        Driver.new_ObjectId id = Returned oid /\
        Driver.conversions s' =
          Driver.remove_first (fun c => String.eqb (_id c) oid)
            (Driver.conversions s)) /\
     (b = false -> s' = s) /\
     Driver.users s' = Driver.users s /\
     (forall c, In c (Driver.conversions s) ->
                Driver.new_ObjectId id <> Returned (_id c) ->
                In c (Driver.conversions s'))).
Proof.
  intros Hnd. split.
  - destruct (DeleteFacts.mem_delete_run id m) as (Hb & Hs & _).
    assert (forall c, In c (Mem.stored (snd (Mem.deleteConversion id m))) ->
                      _id c <> id) as Hgone.
    { intros c Hc. rewrite Hs in Hc. apply filter_In in Hc as [_ Hc].
      apply negb_true_iff, String.eqb_neq in Hc. exact Hc. }
    cbv zeta. split; [|split].
    + rewrite Hb, Z.ltb_lt, <- Nat2Z.inj_lt, DeleteFacts.filter_shorter. split.
      * intros (c & Hc & Hp). split; [|exact Hgone].
        exists c. split; [exact Hc|].
        apply negb_false_iff, String.eqb_eq in Hp. exact Hp.
      * intros [(c & Hc & Heq) _]. exists c. split; [exact Hc|].
        apply negb_false_iff, String.eqb_eq. exact Heq.
    + exact Hs.
    + destruct (DeleteFacts.mem_delete_run id (snd (Mem.deleteConversion id m)))
        as (Hb' & _ & _).
      rewrite Hb'. apply Z.ltb_ge, inj_le.
      rewrite forallb_filter_id; [lia|].
      apply forallb_forall. intros c Hc.
      apply negb_true_iff, String.eqb_neq, Hgone, Hc.
  - destruct (DeleteFacts.mongo_delete s id Hnd) as (b & s' & Hd & Hiff & Hsecond).
    exists b, s'. split; [exact Hd|]. split; [exact Hiff|]. split; [exact Hsecond|].
    rewrite DeleteFacts.mongo_deleteConversion_run in Hd.
    destruct (Driver.link s) eqn:El.
    + destruct (Driver.new_ObjectId id) as [oid|e] eqn:Eo.
      * destruct (existsb (fun c => String.eqb (_id c) oid) (Driver.conversions s))
          eqn:Ex; injection Hd as <- <-.
        -- split; [reflexivity|]. split; [intros _; exists oid; auto|].
           split; [discriminate|]. split; [reflexivity|].
           intros c Hc Hne. cbn [Driver.conversions].
           apply DeleteFacts.In_remove_first_other; [exact Hc|].
           apply String.eqb_neq. intros E. apply Hne. rewrite E. reflexivity.
        -- split.
           { intros _ (c & Hc & [= Hid]). exfalso.
             assert (existsb (fun c => String.eqb (_id c) oid) (Driver.conversions s)
                     = true) as Hex.
             { apply existsb_exists. exists c. split; [exact Hc|].
               rewrite Hid. apply String.eqb_refl. }
             rewrite Hex in Ex. discriminate Ex. }
           split; [discriminate|]. split; [reflexivity|]. split; [reflexivity|].
           intros c Hc _. exact Hc.
      * injection Hd as <- <-.
        split; [intros _ (c & _ & Hid); discriminate Hid|].
        split; [discriminate|]. split; [reflexivity|]. split; [reflexivity|].
        intros c Hc _. exact Hc.
    + assert (b = false /\ s' = s) as [-> ->]
        by (destruct (Driver.new_ObjectId id); injection Hd as <- <-; auto).
      split; [discriminate|]. split; [discriminate|]. split; [reflexivity|].
      split; [reflexivity|]. intros c Hc _. exact Hc.
    + assert (b = false /\ s' = s) as [-> ->]
        by (destruct (Driver.new_ObjectId id); injection Hd as <- <-; auto).
      split; [discriminate|]. split; [discriminate|]. split; [reflexivity|].
      split; [reflexivity|]. intros c Hc _. exact Hc.
Qed.

Lemma delete_true_iff_existed_and_removed_witness :
  NoDup (map _id (Driver.conversions (Scenario.mongo_after Scenario.two_sizes))) /\
  fst (Mem.deleteConversion (Scenario.oid "1")
         (snd (Mem.deleteConversion (Scenario.oid "1")
                 (Scenario.mem_after Scenario.two_sizes)))) = false /\
  exists s' : Driver.Store,
    Mongo.deleteConversion (Scenario.mongo_after Scenario.two_sizes)
      (Scenario.oid "1") = (Returned true, s') /\
    Driver.conversions s' =
      [mkConversion (Scenario.oid "2") "u1" "b.pdf" 5000 "<document/>" (Some 2000)].
Proof.
  assert (NoDup (map _id (Driver.conversions
                            (Scenario.mongo_after Scenario.two_sizes)))) as Hnd.
  { vm_compute. apply NoDup_cons. split.
    - intros H. apply list_elem_of_In in H. simpl in H.
      destruct H as [H|[]]. discriminate.
    - apply NoDup_cons. split; [|apply NoDup_nil_2].
      intros H. apply list_elem_of_In in H. destruct H. }
  split; [exact Hnd|].
  destruct (delete_true_iff_existed_and_removed (Scenario.oid "1")
              (Scenario.mem_after Scenario.two_sizes)
              (Scenario.mongo_after Scenario.two_sizes) Hnd)
    as [(_ & _ & Hsecond) (b & s' & Hd & _ & _ & Hdoes & Hgone & _)].
  split; [exact Hsecond|].
  assert (b = true) as ->.
  { apply Hdoes; [reflexivity|].
    exists (mkConversion (Scenario.oid "1") "u1" "a.pdf" 100 "<document/>" (Some 1000)).
    split; [left; reflexivity | reflexivity]. }
  exists s'. split; [exact Hd|].
  destruct (Hgone eq_refl) as (oid & _ & Hoid & Hrm).
  rewrite Hrm. vm_compute in Hoid. injection Hoid as <-. reflexivity.
Defined.

(** ** Failures of the persistent backend *)

Module FailureFacts.

Import Driver.

Lemma reads_never_throw (engine : RegexEngine) (s : Store) (userId id email : string)
    (filters : option ConversionFilters) (sortOptions : option SortOptions)
    (pagination : option PaginationOptions) :
  (exists v, Mongo.getUserById s id = Returned v) /\
  (exists v, Mongo.getUserByEmail s email = Returned v) /\
  (exists v, Mongo.getConversions engine s userId filters sortOptions pagination =
             Returned v) /\
  (exists v, Mongo.getConversionsCount engine s userId filters = Returned v) /\
  (exists v, Mongo.getConversion s id = Returned v) /\
  (exists v s', Mongo.deleteConversion s id = (Returned v, s')).
Proof.
  repeat split.
  - unfold Mongo.getUserById.
    destruct (match getCollection "users" s with None => _ | Some _ => _ end);
      simpl; eexists; reflexivity.
  - unfold Mongo.getUserByEmail.
    destruct (match getCollection "users" s with None => _ | Some _ => _ end);
      simpl; eexists; reflexivity.
  - unfold Mongo.getConversions.
    destruct (match getCollection "conversions" s with None => _ | Some _ => _ end);
      simpl; eexists; reflexivity.
  - unfold Mongo.getConversionsCount.
    destruct (match getCollection "conversions" s with None => _ | Some _ => _ end);
      simpl; eexists; reflexivity.
  - unfold Mongo.getConversion.
    destruct (match getCollection "conversions" s with None => _ | Some _ => _ end);
      simpl; eexists; reflexivity.
  - unfold Mongo.deleteConversion, Mongo.try_catch_st.
    destruct (match getCollection "conversions" s with None => _ | Some _ => _ end)
      as [[b|e] s']; simpl; eexists _, _; reflexivity.
Qed.

Lemma reads_degrade (engine : RegexEngine) (s : Store) (userId id email : string)
    (filters : option ConversionFilters) (sortOptions : option SortOptions)
    (pagination : option PaginationOptions) :
  link s <> LinkUp ->
  Mongo.getUserById s id = Returned None /\
  Mongo.getUserByEmail s email = Returned None /\
  Mongo.getConversions engine s userId filters sortOptions pagination = Returned [] /\
  Mongo.getConversionsCount engine s userId filters = Returned 0 /\
  Mongo.getConversion s id = Returned None /\
  Mongo.deleteConversion s id = (Returned false, s).
Proof.
  intros Hl.
  unfold Mongo.getUserById, Mongo.getUserByEmail, Mongo.getConversions,
    Mongo.getConversionsCount, Mongo.getConversion, Mongo.deleteConversion,
    Mongo.try_catch_st, getCollection, toArray, countDocuments,
    findOne_user, findOne_conversion, deleteOne.
  destruct (link s); [congruence| |]; simpl.
  - repeat split; reflexivity.
  - destruct (new_ObjectId id); simpl; repeat split; reflexivity.
Qed.

Lemma creates_propagate (s : Store) (fresh : ObjectId) (now : Z)
    (insertUser : InsertUser) (insertConversion : InsertConversion) :
  link s <> LinkUp ->
  (exists error, Mongo.createUser fresh now s insertUser = (Thrown error, s)) /\
  (exists error,
     Mongo.createConversion fresh now s insertConversion = (Thrown error, s)).
Proof.
  intros Hl.
  unfold Mongo.createUser, Mongo.createConversion, Mongo.try_catch_st,
    getCollection, insertOne_user, insertOne_conversion.
  destruct (link s); [congruence| |]; simpl; split; eexists; reflexivity.
Qed.

(** Failures that come from the input rather than from the link: an id
    that is no ObjectId, a search string the engine rejects, a negative
    number of documents to skip, an identity already taken. *)
Lemma invalid_inputs (engine : RegexEngine) (s : Store) (userId id : string)
    (filters : option ConversionFilters) (sortOptions : option SortOptions)
    (pagination : option PaginationOptions) (fresh : ObjectId) (now : Z)
    (insertConversion : InsertConversion) :
  (forall error, new_ObjectId id = Thrown error ->
     Mongo.getUserById s id = Returned None /\
     Mongo.getConversion s id = Returned None /\
     Mongo.deleteConversion s id = (Returned false, s)) /\
  (forall f pattern,
     filters = Some f -> truthy (search f) = Some pattern ->
     engine pattern "i" = None ->
     Mongo.getConversions engine s userId filters sortOptions pagination =
       Returned [] /\
     Mongo.getConversionsCount engine s userId filters = Returned 0) /\
  (forall p, pagination = Some p -> (page p - 1) * limit p < 0 ->
     Mongo.getConversions engine s userId filters sortOptions pagination =
       Returned []) /\
  (existsb (fun c => String.eqb (_id c) fresh) (conversions s) = true ->
   exists error,
     Mongo.createConversion fresh now s insertConversion = (Thrown error, s)).
Proof.
  split; [|split; [|split]].
  - intros error H. repeat split.
    + unfold Mongo.getUserById, getCollection. rewrite H.
      destruct (link s); reflexivity.
    + unfold Mongo.getConversion, getCollection. rewrite H.
      destruct (link s); reflexivity.
    + unfold Mongo.deleteConversion, Mongo.try_catch_st, getCollection. rewrite H.
      destruct (link s); reflexivity.
  - intros f pattern -> Hs He. split.
    + unfold Mongo.getConversions, getCollection, toArray, compile_clause.
      rewrite Hs. destruct (link s); simpl; try reflexivity.
      destruct pagination, (dateFrom f), (dateTo f), (sizeMin f), (sizeMax f);
        simpl; rewrite He; reflexivity.
    + unfold Mongo.getConversionsCount, getCollection, countDocuments,
        compile_clause.
      rewrite Hs. destruct (link s); simpl; try reflexivity.
      destruct (dateFrom f), (dateTo f), (sizeMin f), (sizeMax f); simpl;
        rewrite He; reflexivity.
  - intros p -> Hneg.
    unfold Mongo.getConversions, getCollection, toArray.
    destruct (link s); simpl; try reflexivity.
    match goal with
    | |- context [compile_clause engine ?q] =>
        destruct (compile_clause engine q) as [re|e]; simpl
    end; [|reflexivity].
    replace ((page p - 1) * limit p <? 0) with true by lia. reflexivity.
  - intros Hdup.
    unfold Mongo.createConversion, Mongo.try_catch_st, getCollection,
      insertOne_conversion.
    destruct (link s); simpl; try (eexists; reflexivity).
    rewrite Hdup. simpl. eexists. reflexivity.
Qed.

Lemma created_is_stored (s : Store) (fresh : ObjectId) (now : Z)
    (insertUser : InsertUser) (insertConversion : InsertConversion) :
  (forall u s', Mongo.createUser fresh now s insertUser = (Returned u, s') ->
     link s = LinkUp /\ users s' = users s ++ [u]) /\
  (forall c s',
     Mongo.createConversion fresh now s insertConversion = (Returned c, s') ->
     link s = LinkUp /\ conversions s' = conversions s ++ [c]).
Proof.
  unfold Mongo.createUser, Mongo.createConversion, Mongo.try_catch_st,
    getCollection, insertOne_user, insertOne_conversion.
  split.
  - intros u s'. destruct (link s); simpl; try discriminate.
    destruct (existsb _ (users s)); simpl; [discriminate|].
    intros [= <- <-]. auto.
  - intros c s'. destruct (link s); simpl; try discriminate.
    destruct (existsb _ (conversions s)); simpl; [discriminate|].
    intros [= <- <-]. auto.
Qed.

End FailureFacts.

(** C6. On the persistent backend the reads, the count and the delete
    never propagate an error, whatever their input; when the store cannot
    be reached they give the empty sequence, zero, absent or false and
    leave the store as it is.  [createUser] and [createConversion] then
    throw and leave the store as it is, and whenever they do return a
    record, it is the one the store has just appended.  The same holds
    for the failures that come from the input: a malformed id, a search
    string the store rejects and a negative skip degrade, an identity
    already taken makes [createConversion] throw. *)
Theorem persistent_failures_degrade_or_propagate
    (engine : Driver.RegexEngine) (s : Driver.Store) (userId id email : string)
    (filters : option ConversionFilters) (sortOptions : option SortOptions)
    (pagination : option PaginationOptions) (fresh : ObjectId) (now : Z)
    (insertUser : InsertUser) (insertConversion : InsertConversion) :
  ((exists v, Mongo.getUserById s id = Returned v) /\
   (exists v, Mongo.getUserByEmail s email = Returned v) /\
   (exists v, Mongo.getConversions engine s userId filters sortOptions pagination =
              Returned v) /\
   (exists v, Mongo.getConversionsCount engine s userId filters = Returned v) /\
   (exists v, Mongo.getConversion s id = Returned v) /\
   (exists v s', Mongo.deleteConversion s id = (Returned v, s'))) /\
  (Driver.link s <> Driver.LinkUp ->
   (Mongo.getUserById s id = Returned None /\
    Mongo.getUserByEmail s email = Returned None /\
    Mongo.getConversions engine s userId filters sortOptions pagination =
      Returned [] /\
    Mongo.getConversionsCount engine s userId filters = Returned 0 /\
    Mongo.getConversion s id = Returned None /\
    Mongo.deleteConversion s id = (Returned false, s)) /\
   (exists error, Mongo.createUser fresh now s insertUser = (Thrown error, s)) /\
   (exists error,
      Mongo.createConversion fresh now s insertConversion = (Thrown error, s))) /\
  (forall u s', Mongo.createUser fresh now s insertUser = (Returned u, s') ->
     Driver.link s = Driver.LinkUp /\ Driver.users s' = Driver.users s ++ [u]) /\
  (forall c s',
     Mongo.createConversion fresh now s insertConversion = (Returned c, s') ->
     Driver.link s = Driver.LinkUp /\
     Driver.conversions s' = Driver.conversions s ++ [c]) /\
  (forall error, Driver.new_ObjectId id = Thrown error ->
     Mongo.getUserById s id = Returned None /\
     Mongo.getConversion s id = Returned None /\
     Mongo.deleteConversion s id = (Returned false, s)) /\
  (forall f pattern,
     filters = Some f -> truthy (search f) = Some pattern ->
     engine pattern "i" = None ->
     Mongo.getConversions engine s userId filters sortOptions pagination =
       Returned [] /\
     Mongo.getConversionsCount engine s userId filters = Returned 0) /\
  (forall p, pagination = Some p -> (page p - 1) * limit p < 0 ->
     Mongo.getConversions engine s userId filters sortOptions pagination =
       Returned []) /\
  (existsb (fun c => String.eqb (_id c) fresh) (Driver.conversions s) = true ->
   exists error,
     Mongo.createConversion fresh now s insertConversion = (Thrown error, s)).
Proof.
  split; [apply FailureFacts.reads_never_throw|].
  split; [|split; [|split]].
  - intros Hl. split; [apply FailureFacts.reads_degrade; exact Hl|].
    apply FailureFacts.creates_propagate. exact Hl.
  - apply (FailureFacts.created_is_stored s fresh now insertUser insertConversion).
  - apply (FailureFacts.created_is_stored s fresh now insertUser insertConversion).
  - apply FailureFacts.invalid_inputs.
Qed.

Lemma persistent_failures_degrade_or_propagate_witness :
  Mongo.getConversions Regex.engine Scenario.unreachable_store "u1" None None None =
    Returned [] /\
  (exists error,
     Mongo.createConversion (Scenario.oid "1") 1000 Scenario.unreachable_store
       (Scenario.upload "a.pdf" 100) = (Thrown error, Scenario.unreachable_store)) /\
  Driver.link Scenario.empty_store = Driver.LinkUp.
Proof.
  destruct (persistent_failures_degrade_or_propagate Regex.engine
              Scenario.unreachable_store "u1" (Scenario.oid "1") "ann@example.org"
              None None None (Scenario.oid "1") 1000 Scenario.registration
              (Scenario.upload "a.pdf" 100)) as (_ & Hdown & _).
  destruct Hdown as ((_ & _ & Hlist & _) & _ & Hcreate).
  { simpl. discriminate. }
  destruct (persistent_failures_degrade_or_propagate Regex.engine
              Scenario.empty_store "u1" (Scenario.oid "1") "ann@example.org"
              None None None (Scenario.oid "1") 1000 Scenario.registration
              (Scenario.upload "a.pdf" 100)) as (_ & _ & _ & Hstored & _).
  split; [exact Hlist|]. split; [exact Hcreate|].
  eapply Hstored. vm_compute. reflexivity.
Defined.

(** ** The selector *)

Module ManagerFacts.

Import Manager.

Lemma attempts_log (msg : string) (sys : System) :
  attempts (log msg sys) =
  (attempts sys + if String.eqb announcement msg then 1 else 0)%nat.
Proof.
  unfold attempts, log. cbn [console].
  rewrite List.filter_app, length_app. cbn [List.filter].
  destruct (String.eqb announcement msg); reflexivity.
Qed.

Lemma attempts_snoc (a : StorageRef) (h : bool) (ms : option StorageRef)
    (me : Mem.Machine) (mo : Driver.Store) (c : list string) (msg : string) :
  attempts (mkSystem a h ms me mo (c ++ [msg])) =
  (length (List.filter (String.eqb announcement) c) +
   if String.eqb announcement msg then 1 else 0)%nat.
Proof. apply (attempts_log msg (mkSystem a h ms me mo c)). Qed.

Lemma length_filter_snoc (c : list string) (msg : string) :
  length (List.filter (String.eqb announcement) (c ++ [msg])) =
  (length (List.filter (String.eqb announcement) c) +
   if String.eqb announcement msg then 1 else 0)%nat.
Proof.
  rewrite List.filter_app, length_app. cbn [List.filter].
  destruct (String.eqb announcement msg); reflexivity.
Qed.

Ltac eval_eqb :=
  repeat match goal with
  | |- context [String.eqb announcement ?m] =>
      let b := eval vm_compute in (String.eqb announcement m) in
      change (String.eqb announcement m) with b
  end.

(** The effect of [setStorage] on the flag and on the console: one more
    attempt exactly on a switch from the in-memory backend to the
    persistent one with the flag not set, and then the flag is set. *)
Lemma setStorage_effect (storage : StorageRef) (sys : System) :
  let migrates :=
    instanceof_MemStorage (activeStorage sys) &&
    instanceof_MongoDBStorage storage &&
    negb (hasAttemptedMigration sys) in
  hasAttemptedMigration (setStorage storage sys) =
    hasAttemptedMigration sys || migrates /\
  attempts (setStorage storage sys) =
    (attempts sys + if migrates then 1 else 0)%nat.
Proof.
  destruct sys as [a h ms me mo c].
  destruct storage, a, h;
    cbv beta iota zeta delta
      [setStorage migrateMemoryToMongo log activeStorage hasAttemptedMigration
       mongoStorage memStorage mongoStore console instanceof_MemStorage
       instanceof_MongoDBStorage andb negb orb snd];
    (split; [reflexivity|]);
    rewrite attempts_snoc, !length_filter_snoc;
    eval_eqb; unfold attempts; cbn [console]; lia.
Qed.

Lemma setStorage_attempts (storage : StorageRef) (sys : System) :
  (hasAttemptedMigration sys = true ->
   hasAttemptedMigration (setStorage storage sys) = true /\
   attempts (setStorage storage sys) = attempts sys) /\
  (Agree sys -> Agree (setStorage storage sys)).
Proof.
  destruct (setStorage_effect storage sys) as [Hf Ha]. cbv zeta in Hf, Ha.
  unfold Agree. rewrite Hf, Ha.
  destruct (hasAttemptedMigration sys);
    destruct (instanceof_MemStorage (activeStorage sys) &&
              instanceof_MongoDBStorage storage); simpl;
    (split; [intros H; first [discriminate H | split; [reflexivity|lia]]
            | intros H; lia]).
Qed.

Lemma getMongoStorage_effect (built : bool) (sys : System) :
  hasAttemptedMigration (snd (getMongoStorage built sys)) = hasAttemptedMigration sys /\
  attempts (snd (getMongoStorage built sys)) = attempts sys.
Proof.
  unfold getMongoStorage. destruct (mongoStorage sys); [|destruct built];
    cbn [snd]; rewrite ?attempts_log; eval_eqb; split; try reflexivity.
  - unfold attempts. cbn [console]. lia.
  - lia.
Qed.

Lemma check_shape (built isConnected : bool) (sys : System) :
  snd (useMongoDBWithFallback built isConnected sys) = snd (getMongoStorage built sys) \/
  exists (msg : string) (storage : StorageRef),
    other msg /\
    snd (useMongoDBWithFallback built isConnected sys) =
      log msg (setStorage storage (snd (getMongoStorage built sys))).
Proof.
  unfold useMongoDBWithFallback.
  destruct (getMongoStorage built sys) as [[mongo|] sys1]; cbn [snd].
  - destruct isConnected.
    + destruct (negb (same_object (activeStorage sys1) mongo)); cbn [snd].
      * right. eexists _, _. split; [|reflexivity]. reflexivity.
      * left. reflexivity.
    + destruct (negb (instanceof_MemStorage (activeStorage sys1))); cbn [snd].
      * right. eexists _, _. split; [|reflexivity]. reflexivity.
      * left. reflexivity.
  - destruct (negb (instanceof_MemStorage (activeStorage sys1))); cbn [snd].
    + right. eexists _, _. split; [|reflexivity]. reflexivity.
    + left. reflexivity.
Qed.

Lemma check_attempts (built isConnected : bool) (sys : System) :
  (hasAttemptedMigration sys = true ->
   hasAttemptedMigration (snd (useMongoDBWithFallback built isConnected sys)) = true /\
   attempts (snd (useMongoDBWithFallback built isConnected sys)) = attempts sys) /\
  (Agree sys -> Agree (snd (useMongoDBWithFallback built isConnected sys))).
Proof.
  destruct (getMongoStorage_effect built sys) as [Hf1 Ha1].
  destruct (check_shape built isConnected sys) as [-> | (msg & storage & Hm & ->)].
  - unfold Agree. rewrite Hf1, Ha1. auto.
  - destruct (setStorage_attempts storage (snd (getMongoStorage built sys)))
      as [Hkeep Hagree].
    unfold Agree in *. rewrite attempts_log, Hm, Nat.add_0_r.
    change (hasAttemptedMigration (log msg ?s)) with (hasAttemptedMigration s).
    rewrite Hf1, Ha1 in *. auto.
Qed.

Lemma create_attempts (fresh : ObjectId) (now : Z) (conversion : InsertConversion)
    (sys : System) :
  hasAttemptedMigration (createConversion fresh now conversion sys) =
    hasAttemptedMigration sys /\
  attempts (createConversion fresh now conversion sys) = attempts sys.
Proof.
  unfold createConversion. destruct (activeStorage sys); split; reflexivity.
Qed.

Lemma step_attempts (e : Event) (sys : System) :
  (hasAttemptedMigration sys = true ->
   hasAttemptedMigration (step sys e) = true /\ attempts (step sys e) = attempts sys) /\
  (Agree sys -> Agree (step sys e)).
Proof.
  destruct e as [storage|built isConnected|fresh now conversion]; simpl.
  - apply setStorage_attempts.
  - apply check_attempts.
  - destruct (create_attempts fresh now conversion sys) as [Hf Ha].
    unfold Agree. rewrite Hf, Ha. split; [intros H; auto | auto].
Qed.

Lemma run_once_attempted (es : list Event) (sys : System) :
  hasAttemptedMigration sys = true ->
  hasAttemptedMigration (run es sys) = true /\ attempts (run es sys) = attempts sys.
Proof.
  revert sys. induction es as [|e es IH]; intros sys H; simpl.
  - auto.
  - destruct (step_attempts e sys) as [Hkeep _].
    destruct (Hkeep H) as [Hf Ha].
    destruct (IH (step sys e) Hf) as [Hf' Ha'].
    split; [exact Hf' | congruence].
Qed.

Lemma run_Agree (es : list Event) (sys : System) :
  Agree sys -> Agree (run es sys).
Proof.
  revert sys. induction es as [|e es IH]; intros sys H; simpl.
  - exact H.
  - apply IH. apply step_attempts. exact H.
Qed.

(** Neither [setStorage] nor the periodic check touches the data of the
    two backends. *)
Lemma switch_frame (sys : System) :
  (forall storage,
     memStorage (setStorage storage sys) = memStorage sys /\
     mongoStore (setStorage storage sys) = mongoStore sys) /\
  (forall built isConnected,
     memStorage (snd (useMongoDBWithFallback built isConnected sys)) = memStorage sys /\
     mongoStore (snd (useMongoDBWithFallback built isConnected sys)) = mongoStore sys).
Proof.
  destruct sys as [a h ms me mo c]. split.
  - intros storage. destruct storage, a, h; split; reflexivity.
  - intros built isConnected.
    destruct ms as [[]|], built, isConnected, a, h; split; reflexivity.
Qed.

End ManagerFacts.

(** C7. Along any run of the selector from its initial state the console
    shows at most one migration attempt; the flag is set exactly when it
    shows one; and once the flag is set, whatever happens next (switches
    back to memory and to the persistent backend again included) leaves
    the flag set and adds no attempt. *)
Theorem migration_attempted_at_most_once
    (store : Driver.Store) (es : list Manager.Event) :
  (Manager.attempts (Manager.run es (Manager.initial store)) <= 1)%nat /\
  (Manager.hasAttemptedMigration (Manager.run es (Manager.initial store)) = true <->
   Manager.attempts (Manager.run es (Manager.initial store)) = 1%nat) /\
  (forall more : list Manager.Event,
     Manager.hasAttemptedMigration (Manager.run es (Manager.initial store)) = true ->
     Manager.hasAttemptedMigration
       (Manager.run more (Manager.run es (Manager.initial store))) = true /\
     Manager.attempts (Manager.run more (Manager.run es (Manager.initial store))) =
       1%nat).
Proof.
  assert (Manager.Agree (Manager.run es (Manager.initial store))) as HA.
  { apply ManagerFacts.run_Agree. reflexivity. }
  unfold Manager.Agree in HA.
  split; [|split].
  - rewrite HA. destruct (Manager.hasAttemptedMigration _); lia.
  - rewrite HA. destruct (Manager.hasAttemptedMigration _); split;
      intros H; try reflexivity; discriminate.
  - intros more H.
    destruct (ManagerFacts.run_once_attempted more _ H) as [Hf Ha].
    split; [exact Hf|]. rewrite Ha, HA, H. reflexivity.
Qed.

Lemma migration_attempted_at_most_once_witness :
  Manager.hasAttemptedMigration
    (Manager.run [Manager.Check true false; Manager.Check true true]
       (Manager.run [Manager.Check true true] (Manager.initial Scenario.empty_store)))
    = true /\
  Manager.attempts
    (Manager.run [Manager.Check true false; Manager.Check true true]
       (Manager.run [Manager.Check true true] (Manager.initial Scenario.empty_store)))
    = 1%nat.
Proof.
  destruct (migration_attempted_at_most_once Scenario.empty_store
              [Manager.Check true true]) as (_ & _ & Hlater).
  apply Hlater. reflexivity.
Defined.

(** C8. The switch from the in-memory to the persistent backend copies
    nothing: [setStorage] and the periodic check leave the data of both
    backends as they were.  After an upload taken during an outage and the
    check that finds the store connected, the persistent backend is
    active, the migration is marked attempted, the upload is still held by
    the in-memory backend and the persistent backend does not have it. *)
Theorem switch_to_persistent_copies_nothing :
  (forall (sys : Manager.System) (built isConnected : bool),
     Manager.memStorage (snd (Manager.useMongoDBWithFallback built isConnected sys)) =
       Manager.memStorage sys /\
     Manager.mongoStore (snd (Manager.useMongoDBWithFallback built isConnected sys)) =
       Manager.mongoStore sys) /\
  (let before := Manager.run Scenario.outage (Manager.initial Scenario.empty_store) in
   let after := snd (Manager.useMongoDBWithFallback true true before) in
   Manager.activeStorage before = Manager.TheMemStorage /\
   Manager.activeStorage after = Manager.TheMongoStorage /\
   Manager.hasAttemptedMigration after = true /\
   Manager.attempts after = 1%nat /\
   exists c : Conversion,
     Mem.stored (Manager.memStorage after) = [c] /\
     Driver.conversions (Manager.mongoStore after) = [] /\
     Mongo.getConversion (Manager.mongoStore after) (_id c) = Returned None).
Proof.
  split.
  - intros sys built isConnected. apply ManagerFacts.switch_frame.
  - cbv zeta. split; [reflexivity|]. split; [reflexivity|].
    split; [reflexivity|]. split; [vm_compute; reflexivity|].
    eexists. split; [vm_compute; reflexivity|].
    split; vm_compute; reflexivity.
Qed.

(** ** Reads of the in-memory backend *)

Module ReadFacts.

Import Mem MemView.

Lemma stored_kept (m m' : Machine) :
  valid m -> this m' = this m -> arrays m `prefix_of` arrays m' ->
  stored m' = stored m.
Proof.
  unfold valid, stored, readArray. intros Hv -> [k ->].
  rewrite lookup_app_l by exact Hv. reflexivity.
Qed.

End ReadFacts.

(** C9. On a machine whose conversions array exists, every read of the
    in-memory backend leaves the storage object and every array of the
    machine as they were, so that the users and the stored conversions,
    in their stored order, are the same after the call; the array
    [getConversions] returns is not the stored one. *)
Theorem reads_leave_memory_unchanged
    (now : Z) (userId id email : string) (filters : option ConversionFilters)
    (sortOptions : option SortOptions) (pagination : option PaginationOptions)
    (m : Mem.Machine) :
  MemView.valid m ->
  (forall m' : Mem.Machine,
     m' = snd (Mem.getConversions now userId filters sortOptions pagination m) \/
     m' = snd (Mem.getConversionsCount now userId filters m) \/
     m' = snd (Mem.getConversion id m) \/
     m' = snd (Mem.getUserById id m) \/
     m' = snd (Mem.getUserByEmail email m) ->
     Mem.this m' = Mem.this m /\
     Mem.arrays m `prefix_of` Mem.arrays m' /\
     Mem.users (Mem.this m') = Mem.users (Mem.this m) /\
     Mem.stored m' = Mem.stored m) /\
  fst (Mem.getConversions now userId filters sortOptions pagination m) <>
    Mem.conversions (Mem.this m).
Proof.
  intros Hv.
  destruct (MemFacts.getConversions_run now userId filters sortOptions pagination m)
    as (Ht & Hp & Hl & _).
  destruct (MemFacts.getConversionsCount_run now userId filters m) as (_ & Ht' & Hp').
  split.
  - assert (forall m', Mem.this m' = Mem.this m ->
              Mem.arrays m `prefix_of` Mem.arrays m' ->
              Mem.this m' = Mem.this m /\
              Mem.arrays m `prefix_of` Mem.arrays m' /\
              Mem.users (Mem.this m') = Mem.users (Mem.this m) /\
              Mem.stored m' = Mem.stored m) as Hsame.
    { intros m' H1 H2. repeat split; try assumption.
      - rewrite H1. reflexivity.
      - apply ReadFacts.stored_kept; assumption. }
    intros m' [-> | [-> | [-> | [-> | ->]]]].
    + apply Hsame; assumption.
    + apply Hsame; assumption.
    + apply Hsame; reflexivity.
    + apply Hsame; reflexivity.
    + apply Hsame; reflexivity.
  - unfold MemView.valid in Hv. lia.
Qed.

Lemma reads_leave_memory_unchanged_witness :
  MemView.valid (Scenario.mem_after Scenario.two_sizes) /\
  Mem.stored
    (snd (Mem.getConversions 5000 "u1" None Scenario.by_filename_asc None
            (Scenario.mem_after Scenario.two_sizes))) =
  Mem.stored (Scenario.mem_after Scenario.two_sizes).
Proof.
  assert (MemView.valid (Scenario.mem_after Scenario.two_sizes)) as Hv.
  { unfold MemView.valid. simpl. lia. }
  split; [exact Hv|].
  destruct (reads_leave_memory_unchanged 5000 "u1" (Scenario.oid "1")
              "ann@example.org" None Scenario.by_filename_asc None
              (Scenario.mem_after Scenario.two_sizes) Hv) as [Hsame _].
  apply Hsame. left. reflexivity.
Defined.

(** ** Order of the results of the in-memory backend *)

Module OrderFacts.

Import Mem MemView.

Lemma In_take {A} (n : nat) (l : list A) (x : A) : In x (take n l) -> In x l.
Proof.
  intros H. rewrite <- (firstn_skipn n l). apply in_or_app. left. exact H.
Qed.

Lemma In_drop {A} (n : nat) (l : list A) (x : A) : In x (drop n l) -> In x l.
Proof.
  intros H. rewrite <- (firstn_skipn n l). apply in_or_app. right. exact H.
Qed.

Lemma sort_insert_sorted {A} (cmp : A -> A -> Z) (x : A) (l : list A) :
  (forall a b, 0 < cmp a b -> cmp b a <= 0) ->
  (forall a b c, cmp a b <= 0 -> cmp b c <= 0 -> cmp a c <= 0) ->
  StronglySorted (fun a b => cmp a b <= 0) l ->
  StronglySorted (fun a b => cmp a b <= 0) (sort_insert cmp x l).
Proof.
  intros Htot Htr. induction l as [|y l IH]; intros Hs; simpl.
  - constructor; [constructor | constructor].
  - apply StronglySorted_inv in Hs as [Hs Hy].
    destruct (cmp x y <=? 0) eqn:E.
    + apply Z.leb_le in E. constructor.
      * constructor; assumption.
      * constructor; [exact E|].
        rewrite List.Forall_forall in *. intros z Hz. eapply Htr; eauto.
    + apply Z.leb_gt in E. constructor; [apply IH; exact Hs|].
      rewrite List.Forall_forall in *. intros z Hz.
      apply (Permutation_in _ (Permutation_sym (Basics.sort_insert_Permutation cmp x l)))
        in Hz.
      destruct Hz as [<-|Hz]; [apply Htot; exact E | apply Hy; exact Hz].
Qed.

Lemma stable_sort_sorted {A} (cmp : A -> A -> Z) (l : list A) :
  (forall a b, 0 < cmp a b -> cmp b a <= 0) ->
  (forall a b c, cmp a b <= 0 -> cmp b c <= 0 -> cmp a c <= 0) ->
  StronglySorted (fun a b => cmp a b <= 0) (stable_sort cmp l).
Proof.
  intros Htot Htr. induction l as [|x l IH]; simpl.
  - constructor.
  - apply sort_insert_sorted; assumption.
Qed.

Lemma sorted_drop {A} (R : A -> A -> Prop) (n : nat) (l : list A) :
  StronglySorted R l -> StronglySorted R (drop n l).
Proof.
  revert l. induction n as [|n IH]; intros l Hs; [exact Hs|].
  destruct l as [|x l]; [constructor|]. simpl.
  apply IH. apply StronglySorted_inv in Hs. tauto.
Qed.

Lemma sorted_take {A} (R : A -> A -> Prop) (n : nat) (l : list A) :
  StronglySorted R l -> StronglySorted R (take n l).
Proof.
  revert l. induction n as [|n IH]; intros l Hs; [constructor|].
  destruct l as [|x l]; [constructor|]. simpl.
  apply StronglySorted_inv in Hs as [Hs Hx]. constructor; [apply IH; exact Hs|].
  rewrite List.Forall_forall in *. intros z Hz. apply Hx.
  eapply In_take. exact Hz.
Qed.

Lemma string_not_gt_trans (s t u : string) :
  String.compare s t <> Gt -> String.compare t u <> Gt -> String.compare s u <> Gt.
Proof.
  intros H1 H2.
  destruct (String.compare s t) eqn:E1; [| |congruence].
  - apply String.compare_eq_iff in E1. subst. exact H2.
  - destruct (String.compare t u) eqn:E2; [| |congruence].
    + apply String.compare_eq_iff in E2. subst. rewrite E1. discriminate.
    + apply OrderedTypeEx.String_as_OT.cmp_lt in E1, E2.
      pose proof (OrderedTypeEx.String_as_OT.lt_trans _ _ _ E1 E2) as H.
      apply OrderedTypeEx.String_as_OT.cmp_lt in H.
      unfold OrderedTypeEx.String_as_OT.cmp in H. rewrite H. discriminate.
Qed.

Lemma js_gt_asym (a b : JsValue) : js_gt a b = true -> js_gt b a = false.
Proof.
  destruct a as [s|n], b as [t|k]; simpl; try discriminate.
  - rewrite (String.compare_antisym t s).
    destruct (String.compare s t); simpl; congruence.
  - intros H. apply Z.ltb_lt in H. apply Z.ltb_ge. lia.
Qed.

Lemma js_not_gt_trans (a b c : JsValue) :
  Keys.same_kind a b -> Keys.same_kind b c ->
  js_gt a b = false -> js_gt b c = false -> js_gt a c = false.
Proof.
  destruct a as [s|n], b as [t|k], c as [u|j]; simpl; try tauto; intros _ _.
  - intros H1 H2.
    assert (String.compare s u <> Gt) as H.
    { apply (string_not_gt_trans s t u).
      - destruct (String.compare s t); congruence.
      - destruct (String.compare t u); congruence. }
    destruct (String.compare s u); congruence.
  - rewrite !Z.ltb_ge. lia.
Qed.

Lemma sortVal_kind (f : SortField) (now : Z) (a b : Conversion) :
  Keys.same_kind (sortVal f now a) (sortVal f now b).
Proof. destruct f; exact I. Qed.

(** The comparator puts [a] no later than [b] exactly when the key of [a]
    is not greater (ascending) or not smaller (descending). *)
Lemma compareFn_le (f : SortField) (o : SortOrder) (now : Z) (a b : Conversion) :
  compareFn f o now a b <= 0 <->
  match o with
  | asc => js_gt (sortVal f now a) (sortVal f now b) = false
  | desc => js_gt (sortVal f now b) (sortVal f now a) = false
  end.
Proof.
  unfold compareFn, js_lt. destruct o.
  - destruct (js_gt (sortVal f now a) (sortVal f now b)) eqn:E.
    + split; [lia | discriminate].
    + destruct (js_gt (sortVal f now b) (sortVal f now a)); split; auto; lia.
  - destruct (js_gt (sortVal f now b) (sortVal f now a)) eqn:E.
    + split; [lia | discriminate].
    + destruct (js_gt (sortVal f now a) (sortVal f now b)); split; auto; lia.
Qed.

Lemma compareFn_total (f : SortField) (o : SortOrder) (now : Z) (a b : Conversion) :
  0 < compareFn f o now a b -> compareFn f o now b a <= 0.
Proof.
  intros H. apply compareFn_le.
  assert (~ compareFn f o now a b <= 0) as Hn by lia.
  rewrite compareFn_le in Hn. destruct o.
  - apply js_gt_asym. destruct (js_gt (sortVal f now a) (sortVal f now b)); congruence.
  - apply js_gt_asym. destruct (js_gt (sortVal f now b) (sortVal f now a)); congruence.
Qed.

Lemma compareFn_trans (f : SortField) (o : SortOrder) (now : Z) (a b c : Conversion) :
  compareFn f o now a b <= 0 -> compareFn f o now b c <= 0 ->
  compareFn f o now a c <= 0.
Proof.
  rewrite !compareFn_le. destruct o; intros H1 H2.
  - eapply js_not_gt_trans; eauto using sortVal_kind.
  - eapply js_not_gt_trans; eauto using sortVal_kind.
Qed.

Lemma In_js_slice {A} (l : list A) (a b : Z) (x : A) :
  In x (js_slice l a b) -> In x l.
Proof.
  unfold js_slice. intros H. eapply In_drop, In_take. exact H.
Qed.

End OrderFacts.

Module ListingFacts.

Import Mem MemView.

Lemma In_applyFilters (now : Z) (filters : option ConversionFilters)
    (l : list Conversion) (c : Conversion) :
  In c (applyFilters now filters l) -> In c l.
Proof.
  destruct filters as [f|]; simpl; [|auto]. intros H.
  repeat apply CountFacts.optFilter_sub in H. exact H.
Qed.

Lemma length_optFilter {A} (o : option A) (p : A -> Conversion -> bool)
    (l : list Conversion) :
  (length (optFilter o p l) <= length l)%nat.
Proof. destruct o; simpl; [apply filter_length_le | lia]. Qed.

Lemma length_applyFilters (now : Z) (filters : option ConversionFilters)
    (l : list Conversion) :
  (length (applyFilters now filters l) <= length l)%nat.
Proof.
  destruct filters as [f|]; simpl; [|lia].
  repeat (etransitivity; [apply length_optFilter|]). lia.
Qed.

Lemma In_selected (now : Z) (userId : string) (filters : option ConversionFilters)
    (l : list Conversion) (c : Conversion) :
  In c (selected now userId filters l) -> In c l /\ Schema.userId c = userId.
Proof.
  unfold selected. intros H. apply In_applyFilters, filter_In in H.
  rewrite String.eqb_eq in H. exact H.
Qed.

Lemma query_user (userId : string) (filters : option ConversionFilters) :
  Driver.q_userId (MongoView.query_of userId filters) = userId.
Proof.
  unfold MongoView.query_of. destruct filters as [f|]; [|reflexivity].
  destruct (truthy (search f)), (dateFrom f), (dateTo f), (sizeMin f), (sizeMax f);
    reflexivity.
Qed.

Lemma In_cursor (q : option (SortField * Z)) (sk lm : option Z)
    (l : list Conversion) (c : Conversion) :
  In c (Driver.apply_limit lm (Driver.apply_skip sk (Driver.apply_sort q l))) -> In c l.
Proof.
  intros H.
  assert (In c (Driver.apply_skip sk (Driver.apply_sort q l))) as H1.
  { destruct lm as [n|]; simpl in H; [|exact H].
    destruct (n =? 0); [exact H | eapply OrderFacts.In_take; exact H]. }
  assert (In c (Driver.apply_sort q l)) as H2.
  { destruct sk as [n|]; simpl in H1; [eapply OrderFacts.In_drop; exact H1 | exact H1]. }
  destruct q as [[f d]|]; simpl in H2; [|exact H2].
  apply Basics.elem_of_stable_sort in H2. exact H2.
Qed.

Lemma stable_sort_filter {A} (cmp : A -> A -> Z) (P : A -> bool) (l : list A) :
  (forall x y, P x = true -> P y = true -> cmp x y <= 0) ->
  List.filter P (stable_sort cmp l) = List.filter P l.
Proof.
  intros Hties.
  assert (forall x L, List.filter P (sort_insert cmp x L) =
                      List.filter P (x :: L)) as Hins.
  { intros x L. induction L as [|y L IH]; [reflexivity|]. simpl.
    destruct (cmp x y <=? 0) eqn:E; [reflexivity|]. simpl.
    apply Z.leb_gt in E. simpl in IH.
    destruct (P x) eqn:Px.
    - destruct (P y) eqn:Py.
      + specialize (Hties x y Px Py). lia.
      + exact IH.
    - destruct (P y); rewrite IH; reflexivity. }
  induction l as [|x l IH]; [reflexivity|]. simpl.
  rewrite Hins. simpl. rewrite IH. reflexivity.
Qed.

Lemma Keys_eqb_eq (a b : JsValue) : Keys.eqb a b = true <-> a = b.
Proof.
  destruct a as [s|n], b as [t|m]; simpl.
  - rewrite String.eqb_eq. split; [intros ->; reflexivity | intros [= ->]; reflexivity].
  - split; discriminate.
  - split; discriminate.
  - rewrite Z.eqb_eq. split; [intros ->; reflexivity | intros [= ->]; reflexivity].
Qed.

Lemma js_gt_irrefl (a : JsValue) : js_gt a a = false.
Proof.
  destruct a as [s|n]; simpl.
  - assert (String.compare s s = Eq) as ->
      by (apply (proj2 (OrderedTypeEx.String_as_OT.cmp_eq s s)); reflexivity).
    reflexivity.
  - apply Z.ltb_irrefl.
Qed.

Lemma js_neither_gt (a b : JsValue) :
  Keys.same_kind a b -> js_gt a b = false -> js_gt b a = false -> a = b.
Proof.
  destruct a as [s|n], b as [t|m]; simpl; try tauto; intros _.
  - rewrite (String.compare_antisym t s).
    destruct (String.compare s t) eqn:E; simpl; try discriminate.
    apply String.compare_eq_iff in E. subst. reflexivity.
  - rewrite !Z.ltb_ge. intros. f_equal. lia.
Qed.

Lemma sorted_snoc {A} (R : A -> A -> Prop) (l : list A) (x : A) :
  StronglySorted R l -> (forall y, In y l -> R y x) -> StronglySorted R (l ++ [x]).
Proof.
  induction l as [|y l IH]; intros Hs Hx; simpl.
  - constructor; constructor.
  - apply StronglySorted_inv in Hs as [Hs Hy]. constructor.
    + apply IH; [exact Hs|]. intros z Hz. apply Hx. right. exact Hz.
    + rewrite List.Forall_forall in *. intros z Hz. apply in_app_or in Hz as [Hz|[<-|[]]].
      * apply Hy. exact Hz.
      * apply Hx. left. reflexivity.
Qed.

Lemma sorted_rev {A} (R : A -> A -> Prop) (l : list A) :
  StronglySorted R l -> StronglySorted (fun a b => R b a) (rev l).
Proof.
  induction l as [|x l IH]; intros Hs; simpl.
  - constructor.
  - apply StronglySorted_inv in Hs as [Hs Hx]. apply sorted_snoc.
    + apply IH. exact Hs.
    + rewrite List.Forall_forall in Hx. intros y Hy. apply Hx.
      apply in_rev. exact Hy.
Qed.

Lemma sorted_perm_unique {A} (R : A -> A -> Prop) (l1 l2 : list A) :
  (forall a b, In a l1 -> In b l1 -> R a b -> R b a -> a = b) ->
  Permutation l1 l2 -> StronglySorted R l1 -> StronglySorted R l2 -> l1 = l2.
Proof.
  revert l2. induction l1 as [|a l1 IH]; intros l2 Hanti Hp H1 H2.
  - apply Permutation_nil in Hp. subst. reflexivity.
  - destruct l2 as [|b l2].
    { apply Permutation_sym, Permutation_nil in Hp. discriminate. }
    apply StronglySorted_inv in H1 as [H1 Ha], H2 as [H2 Hb].
    rewrite List.Forall_forall in Ha, Hb.
    assert (a = b) as ->.
    { assert (In a (b :: l2)) as Hin1 by (eapply Permutation_in; [exact Hp | left; reflexivity]).
      assert (In b (a :: l1)) as Hin2
        by (eapply Permutation_in; [symmetry; exact Hp | left; reflexivity]).
      destruct Hin1 as [->|Hin1]; [reflexivity|].
      destruct Hin2 as [->|Hin2]; [reflexivity|].
      apply Hanti; [left; reflexivity | right; exact Hin2 | apply Ha; exact Hin2
                   | apply Hb; exact Hin1]. }
    f_equal. apply IH; [| |exact H1|exact H2].
    + intros x y Hx Hy. apply Hanti; right; assumption.
    + eapply Permutation_cons_inv. exact Hp.
Qed.

Lemma NoDup_map_eq {A B} (f : A -> B) (l : list A) (a b : A) :
  NoDup (map f l) -> In a l -> In b l -> f a = f b -> a = b.
Proof.
  induction l as [|x l IH]; simpl; intros Hnd Ha Hb E; [destruct Ha|].
  apply NoDup_cons in Hnd as [Hx Hnd].
  destruct Ha as [->|Ha], Hb as [->|Hb].
  - reflexivity.
  - exfalso. apply Hx. rewrite E. apply list_elem_of_In, in_map. exact Hb.
  - exfalso. apply Hx. rewrite <- E. apply list_elem_of_In, in_map. exact Ha.
  - apply IH; assumption.
Qed.

Lemma concat_pages {A} (xs : list A) (L n : nat) :
  concat (map (fun k => take L (drop ((k - 1) * L) xs)) (seq 1 n)) = take (n * L) xs.
Proof.
  induction n as [|n IH]; [reflexivity|].
  rewrite seq_S, map_app, concat_app, IH. simpl.
  rewrite app_nil_r, Nat.sub_0_r.
  replace (L + n * L)%nat with (n * L + L)%nat by lia.
  apply take_take_drop.
Qed.

End ListingFacts.

(** X1. Whatever the filters, the sort and the pagination, every
    conversion [getConversions] lists is a stored conversion of the user
    asked for, in the in-memory backend and in the persistent one. *)
Theorem listed_conversions_belong_to_the_user
    (engine : Driver.RegexEngine) (now : Z) (userId : string)
    (filters : option ConversionFilters) (sortOptions : option SortOptions)
    (pagination : option PaginationOptions) (m : Mem.Machine) (s : Driver.Store) :
  (forall c,
     In c (Mem.returned
             (Mem.getConversions now userId filters sortOptions pagination m)) ->
     In c (Mem.stored m) /\ Schema.userId c = userId) /\
  (forall xs c,
     Mongo.getConversions engine s userId filters sortOptions pagination =
       Returned xs ->
     In c xs ->
     In c (Driver.conversions s) /\ Schema.userId c = userId).
Proof.
  split.
  - intros c. rewrite MemFacts.getConversions_returned. intros H.
    assert (In c (MemView.ordered now sortOptions
                    (MemView.selected now userId filters (Mem.stored m)))) as H1.
    { destruct pagination as [p|]; simpl in H; [|exact H].
      eapply OrderFacts.In_js_slice. exact H. }
    apply Basics.elem_of_stable_sort, ListingFacts.In_selected in H1. exact H1.
  - intros xs c. rewrite AgreeFacts.getConversions_query.
    unfold Driver.getCollection, Driver.toArray.
    destruct (Driver.link s); simpl; try (intros [= <-] []).
    destruct (Driver.compile_clause engine _) as [re|e]; simpl;
      [|intros [= <-] []].
    destruct (match Driver.c_skip _ with Some n => n <? 0 | None => false end);
      simpl; [intros [= <-] []|].
    intros [= <-] Hc. apply ListingFacts.In_cursor in Hc.
    apply filter_In in Hc as [Hc Hm]. split; [exact Hc|].
    assert (Driver.c_query
              (match pagination with
               | Some p =>
                   Driver.limit_
                     (Driver.skip
                        (Driver.sort (Driver.find (MongoView.query_of userId filters))
                           (field_or_default sortOptions)
                           (MongoView.direction sortOptions))
                        ((page p - 1) * limit p)) (limit p)
               | None =>
                   Driver.sort (Driver.find (MongoView.query_of userId filters))
                     (field_or_default sortOptions) (MongoView.direction sortOptions)
               end) = MongoView.query_of userId filters) as Hq
      by (destruct pagination; reflexivity).
    rewrite Hq in Hm. unfold Driver.matches in Hm.
    rewrite ListingFacts.query_user in Hm.
    apply andb_prop in Hm as [Hm _]. apply andb_prop in Hm as [Hm _].
    apply andb_prop in Hm as [Hm _]. apply String.eqb_eq. exact Hm.
Qed.

Lemma listed_conversions_belong_to_the_user_witness :
  (In (mkConversion (Scenario.oid "2") "u1" "b.pdf" 5000 "<document/>" (Some 2000))
      (Mem.stored (Scenario.mem_after Scenario.two_sizes)) /\
   Schema.userId
     (mkConversion (Scenario.oid "2") "u1" "b.pdf" 5000 "<document/>" (Some 2000)) =
   "u1") /\
  (In (mkConversion (Scenario.oid "2") "u1" "b.pdf" 5000 "<document/>" (Some 2000))
      (Driver.conversions (Scenario.mongo_after Scenario.two_sizes)) /\
   Schema.userId
     (mkConversion (Scenario.oid "2") "u1" "b.pdf" 5000 "<document/>" (Some 2000)) =
   "u1").
Proof.
  destruct (listed_conversions_belong_to_the_user Regex.engine 5000 "u1"
              (Scenario.search_for "pdf") None (Some (mkPagination 1 1))
              (Scenario.mem_after Scenario.two_sizes)
              (Scenario.mongo_after Scenario.two_sizes)) as [Hmem Hmongo].
  split.
  - apply Hmem. vm_compute. left. reflexivity.
  - apply (Hmongo
             [mkConversion (Scenario.oid "2") "u1" "b.pdf" 5000 "<document/>"
                (Some 2000)]).
    + vm_compute. reflexivity.
    + left. reflexivity.
Defined.

(** X2. The list the in-memory backend returns is in the order asked
    for: under ascending order no conversion has a greater key than one
    listed after it, under descending order none has a smaller one; the
    key is the lowered filename, the size, or the date. *)
Theorem in_memory_listing_is_sorted
    (now : Z) (userId : string) (filters : option ConversionFilters)
    (sortOptions : option SortOptions) (pagination : option PaginationOptions)
    (m : Mem.Machine) :
  StronglySorted
    (fun a b =>
       match order_or_default sortOptions with
       | asc =>
           js_gt (Mem.sortVal (field_or_default sortOptions) now a)
                 (Mem.sortVal (field_or_default sortOptions) now b) = false
       | desc =>
           js_gt (Mem.sortVal (field_or_default sortOptions) now b)
                 (Mem.sortVal (field_or_default sortOptions) now a) = false
       end)
    (Mem.returned (Mem.getConversions now userId filters sortOptions pagination m)).
Proof.
  rewrite MemFacts.getConversions_returned.
  assert (StronglySorted
            (fun a b =>
               Mem.compareFn (field_or_default sortOptions)
                 (order_or_default sortOptions) now a b <= 0)
            (MemView.paged pagination
               (MemView.ordered now sortOptions
                  (MemView.selected now userId filters (Mem.stored m))))) as H.
  { assert (StronglySorted
              (fun a b =>
                 Mem.compareFn (field_or_default sortOptions)
                   (order_or_default sortOptions) now a b <= 0)
              (MemView.ordered now sortOptions
                 (MemView.selected now userId filters (Mem.stored m)))) as H0.
    { apply OrderFacts.stable_sort_sorted.
      - apply OrderFacts.compareFn_total.
      - apply OrderFacts.compareFn_trans. }
    destruct pagination as [p|]; simpl; [|exact H0].
    unfold js_slice. apply OrderFacts.sorted_take, OrderFacts.sorted_drop. exact H0. }
  induction H as [|a l Hs IH Ha]; constructor.
  - exact IH.
  - rewrite List.Forall_forall in *. intros b Hb.
    apply OrderFacts.compareFn_le. apply Ha. exact Hb.
Qed.

(** X3. The in-memory sort is stable: the listed conversions that share
    a sort key come in the order in which they are stored. *)
Theorem in_memory_sort_keeps_stored_order_of_ties
    (now : Z) (userId : string) (filters : option ConversionFilters)
    (sortOptions : option SortOptions) (m : Mem.Machine) (k : JsValue) :
  List.filter
    (fun c => Keys.eqb (Mem.sortVal (field_or_default sortOptions) now c) k)
    (Mem.returned (Mem.getConversions now userId filters sortOptions None m)) =
  List.filter
    (fun c => Keys.eqb (Mem.sortVal (field_or_default sortOptions) now c) k)
    (MemView.selected now userId filters (Mem.stored m)).
Proof.
  rewrite MemFacts.getConversions_returned. simpl. unfold MemView.ordered.
  apply ListingFacts.stable_sort_filter. intros x y Hx Hy.
  apply ListingFacts.Keys_eqb_eq in Hx, Hy.
  apply OrderFacts.compareFn_le. rewrite Hx, Hy.
  destruct (order_or_default sortOptions); apply ListingFacts.js_gt_irrefl.
Qed.

(** X4. When no two selected conversions share the sort key, the
    descending list is the ascending list reversed. *)
Theorem descending_is_ascending_reversed
    (now : Z) (userId : string) (filters : option ConversionFilters)
    (f : SortField) (m : Mem.Machine) :
  NoDup (map (Mem.sortVal f now)
           (MemView.selected now userId filters (Mem.stored m))) ->
  Mem.returned
    (Mem.getConversions now userId filters (Some (mkSort f desc)) None m) =
  rev (Mem.returned
         (Mem.getConversions now userId filters (Some (mkSort f asc)) None m)).
Proof.
  intros Hnd. rewrite !MemFacts.getConversions_returned. simpl.
  unfold MemView.ordered. simpl.
  set (sel := MemView.selected now userId filters (Mem.stored m)) in *.
  apply (ListingFacts.sorted_perm_unique
           (fun a b => Mem.compareFn f desc now a b <= 0)).
  - intros a b Ha Hb Hab Hba.
    apply Basics.elem_of_stable_sort in Ha, Hb.
    apply OrderFacts.compareFn_le in Hab, Hba.
    apply (ListingFacts.NoDup_map_eq (Mem.sortVal f now) sel); try assumption.
    apply ListingFacts.js_neither_gt;
      [apply OrderFacts.sortVal_kind | exact Hba | exact Hab].
  - rewrite <- Permutation_rev.
    rewrite <- (Basics.stable_sort_Permutation (Mem.compareFn f desc now)).
    apply Basics.stable_sort_Permutation.
  - apply OrderFacts.stable_sort_sorted.
    + apply OrderFacts.compareFn_total.
    + apply OrderFacts.compareFn_trans.
  - apply (ListingFacts.sorted_rev (fun a b => Mem.compareFn f asc now a b <= 0)).
    apply OrderFacts.stable_sort_sorted.
    + apply OrderFacts.compareFn_total.
    + apply OrderFacts.compareFn_trans.
Qed.

Lemma descending_is_ascending_reversed_witness :
  Mem.returned
    (Mem.getConversions 5000 "u1" None (Some (mkSort Field_originalSize desc)) None
       (Scenario.mem_after Scenario.two_sizes)) =
  rev (Mem.returned
         (Mem.getConversions 5000 "u1" None (Some (mkSort Field_originalSize asc))
            None (Scenario.mem_after Scenario.two_sizes))).
Proof.
  apply (descending_is_ascending_reversed 5000 "u1" None Field_originalSize
           (Scenario.mem_after Scenario.two_sizes)).
  change (NoDup [VNum 100; VNum 5000]).
  apply NoDup_cons. split; [|apply NoDup_singleton].
  intros H. apply list_elem_of_singleton in H. discriminate H.
Defined.

(** X5. With a limit of at least 1, the pages 1 to [n] of the in-memory
    backend, one after the other, are the first [n * limit] conversions of
    the list without pagination, and all of it once [n * limit] reaches
    its length. *)
Theorem pages_concatenate_to_the_listing
    (now : Z) (userId : string) (filters : option ConversionFilters)
    (sortOptions : option SortOptions) (m : Mem.Machine) (lim : Z) (n : nat) :
  1 <= lim ->
  concat
    (map (fun k =>
            Mem.returned
              (Mem.getConversions now userId filters sortOptions
                 (Some (mkPagination (Z.of_nat k) lim)) m))
       (seq 1 n)) =
  take (n * Z.to_nat lim)
    (Mem.returned (Mem.getConversions now userId filters sortOptions None m)) /\
  ((length (Mem.returned (Mem.getConversions now userId filters sortOptions None m))
    <= n * Z.to_nat lim)%nat ->
   concat
     (map (fun k =>
             Mem.returned
               (Mem.getConversions now userId filters sortOptions
                  (Some (mkPagination (Z.of_nat k) lim)) m))
        (seq 1 n)) =
   Mem.returned (Mem.getConversions now userId filters sortOptions None m)).
Proof.
  intros Hl.
  assert (concat
            (map (fun k =>
                    Mem.returned
                      (Mem.getConversions now userId filters sortOptions
                         (Some (mkPagination (Z.of_nat k) lim)) m))
               (seq 1 n)) =
          take (n * Z.to_nat lim)
            (Mem.returned (Mem.getConversions now userId filters sortOptions None m)))
    as H.
  { rewrite <- ListingFacts.concat_pages. f_equal. apply map_ext_in.
    intros k Hk. apply in_seq in Hk.
    rewrite !MemFacts.getConversions_returned. simpl.
    rewrite Basics.js_slice_take_drop by nia.
    f_equal. f_equal. nia. }
  split; [exact H|]. intros Hlen. rewrite H. apply take_ge. exact Hlen.
Qed.

Lemma pages_concatenate_to_the_listing_witness :
  Mem.returned
    (Mem.getConversions 5000 "u1" None None (Some (mkPagination 1 1))
       (Scenario.mem_after Scenario.two_sizes)) ++
  Mem.returned
    (Mem.getConversions 5000 "u1" None None (Some (mkPagination 2 1))
       (Scenario.mem_after Scenario.two_sizes)) ++ [] =
  Mem.returned
    (Mem.getConversions 5000 "u1" None None None
       (Scenario.mem_after Scenario.two_sizes)).
Proof.
  destruct (pages_concatenate_to_the_listing 5000 "u1" None None
              (Scenario.mem_after Scenario.two_sizes) 1 2) as [_ Hall]; [lia|].
  apply Hall. vm_compute. lia.
Defined.

(** X6. For a limit that is not negative a page holds at most that many
    conversions, whatever the page number; for every pagination it holds no
    more than [getConversionsCount] reports for the same filters, which in
    turn is at most the count without filters. *)
Theorem page_size_is_bounded
    (now : Z) (userId : string) (filters : option ConversionFilters)
    (sortOptions : option SortOptions) (pagination : option PaginationOptions)
    (m : Mem.Machine) :
  (forall p, pagination = Some p -> 0 <= limit p ->
     Z.of_nat (length (Mem.returned
       (Mem.getConversions now userId filters sortOptions pagination m)))
     <= limit p) /\
  Z.of_nat (length (Mem.returned
    (Mem.getConversions now userId filters sortOptions pagination m)))
  <= fst (Mem.getConversionsCount now userId filters m) /\
  fst (Mem.getConversionsCount now userId filters m)
  <= fst (Mem.getConversionsCount now userId None m).
Proof.
  destruct (MemFacts.getConversionsCount_run now userId filters m) as (-> & _).
  destruct (MemFacts.getConversionsCount_run now userId None m) as (-> & _).
  rewrite MemFacts.getConversions_returned.
  set (sel := MemView.selected now userId filters (Mem.stored m)).
  assert (length (MemView.ordered now sortOptions sel) = length sel) as Hlen
    by apply Basics.length_stable_sort.
  split; [|split].
  - intros p -> Hp. simpl. unfold js_slice. rewrite length_take, length_drop, Hlen.
    generalize ((page p - 1) * limit p). intros z.
    destruct (Z.ltb_spec z 0), (Z.ltb_spec (z + limit p) 0); lia.
  - destruct pagination as [p|]; simpl; [|lia].
    unfold js_slice. rewrite length_take, length_drop, Hlen.
    generalize ((page p - 1) * limit p). intros z.
    destruct (Z.ltb_spec z 0), (Z.ltb_spec (z + limit p) 0); lia.
  - apply inj_le. unfold sel, MemView.selected.
    apply ListingFacts.length_applyFilters.
Qed.

Lemma page_size_is_bounded_witness :
  Z.of_nat
    (length
       (Mem.returned
          (Mem.getConversions 5000 "u1" None None (Some (mkPagination 7 1))
             (Scenario.mem_after Scenario.two_sizes)))) <= 1.
Proof.
  destruct (page_size_is_bounded 5000 "u1" None None (Some (mkPagination 7 1))
              (Scenario.mem_after Scenario.two_sizes)) as [Hpage _].
  apply (Hpage (mkPagination 7 1)); [reflexivity | simpl; lia].
Defined.

(** ** Creating and reading back *)

Module CreateFacts.

Import Mem MemView.

Lemma js_find_snoc {A} (p : A -> bool) (l : list A) (x : A) :
  js_find p (l ++ [x]) =
  match js_find p l with
  | Some y => Some y
  | None => if p x then Some x else None
  end.
Proof.
  induction l as [|y l IH]; simpl; [reflexivity|].
  destruct (p y); [reflexivity | exact IH].
Qed.

Lemma js_find_none {A} (p : A -> bool) (l : list A) :
  js_find p l = None <-> forall x, In x l -> p x = false.
Proof.
  induction l as [|y l IH]; simpl.
  - split; [intros _ x [] | reflexivity].
  - destruct (p y) eqn:E.
    + split; [discriminate|]. intros H. rewrite (H y) in E by (left; reflexivity).
      discriminate.
    + rewrite IH. split.
      * intros H x [<-|Hx]; [exact E | apply H; exact Hx].
      * intros H x Hx. apply H. right. exact Hx.
Qed.

Lemma getConversion_run (id : string) (m : Machine) :
  getConversion id m =
  (js_find (fun conv => String.eqb (_id conv) id) (stored m), m).
Proof. reflexivity. Qed.

Lemma count_all (now : Z) (userId : string) (m : Machine) :
  fst (getConversionsCount now userId None m) =
  Z.of_nat (length (List.filter
    (fun conv => String.eqb (Schema.userId conv) userId) (stored m))).
Proof.
  destruct (MemFacts.getConversionsCount_run now userId None m) as (-> & _).
  reflexivity.
Qed.

End CreateFacts.

(** X7. In the in-memory backend [createConversion] appends one record
    built from its argument, dated with the clock and carrying the new
    identity; the count of that user goes up by one; [getConversion] of
    the new identity then answers the first stored record that has it,
    the new one unless an older record already had it, and answers as
    before for every other id. *)
Theorem in_memory_create_then_get
    (fresh : ObjectId) (now now' : Z) (ins : InsertConversion) (id : string)
    (m : Mem.Machine) :
  MemView.valid m ->
  fst (Mem.createConversion fresh now ins m) =
    mkConversion fresh (ins_userId ins) (ins_filename ins) (ins_originalSize ins)
      (ins_xmlContent ins) (Some now) /\
  Mem.stored (snd (Mem.createConversion fresh now ins m)) =
    Mem.stored m ++ [fst (Mem.createConversion fresh now ins m)] /\
  fst (Mem.getConversion fresh (snd (Mem.createConversion fresh now ins m))) =
    match fst (Mem.getConversion fresh m) with
    | Some older => Some older
    | None => Some (fst (Mem.createConversion fresh now ins m))
    end /\
  (id <> fresh ->
   fst (Mem.getConversion id (snd (Mem.createConversion fresh now ins m))) =
   fst (Mem.getConversion id m)) /\
  fst (Mem.getConversionsCount now' (ins_userId ins) None
         (snd (Mem.createConversion fresh now ins m))) =
    fst (Mem.getConversionsCount now' (ins_userId ins) None m) + 1.
Proof.
  intros Hv.
  destruct (CountFacts.createConversion_ok fresh now ins m Hv) as (Hs & _ & _ & _).
  split; [reflexivity|]. split; [exact Hs|].
  rewrite !CreateFacts.getConversion_run, !CreateFacts.count_all, Hs. simpl fst.
  rewrite CreateFacts.js_find_snoc, List.filter_app, length_app. simpl.
  rewrite !String.eqb_refl. simpl. split; [reflexivity|]. split; [|lia].
  intros Hid. rewrite CreateFacts.js_find_snoc. simpl.
  destruct (js_find _ (Mem.stored m)); [reflexivity|].
  apply String.eqb_neq in Hid. rewrite String.eqb_sym, Hid. reflexivity.
Qed.

Lemma in_memory_create_then_get_witness :
  MemView.valid Mem.constructor /\
  fst (Mem.getConversion (Scenario.oid "1")
         (snd (Mem.createConversion (Scenario.oid "1") 1000
                 (Scenario.upload "a.pdf" 100) Mem.constructor))) =
  Some (mkConversion (Scenario.oid "1") "u1" "a.pdf" 100 "<document/>" (Some 1000)).
Proof.
  assert (MemView.valid Mem.constructor) as Hv by apply CountFacts.constructor_ok.
  split; [exact Hv|].
  destruct (in_memory_create_then_get (Scenario.oid "1") 1000 0
              (Scenario.upload "a.pdf" 100) "x" Mem.constructor Hv)
    as (_ & _ & Hget & _).
  rewrite Hget. reflexivity.
Defined.

(** X8. The array [getConversions] hands out is a snapshot: a later
    [createConversion] or [deleteConversion] on the backend leaves its
    contents as they were. *)
Theorem returned_listing_is_a_snapshot
    (now : Z) (userId : string) (filters : option ConversionFilters)
    (sortOptions : option SortOptions) (pagination : option PaginationOptions)
    (fresh : ObjectId) (now' : Z) (ins : InsertConversion) (id : string)
    (m : Mem.Machine) :
  MemView.valid m ->
  Mem.readArray
    (fst (Mem.getConversions now userId filters sortOptions pagination m))
    (snd (Mem.createConversion fresh now' ins
            (snd (Mem.getConversions now userId filters sortOptions pagination m)))) =
  Mem.returned (Mem.getConversions now userId filters sortOptions pagination m) /\
  Mem.readArray
    (fst (Mem.getConversions now userId filters sortOptions pagination m))
    (snd (Mem.deleteConversion id
            (snd (Mem.getConversions now userId filters sortOptions pagination m)))) =
  Mem.returned (Mem.getConversions now userId filters sortOptions pagination m).
Proof.
  intros Hv. unfold MemView.valid in Hv.
  destruct (MemFacts.getConversions_run now userId filters sortOptions pagination m)
    as (Ht & Hp & Hl & Hx).
  destruct (Mem.getConversions now userId filters sortOptions pagination m)
    as [l m1]. simpl in *.
  unfold Mem.returned. simpl. rewrite (MemFacts.readArray_lookup _ _ _ Hx).
  split.
  - apply MemFacts.readArray_lookup.
    unfold Mem.createConversion, Mem.bind, Mem.get_this, Mem.set_this,
      Mem.Array_push, Mem.ret; simpl.
    rewrite list_lookup_insert_ne; [exact Hx|]. rewrite Ht. lia.
  - apply MemFacts.readArray_lookup.
    unfold Mem.deleteConversion, Mem.bind, Mem.get_this, Mem.set_this,
      Mem.Array_length, Mem.Array_filter, Mem.alloc, Mem.ret; simpl.
    rewrite lookup_app_l; [exact Hx|]. eapply lookup_lt_Some. exact Hx.
Qed.

Lemma returned_listing_is_a_snapshot_witness :
  MemView.valid (Scenario.mem_after Scenario.two_sizes) /\
  Mem.readArray
    (fst (Mem.getConversions 5000 "u1" None None None
            (Scenario.mem_after Scenario.two_sizes)))
    (snd (Mem.deleteConversion (Scenario.oid "1")
            (snd (Mem.getConversions 5000 "u1" None None None
                    (Scenario.mem_after Scenario.two_sizes))))) =
  Mem.returned
    (Mem.getConversions 5000 "u1" None None None
       (Scenario.mem_after Scenario.two_sizes)).
Proof.
  assert (MemView.valid (Scenario.mem_after Scenario.two_sizes)) as Hv.
  { unfold MemView.valid. simpl. lia. }
  split; [exact Hv|].
  apply (returned_listing_is_a_snapshot 5000 "u1" None None None
           (Scenario.oid "3") 6000 (Scenario.upload "c.pdf" 1)
           (Scenario.oid "1") _ Hv).
Defined.

(** X9. [createUser] of the in-memory backend always appends: it does
    not look at the emails it holds.  Afterwards [getUserByEmail] and
    [getUserById] answer the first stored user with that email or id, so
    that a user registered earlier under the same email keeps answering;
    the stored conversions are untouched. *)
Theorem in_memory_createUser_appends
    (fresh : ObjectId) (now : Z) (ins : InsertUser) (m : Mem.Machine) :
  fst (Mem.createUser fresh now ins m) =
    mkUser fresh (ins_email ins) (ins_password ins) (Some now) /\
  Mem.users (Mem.this (snd (Mem.createUser fresh now ins m))) =
    Mem.users (Mem.this m) ++ [fst (Mem.createUser fresh now ins m)] /\
  fst (Mem.getUserByEmail (ins_email ins) (snd (Mem.createUser fresh now ins m))) =
    match fst (Mem.getUserByEmail (ins_email ins) m) with
    | Some earlier => Some earlier
    | None => Some (fst (Mem.createUser fresh now ins m))
    end /\
  fst (Mem.getUserById fresh (snd (Mem.createUser fresh now ins m))) =
    match fst (Mem.getUserById fresh m) with
    | Some earlier => Some earlier
    | None => Some (fst (Mem.createUser fresh now ins m))
    end /\
  Mem.stored (snd (Mem.createUser fresh now ins m)) = Mem.stored m /\
  Mem.userId (Mem.this (snd (Mem.createUser fresh now ins m))) =
    Mem.userId (Mem.this m) + 1.
Proof.
  unfold Mem.createUser, Mem.getUserByEmail, Mem.getUserById, Mem.bind,
    Mem.get_this, Mem.set_this, Mem.ret, Mem.stored, Mem.readArray; simpl.
  rewrite !CreateFacts.js_find_snoc. simpl. rewrite !String.eqb_refl.
  repeat split; reflexivity.
Qed.

(** ** Round trips on the persistent backend *)

Module PersistFacts.

Import Driver.

Lemma existsb_none (p : Conversion -> bool) (l : list Conversion) :
  (forall c, In c l -> p c = false) -> existsb p l = false.
Proof.
  intros H. induction l as [|x l IH]; simpl; [reflexivity|].
  rewrite (H x) by (left; reflexivity). apply IH.
  intros c Hc. apply H. right. exact Hc.
Qed.

End PersistFacts.

(** X10. On a store that is up, [createConversion] with an identity no
    stored document has returns a record with that identity, the fields
    of its argument and the clock as date, and appends it; the identities
    stay unique; [getConversion] of the identity then returns this record
    and the count of its user is one more than before. *)
Theorem persistent_create_then_get
    (engine : Driver.RegexEngine) (fresh : ObjectId) (now : Z)
    (ins : InsertConversion) (s : Driver.Store) :
  Driver.link s = Driver.LinkUp ->
  Driver.new_ObjectId fresh = Returned fresh ->
  (forall c, In c (Driver.conversions s) -> _id c <> fresh) ->
  exists s' : Driver.Store,
    Mongo.createConversion fresh now s ins =
      (Returned (mkConversion fresh (ins_userId ins) (ins_filename ins)
                   (ins_originalSize ins) (ins_xmlContent ins) (Some now)), s') /\
    Driver.conversions s' =
      Driver.conversions s ++
        [mkConversion fresh (ins_userId ins) (ins_filename ins)
           (ins_originalSize ins) (ins_xmlContent ins) (Some now)] /\
    Driver.users s' = Driver.users s /\
    (NoDup (map _id (Driver.conversions s)) ->
     NoDup (map _id (Driver.conversions s'))) /\
    Mongo.getConversion s' fresh =
      Returned (Some (mkConversion fresh (ins_userId ins) (ins_filename ins)
                        (ins_originalSize ins) (ins_xmlContent ins) (Some now))) /\
    (forall n,
       Mongo.getConversionsCount engine s (ins_userId ins) None = Returned n ->
       Mongo.getConversionsCount engine s' (ins_userId ins) None = Returned (n + 1)).
Proof.
  intros Hl Hid Hnew. destruct s as [lk us cs]. simpl in *. subst lk.
  assert (existsb (fun c => String.eqb (_id c) fresh) cs = false) as Hex.
  { apply PersistFacts.existsb_none. intros c Hc. apply String.eqb_neq.
    apply Hnew. exact Hc. }
  eexists. split.
  { unfold Mongo.createConversion, Mongo.try_catch_st, Driver.getCollection,
      Driver.insertOne_conversion. simpl. rewrite Hex. reflexivity. }
  simpl. split; [reflexivity|]. split; [reflexivity|]. split; [|split].
  - intros Hnd. rewrite map_app. simpl. apply NoDup_app. split; [exact Hnd|].
    split; [|apply NoDup_singleton].
    intros x Hx Hx'. apply list_elem_of_In in Hx. apply in_map_iff in Hx.
    destruct Hx as (c & <- & Hc). apply list_elem_of_In in Hx'.
    destruct Hx' as [E|[]]. apply (Hnew c Hc). symmetry. exact E.
  - unfold Mongo.getConversion, Driver.getCollection, Driver.findOne_conversion.
    simpl. rewrite Hid. simpl. rewrite CreateFacts.js_find_snoc.
    assert (js_find (fun c => String.eqb (_id c) fresh) cs = None) as ->.
    { apply CreateFacts.js_find_none. intros c Hc. apply String.eqb_neq.
      apply Hnew. exact Hc. }
    simpl. rewrite String.eqb_refl. reflexivity.
  - intros n. rewrite !AgreeFacts.getConversionsCount_query.
    unfold Driver.getCollection, Driver.countDocuments. simpl.
    rewrite List.filter_app, length_app. simpl.
    match goal with
    | |- context [if Driver.matches None ?q ?c then _ else _] =>
        assert (Driver.matches None q c = true) as ->
          by (unfold Driver.matches; simpl; rewrite String.eqb_refl; reflexivity)
    end.
    simpl. intros [= <-]. f_equal. lia.
Qed.

Lemma persistent_create_then_get_witness :
  Driver.link Scenario.empty_store = Driver.LinkUp /\
  Driver.new_ObjectId (Scenario.oid "1") = Returned (Scenario.oid "1") /\
  exists s' : Driver.Store,
    Mongo.createConversion (Scenario.oid "1") 1000 Scenario.empty_store
      (Scenario.upload "a.pdf" 100) =
      (Returned (mkConversion (Scenario.oid "1") "u1" "a.pdf" 100 "<document/>"
                   (Some 1000)), s') /\
    Mongo.getConversion s' (Scenario.oid "1") =
      Returned (Some (mkConversion (Scenario.oid "1") "u1" "a.pdf" 100
                        "<document/>" (Some 1000))).
Proof.
  split; [reflexivity|]. split; [reflexivity|].
  destruct (persistent_create_then_get Regex.engine (Scenario.oid "1") 1000
              (Scenario.upload "a.pdf" 100) Scenario.empty_store)
    as (s' & Hc & _ & _ & _ & Hg & _).
  - reflexivity.
  - reflexivity.
  - intros c [].
  - exists s'. split; [exact Hc | exact Hg].
Defined.

(** X11. On a store that is up, [createUser] with an unused identity
    appends the user it returns, with the email and the password it was
    given; [getUserByEmail] of that email then answers the first stored
    user with the email: a user stored earlier under it, or else the new
    one.  The conversions are untouched. *)
Theorem persistent_createUser_then_lookup
    (fresh : ObjectId) (now : Z) (ins : InsertUser) (s : Driver.Store) :
  Driver.link s = Driver.LinkUp ->
  (forall u, In u (Driver.users s) -> u_id u <> fresh) ->
  exists s' : Driver.Store,
    Mongo.createUser fresh now s ins =
      (Returned (mkUser fresh (ins_email ins) (ins_password ins) (Some now)), s') /\
    Driver.users s' =
      Driver.users s ++ [mkUser fresh (ins_email ins) (ins_password ins) (Some now)] /\
    Driver.conversions s' = Driver.conversions s /\
    Mongo.getUserByEmail s' (ins_email ins) =
      Returned
        (match js_find (fun u => String.eqb (email u) (ins_email ins))
                 (Driver.users s) with
         | Some earlier => Some earlier
         | None => Some (mkUser fresh (ins_email ins) (ins_password ins) (Some now))
         end) /\
    Mongo.getUserByEmail s (ins_email ins) =
      Returned (js_find (fun u => String.eqb (email u) (ins_email ins))
                  (Driver.users s)).
Proof.
  intros Hl Hnew. destruct s as [lk us cs]. simpl in *. subst lk.
  assert (existsb (fun u => String.eqb (u_id u) fresh) us = false) as Hex.
  { clear -Hnew. induction us as [|x l IH]; simpl; [reflexivity|].
    assert (String.eqb (u_id x) fresh = false) as ->
      by (apply String.eqb_neq, Hnew; left; reflexivity).
    apply IH. intros u Hu. apply Hnew. right. exact Hu. }
  eexists. split.
  { unfold Mongo.createUser, Mongo.try_catch_st, Driver.getCollection,
      Driver.insertOne_user. simpl. rewrite Hex. reflexivity. }
  simpl. split; [reflexivity|]. split; [reflexivity|].
  unfold Mongo.getUserByEmail, Driver.getCollection, Driver.findOne_user. simpl.
  rewrite CreateFacts.js_find_snoc. simpl. rewrite String.eqb_refl.
  split; reflexivity.
Qed.

Lemma persistent_createUser_then_lookup_witness :
  Driver.link Scenario.empty_store = Driver.LinkUp /\
  exists s' : Driver.Store,
    Mongo.createUser (Scenario.oid "1") 1000 Scenario.empty_store
      Scenario.registration =
      (Returned (mkUser (Scenario.oid "1") "ann@example.org" "hash" (Some 1000)), s') /\
    Mongo.getUserByEmail s' "ann@example.org" =
      Returned (Some (mkUser (Scenario.oid "1") "ann@example.org" "hash" (Some 1000))).
Proof.
  split; [reflexivity|].
  destruct (persistent_createUser_then_lookup (Scenario.oid "1") 1000
              Scenario.registration Scenario.empty_store)
    as (s' & Hc & _ & _ & Hg & _).
  - reflexivity.
  - intros u [].
  - exists s'. split; [exact Hc | exact Hg].
Defined.

(** X12. [checkConnection] answers true exactly when the store is up;
    afterwards the flag [connectionOK] holds its answer; after the lines
    [getCollection] prints during the call, the method prints one line of
    its own when the flag changes (which one is told by the old flag and
    the state of the link) and none when it does not. *)
Theorem checkConnection_tracks_the_link
    (heard : list string) (s : Driver.Store) (b : Probe.Backend) :
  (fst (Probe.checkConnection heard s b) = true <-> Driver.link s = Driver.LinkUp) /\
  Probe.connectionOK (snd (Probe.checkConnection heard s b)) =
    fst (Probe.checkConnection heard s b) /\
  (fst (Probe.checkConnection heard s b) = Probe.connectionOK b ->
   Probe.console (snd (Probe.checkConnection heard s b)) =
     Probe.console b ++ heard) /\
  (fst (Probe.checkConnection heard s b) <> Probe.connectionOK b ->
   Probe.console (snd (Probe.checkConnection heard s b)) =
     Probe.console b ++ heard ++
       [match Driver.link s with
        | Driver.LinkUp => "MongoDB connection established successfully"
        | Driver.LinkDown => "MongoDB connection lost"
        | Driver.LinkStale => "MongoDB connection error:"
        end]).
Proof.
  destruct b as [ok lines].
  unfold Probe.checkConnection, Driver.getCollection, Probe.countDocuments_one.
  destruct (Driver.link s), ok; cbn;
    (split; [split; first [reflexivity | discriminate | congruence]|]);
    (split; [reflexivity|]);
    (split; [intros H; first [reflexivity | discriminate H]|]);
    intros H; first [rewrite <- app_assoc; reflexivity | congruence].
Qed.

Lemma checkConnection_tracks_the_link_witness :
  Probe.connectionOK
    (snd (Probe.checkConnection
            ["Current MongoDB connection state:";
             "Cannot get collection users: MongoDB not connected"]
            Scenario.unreachable_store (Probe.mkBackend true []))) = false /\
  Probe.console
    (snd (Probe.checkConnection
            ["Current MongoDB connection state:";
             "Cannot get collection users: MongoDB not connected"]
            Scenario.unreachable_store (Probe.mkBackend true []))) =
  [] ++ ["Current MongoDB connection state:";
         "Cannot get collection users: MongoDB not connected"] ++
    ["MongoDB connection lost"].
Proof.
  destruct (checkConnection_tracks_the_link
              ["Current MongoDB connection state:";
               "Cannot get collection users: MongoDB not connected"]
              Scenario.unreachable_store
              (Probe.mkBackend true [])) as (_ & Hflag & _ & Hline).
  split.
  - rewrite Hflag. reflexivity.
  - apply Hline. simpl. discriminate.
Defined.

(** ** Connecting to the database *)

Module ConnectionFacts.

Import Connection.

Lemma begin_Bounded (st : State) : Bounded st -> Bounded (snd (begin st)).
Proof.
  unfold Bounded, begin, MAX_CONNECTION_ATTEMPTS. intros [Hc Ha].
  destruct (readyState st =? 1); cbn [snd connectionAttempts announced]; [auto|].
  destruct (Z.leb_spec 5 (connectionAttempts st)); cbn [snd]; [auto|].
  destruct (truthy (uri st)); cbn [snd connectionAttempts announced]; [|auto].
  split; [lia|]. apply List.Forall_app. split; [exact Ha|].
  constructor; [lia | constructor].
Qed.

Lemma settle_Bounded (a : Attempt) (st : State) :
  Bounded st -> Bounded (snd (settle a st)).
Proof.
  unfold Bounded, settle, MAX_CONNECTION_ATTEMPTS. intros [Hc Ha].
  destruct a; cbn [snd connectionAttempts announced]; split; auto; lia.
Qed.

Lemma connect_Bounded (a : Attempt) (st : State) :
  Bounded st -> Bounded (snd (connectToDatabase a st)).
Proof.
  intros H. unfold connectToDatabase.
  pose proof (begin_Bounded st H) as Hb.
  destruct (begin st) as [[r|] st1]; cbn [snd] in *; [exact Hb|].
  apply settle_Bounded. exact Hb.
Qed.

Lemma step_Bounded (e : Event) (st : State) : Bounded st -> Bounded (step st e).
Proof.
  destruct e; cbn [step]; try (intros H; exact H).
  - apply connect_Bounded.
  - unfold tick. destruct (due st); [apply connect_Bounded | auto].
  - apply begin_Bounded.
  - destruct (due st); [apply begin_Bounded | auto].
  - destruct (pending st); [auto|].
    destruct (truthy (uri st)); [apply settle_Bounded | auto].
Qed.

Lemma run_Bounded (es : list Event) (st : State) : Bounded st -> Bounded (run es st).
Proof.
  revert st. induction es as [|e es IH]; intros st H; simpl; [exact H|].
  apply IH, step_Bounded, H.
Qed.

(** At the maximum no call reaches [mongoose.connect]. *)
Lemma begin_given_up (st : State) :
  connectionAttempts st = MAX_CONNECTION_ATTEMPTS ->
  (exists connection, fst (begin st) = Answered connection) /\
  connectionAttempts (snd (begin st)) = MAX_CONNECTION_ATTEMPTS /\
  announced (snd (begin st)) = announced st /\
  pending (snd (begin st)) = pending st /\
  (readyState st <> 1 -> begin st = (Answered false, st)).
Proof.
  unfold begin, MAX_CONNECTION_ATTEMPTS. intros H.
  destruct (Z.eqb_spec (readyState st) 1); cbn [fst snd].
  - split; [eexists; reflexivity|]. split; [exact H|]. split; [reflexivity|].
    split; [reflexivity|]. intros Hn. contradiction.
  - rewrite H. cbn [Z.leb Z.compare Pos.compare Pos.compare_cont fst snd].
    split; [eexists; reflexivity|]. auto.
Qed.

Lemma connect_given_up (a : Attempt) (st : State) :
  connectionAttempts st = MAX_CONNECTION_ATTEMPTS ->
  connectionAttempts (snd (connectToDatabase a st)) = MAX_CONNECTION_ATTEMPTS /\
  announced (snd (connectToDatabase a st)) = announced st /\
  pending (snd (connectToDatabase a st)) = pending st /\
  (readyState st <> 1 -> connectToDatabase a st = (false, st)).
Proof.
  intros H. unfold connectToDatabase.
  destruct (begin_given_up st H) as ((r & Hr) & Hc & Ha & Hp & Hn).
  destruct (begin st) as [[r'|] st1]; cbn [fst snd] in *; [|discriminate Hr].
  split; [exact Hc|]. split; [exact Ha|]. split; [exact Hp|].
  intros Hne. specialize (Hn Hne). injection Hn as -> ->. reflexivity.
Qed.

(** While the counter stands at the maximum nothing announces an
    attempt. *)
Lemma step_at_maximum (e : Event) (st : State) :
  connectionAttempts st = MAX_CONNECTION_ATTEMPTS ->
  announced (step st e) = announced st.
Proof.
  intros H. destruct e; cbn [step announced]; try reflexivity.
  - apply (connect_given_up a st H).
  - unfold tick. destruct (due st); [apply (connect_given_up a st H) | reflexivity].
  - apply (begin_given_up st H).
  - destruct (due st); [apply (begin_given_up st H) | reflexivity].
  - destruct (pending st); [reflexivity|].
    destruct (truthy (uri st)); [destruct a|]; reflexivity.
Qed.

(** With the counter at the maximum and no call waiting, the module has
    given up. *)
Lemma step_given_up (e : Event) (st : State) :
  connectionAttempts st = MAX_CONNECTION_ATTEMPTS -> pending st = O ->
  connectionAttempts (step st e) = MAX_CONNECTION_ATTEMPTS /\
  pending (step st e) = O /\
  announced (step st e) = announced st.
Proof.
  intros H Hp. split; [|split; [|apply step_at_maximum; exact H]].
  - destruct e; cbn [step connectionAttempts]; auto.
    + apply (connect_given_up a st H).
    + unfold tick. destruct (due st); [apply (connect_given_up a st H) | exact H].
    + apply (begin_given_up st H).
    + destruct (due st); [apply (begin_given_up st H) | exact H].
    + rewrite Hp. exact H.
  - destruct e; cbn [step pending]; auto.
    + destruct (connect_given_up a st H) as (_ & _ & -> & _). exact Hp.
    + unfold tick. destruct (due st); [|exact Hp].
      destruct (connect_given_up a st H) as (_ & _ & -> & _). exact Hp.
    + destruct (begin_given_up st H) as (_ & _ & _ & -> & _). exact Hp.
    + destruct (due st); [|exact Hp].
      destruct (begin_given_up st H) as (_ & _ & _ & -> & _). exact Hp.
    + rewrite Hp. exact Hp.
Qed.

Lemma run_given_up (es : list Event) (st : State) :
  connectionAttempts st = MAX_CONNECTION_ATTEMPTS -> pending st = O ->
  connectionAttempts (run es st) = MAX_CONNECTION_ATTEMPTS /\
  pending (run es st) = O /\
  announced (run es st) = announced st.
Proof.
  revert st. induction es as [|e es IH]; intros st H Hp; simpl; [auto|].
  destruct (step_given_up e st H Hp) as (H1 & H2 & H3).
  destruct (IH (step st e) H1 H2) as (H4 & H5 & H6).
  split; [exact H4|]. split; [exact H5 | congruence].
Qed.





End ConnectionFacts.

(** X13. Along any run of the connection module, with calls of
    [connectToDatabase] overlapping in any way, the attempt counter stays
    between 0 and 5 and every announced attempt number between 1 and 5.
    While the counter stands at 5 no event starts an attempt, and
    [connectToDatabase] answers [null] without changing anything unless
    mongoose is ready by itself.  Once the counter stands at 5 with no
    call waiting for [mongoose.connect], the module has given up:
    whatever happens later, the counter stays at 5 and nothing is
    announced.  (A call that still waits resets the counter when it
    succeeds.) *)
Theorem connection_attempts_are_bounded
    (u : option string) (es more : list Connection.Event) (e : Connection.Event)
    (a : Connection.Attempt) :
  0 <= Connection.connectionAttempts (Connection.run es (Connection.initial u)) <= 5 /\
  List.Forall (fun k => 1 <= k <= 5)
    (Connection.announced (Connection.run es (Connection.initial u))) /\
  (Connection.connectionAttempts (Connection.run es (Connection.initial u)) = 5 ->
   Connection.announced
     (Connection.step (Connection.run es (Connection.initial u)) e) =
   Connection.announced (Connection.run es (Connection.initial u)) /\
   (Connection.readyState (Connection.run es (Connection.initial u)) <> 1 ->
    Connection.connectToDatabase a (Connection.run es (Connection.initial u)) =
    (false, Connection.run es (Connection.initial u))) /\
   (Connection.pending (Connection.run es (Connection.initial u)) = O ->
    Connection.connectionAttempts
      (Connection.run more (Connection.run es (Connection.initial u))) = 5 /\
    Connection.announced
      (Connection.run more (Connection.run es (Connection.initial u))) =
    Connection.announced (Connection.run es (Connection.initial u)))).
Proof.
  assert (Connection.Bounded (Connection.run es (Connection.initial u))) as [Hc Ha].
  { apply ConnectionFacts.run_Bounded. split; simpl.
    - unfold Connection.MAX_CONNECTION_ATTEMPTS. lia.
    - constructor. }
  split; [exact Hc|]. split; [exact Ha|]. intros H5.
  split; [apply ConnectionFacts.step_at_maximum; exact H5|].
  split.
  - apply (ConnectionFacts.connect_given_up a _ H5).
  - intros Hp.
    destruct (ConnectionFacts.run_given_up more _ H5 Hp) as (H1 & _ & H2). auto.
Qed.

Lemma connection_attempts_are_bounded_witness :
  Connection.connectionAttempts
    (Connection.run
       [Connection.Begin; Connection.Tick Connection.Resolves;
        Connection.Settle Connection.Resolves]
       (Connection.run
          (repeat (Connection.Connect (Connection.Rejects 0)) 5)
          (Connection.initial (Some "mongodb://db")))) = 5 /\
  Connection.announced
    (Connection.run
       [Connection.Begin; Connection.Tick Connection.Resolves;
        Connection.Settle Connection.Resolves]
       (Connection.run
          (repeat (Connection.Connect (Connection.Rejects 0)) 5)
          (Connection.initial (Some "mongodb://db")))) = [1; 2; 3; 4; 5].
Proof.
  destruct (connection_attempts_are_bounded (Some "mongodb://db")
              (repeat (Connection.Connect (Connection.Rejects 0)) 5)
              [Connection.Begin; Connection.Tick Connection.Resolves;
               Connection.Settle Connection.Resolves]
              Connection.Begin Connection.Resolves) as (_ & _ & Hgiven).
  destruct Hgiven as (_ & _ & Hup); [reflexivity|].
  destruct Hup as [H1 H2]; [reflexivity|].
  split; [exact H1 | rewrite H2; reflexivity].
Defined.



(** ** The selector: which backend a check leaves active *)

Module SelectorFacts.

Import Manager ManagerView.

Lemma setStorage_slot (storage : StorageRef) (sys : System) :
  mongoStorage (setStorage storage sys) = mongoStorage sys /\
  activeStorage (setStorage storage sys) = storage.
Proof.
  destruct sys as [a h ms me mo c]. destruct storage, a, h; split; reflexivity.
Qed.

Lemma check_slot (built isConnected : bool) (sys : System) :
  mongoStorage (snd (useMongoDBWithFallback built isConnected sys)) =
  match mongoStorage sys with
  | Some r => Some r
  | None => if built then Some TheMongoStorage else None
  end.
Proof.
  destruct sys as [a h ms me mo c].
  destruct ms as [[]|], built, isConnected, a, h; reflexivity.
Qed.

Lemma create_slot (fresh : ObjectId) (now : Z) (conversion : InsertConversion)
    (sys : System) :
  mongoStorage (createConversion fresh now conversion sys) = mongoStorage sys /\
  console (createConversion fresh now conversion sys) = console sys /\
  activeStorage (createConversion fresh now conversion sys) = activeStorage sys.
Proof.
  unfold createConversion. destruct (activeStorage sys) eqn:E; repeat split; auto.
Qed.

Lemma step_slot_ok (e : Event) (sys : System) : slot_ok sys -> slot_ok (step sys e).
Proof.
  unfold slot_ok. intros H.
  destruct e as [storage|built isConnected|fresh now conversion]; simpl.
  - destruct (setStorage_slot storage sys) as [-> _]. exact H.
  - rewrite check_slot. destruct H as [-> | ->]; [destruct built|]; auto.
  - destruct (create_slot fresh now conversion sys) as [-> _]. exact H.
Qed.

Lemma run_slot_ok (es : list Event) (sys : System) : slot_ok sys -> slot_ok (run es sys).
Proof.
  revert sys. induction es as [|e es IH]; intros sys H; simpl; [exact H|].
  apply IH, step_slot_ok, H.
Qed.

Lemma initial_slot_ok (store : Driver.Store) : slot_ok (initial store).
Proof. left. reflexivity. Qed.

Lemma check_selects (built isConnected : bool) (sys : System) :
  slot_ok sys ->
  fst (useMongoDBWithFallback built isConnected sys) =
    isConnected && (built || is_built sys) /\
  activeStorage (snd (useMongoDBWithFallback built isConnected sys)) =
    if fst (useMongoDBWithFallback built isConnected sys)
    then TheMongoStorage
    else if instanceof_MemStorage (activeStorage sys)
         then activeStorage sys
         else TheMemStorage.
Proof.
  destruct sys as [a h ms me mo c]. unfold slot_ok, is_built. cbn [mongoStorage].
  intros [-> | ->]; destruct built, isConnected, a, h; split; reflexivity.
Qed.

Lemma check_again (built built' isConnected : bool) (sys : System) :
  slot_ok sys ->
  is_built (snd (useMongoDBWithFallback built isConnected sys)) = true ->
  useMongoDBWithFallback built' isConnected
    (snd (useMongoDBWithFallback built isConnected sys)) =
  (fst (useMongoDBWithFallback built isConnected sys),
   snd (useMongoDBWithFallback built isConnected sys)).
Proof.
  destruct sys as [a h ms me mo c]. unfold slot_ok, is_built. cbn [mongoStorage].
  intros [-> | ->] Hb; destruct built, built', isConnected, a, h;
    first [discriminate Hb | reflexivity].
Qed.

Lemma printed_log (line msg : string) (sys : System) :
  printed line (log msg sys) =
  (printed line sys + if String.eqb line msg then 1 else 0)%nat.
Proof.
  unfold printed, log. cbn [console].
  rewrite List.filter_app, length_app. cbn [List.filter].
  destruct (String.eqb line msg); reflexivity.
Qed.

Ltac eval_filter :=
  repeat match goal with
  | |- context [List.filter (String.eqb built_line) [?m]] =>
      let v := eval vm_compute in (List.filter (String.eqb built_line) [m]) in
      change (List.filter (String.eqb built_line) [m]) with v
  end.

Lemma setStorage_printed (storage : StorageRef) (sys : System) :
  printed built_line (setStorage storage sys) = printed built_line sys.
Proof.
  destruct sys as [a h ms me mo c].
  destruct storage, a, h;
    cbv beta iota zeta delta
      [setStorage migrateMemoryToMongo log activeStorage hasAttemptedMigration
       mongoStorage memStorage mongoStore console instanceof_MemStorage
       instanceof_MongoDBStorage andb negb orb snd printed];
    rewrite ?List.filter_app, ?length_app; eval_filter; cbn [length]; lia.
Qed.

Lemma getMongoStorage_printed (built : bool) (sys : System) :
  printed built_line (snd (getMongoStorage built sys)) =
  (printed built_line sys +
   if is_built sys then 0 else if built then 1 else 0)%nat.
Proof.
  destruct sys as [a h ms me mo c]. unfold is_built.
  destruct ms as [r|]; [|destruct built];
    cbv beta iota zeta delta
      [getMongoStorage log activeStorage hasAttemptedMigration
       mongoStorage memStorage mongoStore console snd printed];
    rewrite ?List.filter_app, ?length_app; eval_filter; cbn [length]; lia.
Qed.

Lemma getMongoStorage_slot (built : bool) (sys : System) :
  mongoStorage (snd (getMongoStorage built sys)) =
  match mongoStorage sys with
  | Some r => Some r
  | None => if built then Some TheMongoStorage else None
  end.
Proof.
  destruct sys as [a h ms me mo c]. destruct ms as [r|], built; reflexivity.
Qed.

Lemma check_message (built isConnected : bool) (sys : System) :
  snd (useMongoDBWithFallback built isConnected sys) = snd (getMongoStorage built sys) \/
  exists (msg : string) (storage : StorageRef),
    String.eqb built_line msg = false /\
    snd (useMongoDBWithFallback built isConnected sys) =
      log msg (setStorage storage (snd (getMongoStorage built sys))).
Proof.
  unfold useMongoDBWithFallback.
  destruct (getMongoStorage built sys) as [[mongo|] sys1]; cbn [snd].
  - destruct isConnected.
    + destruct (negb (same_object (activeStorage sys1) mongo)); cbn [snd].
      * right. eexists _, _. split; [|reflexivity]. reflexivity.
      * left. reflexivity.
    + destruct (negb (instanceof_MemStorage (activeStorage sys1))); cbn [snd].
      * right. eexists _, _. split; [|reflexivity]. reflexivity.
      * left. reflexivity.
  - destruct (negb (instanceof_MemStorage (activeStorage sys1))); cbn [snd].
    + right. eexists _, _. split; [|reflexivity]. reflexivity.
    + left. reflexivity.
Qed.

Lemma check_printed (built isConnected : bool) (sys : System) :
  printed built_line (snd (useMongoDBWithFallback built isConnected sys)) =
  (printed built_line sys +
   if is_built sys then 0 else if built then 1 else 0)%nat.
Proof.
  destruct (check_message built isConnected sys) as [-> | (msg & storage & Hm & ->)].
  - apply getMongoStorage_printed.
  - rewrite printed_log, Hm, Nat.add_0_r, setStorage_printed.
    apply getMongoStorage_printed.
Qed.

Lemma step_Once (e : Event) (sys : System) : Once sys -> Once (step sys e).
Proof.
  unfold Once. intros H.
  destruct e as [storage|built isConnected|fresh now conversion]; simpl.
  - rewrite setStorage_printed. unfold is_built.
    destruct (setStorage_slot storage sys) as [-> _]. exact H.
  - rewrite check_printed. unfold is_built in *. rewrite check_slot.
    destruct (mongoStorage sys); [lia|]. destruct built; lia.
  - destruct (create_slot fresh now conversion sys) as (Hs & Hc & _).
    unfold printed, is_built in *. rewrite Hs, Hc. exact H.
Qed.

Lemma run_Once (es : list Event) (sys : System) : Once sys -> Once (run es sys).
Proof.
  revert sys. induction es as [|e es IH]; intros sys H; simpl; [exact H|].
  apply IH, step_Once, H.
Qed.

Lemma step_built (e : Event) (sys : System) :
  is_built sys = true -> mongoStorage (step sys e) = mongoStorage sys.
Proof.
  unfold is_built. intros H.
  destruct e as [storage|built isConnected|fresh now conversion]; simpl.
  - apply setStorage_slot.
  - rewrite check_slot. destruct (mongoStorage sys); [reflexivity|discriminate].
  - apply create_slot.
Qed.

Lemma run_built (es : list Event) (sys : System) :
  is_built sys = true -> mongoStorage (run es sys) = mongoStorage sys.
Proof.
  revert sys. induction es as [|e es IH]; intros sys H; simpl; [reflexivity|].
  rewrite IH; [apply step_built, H|].
  unfold is_built in *. rewrite (step_built e sys H). exact H.
Qed.

End SelectorFacts.

(** X15. Whatever happened to the selector before (calls of
    [setStorage] with any storage object, earlier checks, uploads), one run
    of [useMongoDBWithFallback] answers [true] exactly when the flag
    [isConnected] is set and the persistent storage object exists or can be
    built.  When it answers [true] the module's persistent storage is
    active afterwards.  When it answers [false] an instance of
    [MemStorage] is: the one that was active, if the active storage was
    such an instance (the module's own or another one), and the module's
    [memStorage] otherwise. *)
Theorem check_leaves_the_backend_it_reports
    (store : Driver.Store) (es : list Manager.Event) (built isConnected : bool) :
  fst (Manager.useMongoDBWithFallback built isConnected
         (Manager.run es (Manager.initial store))) =
    isConnected &&
    (built || ManagerView.is_built (Manager.run es (Manager.initial store))) /\
  Manager.activeStorage
    (snd (Manager.useMongoDBWithFallback built isConnected
            (Manager.run es (Manager.initial store)))) =
    (if fst (Manager.useMongoDBWithFallback built isConnected
               (Manager.run es (Manager.initial store)))
     then Manager.TheMongoStorage
     else if Manager.instanceof_MemStorage
               (Manager.activeStorage (Manager.run es (Manager.initial store)))
          then Manager.activeStorage (Manager.run es (Manager.initial store))
          else Manager.TheMemStorage) /\
  (fst (Manager.useMongoDBWithFallback built isConnected
          (Manager.run es (Manager.initial store))) = false ->
   Manager.instanceof_MemStorage
     (Manager.activeStorage
        (snd (Manager.useMongoDBWithFallback built isConnected
                (Manager.run es (Manager.initial store))))) = true).
Proof.
  destruct (SelectorFacts.check_selects built isConnected
              (Manager.run es (Manager.initial store))) as [Hr Ha].
  { apply SelectorFacts.run_slot_ok, SelectorFacts.initial_slot_ok. }
  split; [exact Hr|]. split; [exact Ha|].
  intros Hf. rewrite Ha, Hf.
  destruct (Manager.instanceof_MemStorage
              (Manager.activeStorage (Manager.run es (Manager.initial store))))
    eqn:E; [exact E | reflexivity].
Qed.

Lemma check_leaves_the_backend_it_reports_witness :
  Manager.activeStorage
    (snd (Manager.useMongoDBWithFallback true false
            (Manager.run [Manager.SetStorage Manager.AnotherMemStorage]
               (Manager.initial Scenario.empty_store)))) =
    Manager.AnotherMemStorage /\
  Manager.instanceof_MemStorage
    (Manager.activeStorage
       (snd (Manager.useMongoDBWithFallback true false
               (Manager.run [Manager.SetStorage Manager.OtherStorage]
                  (Manager.initial Scenario.empty_store))))) = true.
Proof.
  destruct (check_leaves_the_backend_it_reports Scenario.empty_store
              [Manager.SetStorage Manager.AnotherMemStorage] true false)
    as (_ & Hactive & _).
  destruct (check_leaves_the_backend_it_reports Scenario.empty_store
              [Manager.SetStorage Manager.OtherStorage] true false)
    as (_ & _ & Hmem).
  split; [rewrite Hactive; reflexivity | apply Hmem; reflexivity].
Defined.

(** X16. A check that follows a check changes nothing when the
    flag [isConnected] has not changed in between and the persistent
    storage object exists: same answer, same active backend, no call of
    [setStorage], no line on the console. *)
Theorem repeated_check_is_silent
    (store : Driver.Store) (es : list Manager.Event)
    (built built' isConnected : bool) :
  ManagerView.is_built
    (snd (Manager.useMongoDBWithFallback built isConnected
            (Manager.run es (Manager.initial store)))) = true ->
  Manager.useMongoDBWithFallback built' isConnected
    (snd (Manager.useMongoDBWithFallback built isConnected
            (Manager.run es (Manager.initial store)))) =
  (fst (Manager.useMongoDBWithFallback built isConnected
          (Manager.run es (Manager.initial store))),
   snd (Manager.useMongoDBWithFallback built isConnected
          (Manager.run es (Manager.initial store)))).
Proof.
  apply SelectorFacts.check_again, SelectorFacts.run_slot_ok,
    SelectorFacts.initial_slot_ok.
Qed.

Lemma repeated_check_is_silent_witness :
  Manager.useMongoDBWithFallback false true
    (snd (Manager.useMongoDBWithFallback true true
            (Manager.run [Manager.SetStorage Manager.OtherStorage]
               (Manager.initial Scenario.empty_store)))) =
  (fst (Manager.useMongoDBWithFallback true true
          (Manager.run [Manager.SetStorage Manager.OtherStorage]
             (Manager.initial Scenario.empty_store))),
   snd (Manager.useMongoDBWithFallback true true
          (Manager.run [Manager.SetStorage Manager.OtherStorage]
             (Manager.initial Scenario.empty_store)))).
Proof.
  apply (repeated_check_is_silent Scenario.empty_store
           [Manager.SetStorage Manager.OtherStorage] true false true).
  reflexivity.
Defined.

(** X17. The persistent storage object is built lazily and at most
    once: along any run the console shows the line of a successful build
    once when the object exists and not at all when it does not; once it
    exists no later event replaces or drops it; and a build that failed is
    tried again by the next check. *)
Theorem mongo_storage_is_built_at_most_once
    (store : Driver.Store) (es more : list Manager.Event) (built isConnected : bool) :
  ManagerView.printed ManagerView.built_line (Manager.run es (Manager.initial store)) =
    (if ManagerView.is_built (Manager.run es (Manager.initial store))
     then 1%nat else 0%nat) /\
  (ManagerView.is_built (Manager.run es (Manager.initial store)) = true ->
   Manager.mongoStorage (Manager.run more (Manager.run es (Manager.initial store))) =
     Some Manager.TheMongoStorage) /\
  (ManagerView.is_built (Manager.run es (Manager.initial store)) = false ->
   ManagerView.is_built
     (snd (Manager.useMongoDBWithFallback built isConnected
             (Manager.run es (Manager.initial store)))) = built).
Proof.
  split; [|split].
  - apply (SelectorFacts.run_Once es (Manager.initial store)). reflexivity.
  - intros H. rewrite (SelectorFacts.run_built more _ H).
    destruct (SelectorFacts.run_slot_ok es (Manager.initial store)
                (SelectorFacts.initial_slot_ok store)) as [E | E]; [|exact E].
    unfold ManagerView.is_built in H. rewrite E in H. discriminate H.
  - intros H. unfold ManagerView.is_built in *. rewrite SelectorFacts.check_slot.
    destruct (Manager.mongoStorage _); [discriminate H|]. destruct built; reflexivity.
Qed.

Lemma mongo_storage_is_built_at_most_once_witness :
  Manager.mongoStorage
    (Manager.run [Manager.Check false false; Manager.SetStorage Manager.OtherStorage]
       (Manager.run [Manager.Check false true; Manager.Check true false]
          (Manager.initial Scenario.empty_store))) =
    Some Manager.TheMongoStorage /\
  ManagerView.is_built
    (snd (Manager.useMongoDBWithFallback true false
            (Manager.run [Manager.Check false true]
               (Manager.initial Scenario.empty_store)))) = true.
Proof.
  split.
  - apply (mongo_storage_is_built_at_most_once Scenario.empty_store
             [Manager.Check false true; Manager.Check true false]
             [Manager.Check false false; Manager.SetStorage Manager.OtherStorage]
             false false).
    reflexivity.
  - apply (mongo_storage_is_built_at_most_once Scenario.empty_store
             [Manager.Check false true] [] true false).
    reflexivity.
Defined.

(** ** The routes over the two backends *)

Module RouteFacts.

Import Routes.

Lemma js_find_Some {A} (p : A -> bool) (l : list A) (c : A) :
  js_find p l = Some c -> In c l /\ p c = true.
Proof.
  induction l as [|x l IH]; simpl; [discriminate|].
  destruct (p x) eqn:E.
  - intros [= <-]. auto.
  - intros H. destruct (IH H). auto.
Qed.

Lemma same_id_same_record (l : list Conversion) (a b : Conversion) :
  NoDup (map _id l) -> In a l -> In b l -> _id a = _id b -> a = b.
Proof.
  induction l as [|x l IH]; simpl; [intros _ []|].
  intros Hnd Ha Hb E. apply NoDup_cons in Hnd as [Hx Hnd].
  destruct Ha as [<-|Ha], Hb as [<-|Hb]; auto.
  - exfalso. apply Hx. rewrite E. apply list_elem_of_In, in_map. exact Hb.
  - exfalso. apply Hx. rewrite <- E. apply list_elem_of_In, in_map. exact Ha.
Qed.

Lemma In_remove_first (p : Conversion -> bool) (l : list Conversion)
    (c x : Conversion) :
  js_find p l = Some c -> In x l -> x <> c -> In x (Driver.remove_first p l).
Proof.
  induction l as [|y l IH]; simpl; [discriminate|].
  destruct (p y) eqn:E.
  - intros [= <-] [<-|Hx] Hne; [contradiction | exact Hx].
  - intros Hf [<-|Hx] Hne; [left; reflexivity | right; auto].
Qed.

(** The route of the in-memory backend in closed form. *)
Lemma delete_route_mem (user : option User) (id : string) (m : Mem.Machine) :
  deleteConversionRoute user id m =
  match user with
  | None => (mkResponse 401 (Message "Authentication required"), m)
  | Some u =>
      match js_find (fun conv => String.eqb (_id conv) id) (Mem.stored m) with
      | None => (mkResponse 404 (Message "Conversion not found"), m)
      | Some conversion =>
          if negb (String.eqb (userId conversion) (u_id u))
          then (mkResponse 403
                  (Message "You do not have permission to delete this conversion"), m)
          else (mkResponse 200 (Message "Conversion deleted successfully"),
                snd (Mem.deleteConversion id m))
      end
  end.
Proof.
  destruct user as [u|]; [|reflexivity].
  unfold deleteConversionRoute. cbn [Storage.getConversion Storage.MemStorage_IStorage].
  unfold Storage.lift at 1. rewrite CreateFacts.getConversion_run. cbn [fst snd].
  destruct (js_find _ (Mem.stored m)) as [c|] eqn:Hf; [|reflexivity].
  destruct (negb (String.eqb (userId c) (u_id u))); [reflexivity|].
  cbn [Storage.deleteConversion Storage.MemStorage_IStorage]. unfold Storage.lift.
  destruct (DeleteFacts.mem_delete_run id m) as (Hb & _).
  rewrite Hb.
  apply js_find_Some in Hf as [Hin Hp].
  assert ((length (List.filter (fun conv => negb (String.eqb (_id conv) id))
                     (Mem.stored m)) < length (Mem.stored m))%nat) as Hlt.
  { apply DeleteFacts.filter_shorter. exists c. split; [exact Hin|].
    rewrite Hp. reflexivity. }
  destruct (Z.ltb_spec
              (Z.of_nat (length (List.filter
                 (fun conv => negb (String.eqb (_id conv) id)) (Mem.stored m))))
              (Z.of_nat (length (Mem.stored m)))); [reflexivity | lia].
Qed.

Lemma get_route_mem (user : option User) (id : string) (m : Mem.Machine) :
  getConversionRoute user id m =
  match user with
  | None => (mkResponse 401 (Message "Authentication required"), m)
  | Some u =>
      match js_find (fun conv => String.eqb (_id conv) id) (Mem.stored m) with
      | None => (mkResponse 404 (Message "Conversion not found"), m)
      | Some conversion =>
          if negb (String.eqb (userId conversion) (u_id u))
          then (mkResponse 403
                  (Message "You do not have permission to access this conversion"), m)
          else (mkResponse 200
                  (ConversionData (_id conversion) (filename conversion)
                     (convertedAt conversion) (xmlContent conversion)), m)
      end
  end.
Proof.
  destruct user as [u|]; [|reflexivity].
  unfold getConversionRoute. cbn [Storage.getConversion Storage.MemStorage_IStorage].
  unfold Storage.lift. rewrite CreateFacts.getConversion_run. cbn [fst snd].
  destruct (js_find _ (Mem.stored m)) as [c|]; reflexivity.
Qed.

Lemma mongo_getConversion_run (s : Driver.Store) (id : string) :
  Mongo.getConversion s id = Returned (Storage.found s id).
Proof.
  unfold Mongo.getConversion, Storage.found, Driver.getCollection, Driver.findOne_conversion.
  destruct (Driver.link s); simpl; try reflexivity;
    destruct (Driver.new_ObjectId id); reflexivity.
Qed.

Lemma found_Some (s : Driver.Store) (id : string) (c : Conversion) :
  Storage.found s id = Some c ->
  Driver.link s = Driver.LinkUp /\
  Driver.new_ObjectId id = Returned (_id c) /\
  js_find (fun x => String.eqb (_id x) (_id c)) (Driver.conversions s) = Some c /\
  In c (Driver.conversions s).
Proof.
  unfold Storage.found. destruct (Driver.link s); try discriminate.
  destruct (Driver.new_ObjectId id) as [oid|e]; try discriminate.
  intros Hf. destruct (js_find_Some _ _ _ Hf) as [Hin Hp].
  apply String.eqb_eq in Hp. subst oid. auto.
Qed.

Lemma arrive_data (r : Storage.Remote) :
  Driver.users (Storage.store (Storage.arrive r)) = Driver.users (Storage.store r) /\
  Driver.conversions (Storage.store (Storage.arrive r)) =
    Driver.conversions (Storage.store r).
Proof. unfold Storage.arrive. destruct (Storage.forecast r); split; reflexivity. Qed.

Lemma get_route_remote (user : option User) (id : string) (r : Storage.Remote) :
  getConversionRoute user id r =
  match user with
  | None => (mkResponse 401 (Message "Authentication required"), r)
  | Some u =>
      match Storage.found (Storage.store (Storage.arrive r)) id with
      | None => (mkResponse 404 (Message "Conversion not found"), Storage.arrive r)
      | Some conversion =>
          if negb (String.eqb (userId conversion) (u_id u))
          then (mkResponse 403
                  (Message "You do not have permission to access this conversion"),
                Storage.arrive r)
          else (mkResponse 200
                  (ConversionData (_id conversion) (filename conversion)
                     (convertedAt conversion) (xmlContent conversion)),
                Storage.arrive r)
      end
  end.
Proof.
  destruct user as [u|]; [|reflexivity].
  unfold getConversionRoute. cbn [Storage.getConversion Storage.MongoDBStorage_IStorage].
  rewrite mongo_getConversion_run.
  destruct (Storage.found _ id) as [c|]; reflexivity.
Qed.

End RouteFacts.

(** X18. [DELETE /api/conversions/:id] over the in-memory backend
    answers 200 exactly when the first stored conversion with that id
    belongs to the requesting user, and then every conversion with that id
    is gone and the others are kept in their order; with any other answer
    (401, 404, 403) the backend is as it was; it never answers 500; the
    users are untouched; and when the stored ids are distinct no request
    removes a conversion of another user. *)
Theorem delete_route_in_memory (user : option User) (id : string) (m : Mem.Machine) :
  (Routes.status (fst (Routes.deleteConversionRoute user id m)) = 200 <->
   exists u c,
     user = Some u /\
     js_find (fun conv => String.eqb (_id conv) id) (Mem.stored m) = Some c /\
     userId c = u_id u) /\
  (Routes.status (fst (Routes.deleteConversionRoute user id m)) = 200 ->
   Mem.stored (snd (Routes.deleteConversionRoute user id m)) =
   List.filter (fun conv => negb (String.eqb (_id conv) id)) (Mem.stored m)) /\
  (Routes.status (fst (Routes.deleteConversionRoute user id m)) <> 200 ->
   snd (Routes.deleteConversionRoute user id m) = m) /\
  Routes.status (fst (Routes.deleteConversionRoute user id m)) <> 500 /\
  Mem.users (Mem.this (snd (Routes.deleteConversionRoute user id m))) =
    Mem.users (Mem.this m) /\
  (NoDup (map _id (Mem.stored m)) ->
   forall u c,
     user = Some u -> In c (Mem.stored m) -> userId c <> u_id u ->
     In c (Mem.stored (snd (Routes.deleteConversionRoute user id m)))).
Proof.
  rewrite RouteFacts.delete_route_mem.
  destruct (DeleteFacts.mem_delete_run id m) as (_ & Hs & Hu). cbv zeta in Hs.
  destruct user as [u|]; cbn [fst snd Routes.status].
  - destruct (js_find _ (Mem.stored m)) as [c|] eqn:Hf; cbn [fst snd Routes.status].
    + destruct (String.eqb (userId c) (u_id u)) eqn:E;
        cbn [negb fst snd Routes.status].
      * apply String.eqb_eq in E.
        split; [|split; [|split; [|split; [|split]]]].
        -- split; [intros _; exists u, c; auto | reflexivity].
        -- intros _. exact Hs.
        -- intros Hne. contradiction.
        -- discriminate.
        -- exact Hu.
        -- intros Hnd u' c' [= <-] Hc' Hne. rewrite Hs.
           apply filter_In. split; [exact Hc'|].
           destruct (String.eqb (_id c') id) eqn:E'; [|reflexivity].
           exfalso. apply Hne. rewrite <- E. f_equal.
           apply RouteFacts.js_find_Some in Hf as [Hc Hp].
           apply String.eqb_eq in E', Hp.
           apply (RouteFacts.same_id_same_record (Mem.stored m)); congruence.
      * apply String.eqb_neq in E.
        split; [|split; [|split; [|split; [|split]]]].
        -- split; [discriminate|].
           intros (u' & c' & [= <-] & [= <-] & E'). contradiction.
        -- discriminate.
        -- reflexivity.
        -- discriminate.
        -- reflexivity.
        -- intros _ u' c' _ Hc' _. exact Hc'.
    + split; [|split; [|split; [|split; [|split]]]].
      * split; [discriminate|].
        intros (u' & c' & _ & Hc & _). discriminate Hc.
      * discriminate.
      * reflexivity.
      * discriminate.
      * reflexivity.
      * intros _ u' c' _ Hc' _. exact Hc'.
  - split; [|split; [|split; [|split; [|split]]]].
    + split; [discriminate|].
      intros (u' & c' & Hc & _). discriminate Hc.
    + discriminate.
    + reflexivity.
    + discriminate.
    + reflexivity.
    + intros _ u' c' _ Hc' _. exact Hc'.
Qed.

Lemma delete_route_in_memory_witness :
  In (mkConversion (Scenario.oid "2") "u1" "b.pdf" 5000 "<document/>" (Some 2000))
     (Mem.stored
        (snd (Routes.deleteConversionRoute
                (Some (mkUser "u2" "eve@example.org" "hash" None))
                (Scenario.oid "2") (Scenario.mem_after Scenario.two_sizes)))).
Proof.
  destruct (delete_route_in_memory
              (Some (mkUser "u2" "eve@example.org" "hash" None))
              (Scenario.oid "2") (Scenario.mem_after Scenario.two_sizes))
    as (_ & _ & _ & _ & _ & Hkeep).
  apply (Hkeep ltac:(vm_compute; repeat constructor;
                     rewrite ?list_elem_of_In; simpl; intuition discriminate)
           (mkUser "u2" "eve@example.org" "hash" None)).
  - reflexivity.
  - vm_compute. right. left. reflexivity.
  - discriminate.
Defined.

(** X19. [GET /api/conversions/:id] hands out a conversion only to the
    user it belongs to: over either backend a 200 answer carries a stored
    conversion with the id asked for whose [userId] is the id of the
    requesting user.  The request changes no stored data, it never answers
    500, and over the persistent backend it answers 404 whenever the link
    is not up. *)
Theorem get_route_shows_only_own_conversions
    (user : option User) (id : string) (m : Mem.Machine) (r : Storage.Remote) :
  (snd (Routes.getConversionRoute user id m) = m /\
   Routes.status (fst (Routes.getConversionRoute user id m)) <> 500 /\
   (Routes.status (fst (Routes.getConversionRoute user id m)) = 200 ->
    exists u c,
      user = Some u /\ In c (Mem.stored m) /\ _id c = id /\ userId c = u_id u /\
      Routes.json (fst (Routes.getConversionRoute user id m)) =
        Routes.ConversionData (_id c) (filename c) (convertedAt c) (xmlContent c))) /\
  (Driver.users (Storage.store (snd (Routes.getConversionRoute user id r))) =
     Driver.users (Storage.store r) /\
   Driver.conversions (Storage.store (snd (Routes.getConversionRoute user id r))) =
     Driver.conversions (Storage.store r) /\
   Routes.status (fst (Routes.getConversionRoute user id r)) <> 500 /\
   (Routes.status (fst (Routes.getConversionRoute user id r)) = 200 ->
    exists u c,
      user = Some u /\ In c (Driver.conversions (Storage.store r)) /\
      Driver.new_ObjectId id = Returned (_id c) /\ userId c = u_id u /\
      Routes.json (fst (Routes.getConversionRoute user id r)) =
        Routes.ConversionData (_id c) (filename c) (convertedAt c) (xmlContent c)) /\
   (forall u,
      user = Some u ->
      Driver.link (Storage.store (Storage.arrive r)) <> Driver.LinkUp ->
      Routes.status (fst (Routes.getConversionRoute user id r)) = 404)).
Proof.
  split.
  - rewrite RouteFacts.get_route_mem. destruct user as [u|]; cbn [fst snd].
    + destruct (js_find _ (Mem.stored m)) as [c|] eqn:Hf; cbn [fst snd].
      * destruct (String.eqb (userId c) (u_id u)) eqn:E; cbn [negb fst snd].
        -- split; [reflexivity|]. split; [discriminate|]. intros _.
           apply RouteFacts.js_find_Some in Hf as [Hin Hp].
           apply String.eqb_eq in Hp, E. exists u, c. auto.
        -- split; [reflexivity|]. split; discriminate.
      * split; [reflexivity|]. split; discriminate.
    + split; [reflexivity|]. split; discriminate.
  - rewrite RouteFacts.get_route_remote.
    destruct (RouteFacts.arrive_data r) as [Hu Hc].
    destruct user as [u|]; cbn [fst snd].
    + destruct (Storage.found _ id) as [c|] eqn:Hf; cbn [fst snd].
      * apply RouteFacts.found_Some in Hf as (Hl & Hid & _ & Hin).
        rewrite Hc in Hin.
        destruct (String.eqb (userId c) (u_id u)) eqn:E; cbn [negb fst snd].
        -- split; [exact Hu|]. split; [exact Hc|]. split; [discriminate|].
           split.
           ++ intros _. apply String.eqb_eq in E. exists u, c. auto.
           ++ intros u' _ Hdown. contradiction.
        -- split; [exact Hu|]. split; [exact Hc|]. split; [discriminate|].
           split; [discriminate|]. intros u' _ Hdown. contradiction.
      * split; [exact Hu|]. split; [exact Hc|]. split; [discriminate|].
        split; [discriminate|]. reflexivity.
    + split; [reflexivity|]. split; [reflexivity|]. split; [discriminate|].
      split; [discriminate|]. intros u' Hu'. discriminate Hu'.
Qed.

Lemma get_route_shows_only_own_conversions_witness :
  Routes.status
    (fst (Routes.getConversionRoute
            (Some (mkUser "u1" "ann@example.org" "hash" None)) (Scenario.oid "1")
            (Storage.mkRemote (Scenario.mongo_after Scenario.two_sizes)
               [Driver.LinkStale]))) = 404 /\
  exists u c,
    Some (mkUser "u1" "ann@example.org" "hash" None) = Some u /\
    In c (Mem.stored (Scenario.mem_after Scenario.two_sizes)) /\
    _id c = Scenario.oid "1" /\ userId c = u_id u /\
    Routes.json
      (fst (Routes.getConversionRoute
              (Some (mkUser "u1" "ann@example.org" "hash" None)) (Scenario.oid "1")
              (Scenario.mem_after Scenario.two_sizes))) =
    Routes.ConversionData (_id c) (filename c) (convertedAt c) (xmlContent c).
Proof.
  destruct (get_route_shows_only_own_conversions
              (Some (mkUser "u1" "ann@example.org" "hash" None)) (Scenario.oid "1")
              (Scenario.mem_after Scenario.two_sizes)
              (Storage.mkRemote (Scenario.mongo_after Scenario.two_sizes)
                 [Driver.LinkStale]))
    as [(_ & _ & Hmem) (_ & _ & _ & _ & Hdown)].
  split.
  - apply (Hdown (mkUser "u1" "ann@example.org" "hash" None)); [reflexivity|].
    discriminate.
  - apply Hmem. reflexivity.
Defined.

(** X20. [DELETE /api/conversions/:id] over the persistent backend, for
    a request during which no other request writes to the collection
    (between its two storage calls only the link may change, in any way):
    a 200 answer means the first document with that id belonged to the
    requesting user and is the one document removed; any other answer
    leaves the collection as it was; the users are untouched; the request
    removes no conversion of another user; with the link not up at the
    first call the answer is 404; and when the link does not change
    during the request either, the answer is never 500. *)
Theorem delete_route_persistent
    (user : option User) (id : string) (r : Storage.Remote) :
  (Routes.status (fst (Routes.deleteConversionRoute user id r)) = 200 ->
   exists u c,
     user = Some u /\ userId c = u_id u /\
     Driver.new_ObjectId id = Returned (_id c) /\
     js_find (fun x => String.eqb (_id x) (_id c))
       (Driver.conversions (Storage.store r)) = Some c /\
     Driver.conversions (Storage.store (snd (Routes.deleteConversionRoute user id r))) =
       Driver.remove_first (fun x => String.eqb (_id x) (_id c))
         (Driver.conversions (Storage.store r))) /\
  (Routes.status (fst (Routes.deleteConversionRoute user id r)) <> 200 ->
   Driver.conversions (Storage.store (snd (Routes.deleteConversionRoute user id r))) =
     Driver.conversions (Storage.store r)) /\
  Driver.users (Storage.store (snd (Routes.deleteConversionRoute user id r))) =
    Driver.users (Storage.store r) /\
  (forall u c,
     user = Some u -> In c (Driver.conversions (Storage.store r)) ->
     userId c <> u_id u ->
     In c (Driver.conversions
             (Storage.store (snd (Routes.deleteConversionRoute user id r))))) /\
  (forall u,
     user = Some u ->
     Driver.link (Storage.store (Storage.arrive r)) <> Driver.LinkUp ->
     Routes.status (fst (Routes.deleteConversionRoute user id r)) = 404) /\
  (Storage.forecast r = [] ->
   Routes.status (fst (Routes.deleteConversionRoute user id r)) <> 500).
Proof.
  destruct (RouteFacts.arrive_data r) as [Hu1 Hc1].
  destruct (RouteFacts.arrive_data (Storage.arrive r)) as [Hu2 Hc2].
  rewrite Hu1 in Hu2. rewrite Hc1 in Hc2.
  destruct user as [u|].
  2:{ cbn. split; [discriminate|]. split; [reflexivity|]. split; [reflexivity|].
      split; [intros u c Hu; discriminate Hu|].
      split; [intros u Hu; discriminate Hu | discriminate]. }
  unfold Routes.deleteConversionRoute.
  cbn [Storage.getConversion Storage.MongoDBStorage_IStorage].
  rewrite RouteFacts.mongo_getConversion_run.
  destruct (Storage.found _ id) as [c|] eqn:Hf; cbn [fst snd Routes.status].
  2:{ split; [discriminate|]. split; [intros _; exact Hc1|]. split; [exact Hu1|].
      split; [intros u' c' _ Hin _; rewrite Hc1; exact Hin|].
      split; [reflexivity | discriminate]. }
  apply RouteFacts.found_Some in Hf as (Hl & Hid & Hfind & Hin).
  rewrite Hc1 in Hfind, Hin.
  destruct (String.eqb (userId c) (u_id u)) eqn:E; cbn [negb fst snd Routes.status].
  2:{ split; [discriminate|]. split; [intros _; exact Hc1|]. split; [exact Hu1|].
      split; [intros u' c' _ Hin' _; rewrite Hc1; exact Hin'|].
      split; [intros u' _ Hdown; contradiction | discriminate]. }
  apply String.eqb_eq in E.
  cbn [Storage.deleteConversion Storage.MongoDBStorage_IStorage].
  rewrite DeleteFacts.mongo_deleteConversion_run, Hid.
  assert (existsb (fun x => String.eqb (_id x) (_id c))
            (Driver.conversions (Storage.store (Storage.arrive (Storage.arrive r)))) =
          true) as Hex.
  { rewrite Hc2. apply existsb_exists. exists c. split; [exact Hin|].
    apply String.eqb_refl. }
  destruct (Driver.link (Storage.store (Storage.arrive (Storage.arrive r))))
    eqn:El2; cbn [fst snd Routes.status Storage.store].
  - rewrite Hex. cbn [fst snd Routes.status Storage.store Driver.conversions
                      Driver.users].
    rewrite Hc2, Hu2.
    split; [intros _; exists u, c; auto|]. split; [intros Hne; contradiction|].
    split; [reflexivity|].
    split; [|split; [intros u' _ Hdown; contradiction | discriminate]].
    intros u' c' [= <-] Hin' Hne.
    apply (RouteFacts.In_remove_first _ _ c); [exact Hfind | exact Hin' |].
    intros ->. contradiction.
  - split; [discriminate|]. split; [intros _; exact Hc2|]. split; [exact Hu2|].
    split; [intros u' c' _ Hin' _; rewrite Hc2; exact Hin'|].
    split; [intros u' _ Hdown; contradiction|].
    intros Hsteady. exfalso. unfold Storage.arrive in El2, Hl.
    rewrite Hsteady in El2, Hl. cbn in El2. rewrite Hsteady in El2. congruence.
  - split; [discriminate|]. split; [intros _; exact Hc2|]. split; [exact Hu2|].
    split; [intros u' c' _ Hin' _; rewrite Hc2; exact Hin'|].
    split; [intros u' _ Hdown; contradiction|].
    intros Hsteady. exfalso. unfold Storage.arrive in El2, Hl.
    rewrite Hsteady in El2, Hl. cbn in El2. rewrite Hsteady in El2. congruence.
Qed.

Lemma delete_route_persistent_witness :
  Routes.status
    (fst (Routes.deleteConversionRoute
            (Some (mkUser "u1" "ann@example.org" "hash" None)) (Scenario.oid "1")
            (Storage.mkRemote (Scenario.mongo_after Scenario.two_sizes) []))) = 200 /\
  In (mkConversion (Scenario.oid "2") "u1" "b.pdf" 5000 "<document/>" (Some 2000))
     (Driver.conversions
        (Storage.store
           (snd (Routes.deleteConversionRoute
                   (Some (mkUser "u2" "eve@example.org" "hash" None))
                   (Scenario.oid "2")
                   (Storage.mkRemote (Scenario.mongo_after Scenario.two_sizes) []))))).
Proof.
  split; [reflexivity|].
  destruct (delete_route_persistent
              (Some (mkUser "u2" "eve@example.org" "hash" None)) (Scenario.oid "2")
              (Storage.mkRemote (Scenario.mongo_after Scenario.two_sizes) []))
    as (_ & _ & _ & Hkeep & _).
  apply (Hkeep (mkUser "u2" "eve@example.org" "hash" None)).
  - reflexivity.
  - right. left. reflexivity.
  - discriminate.
Defined.

(** ** Registration *)

Module AuthFacts.

Import Auth.

Lemma safeParse_Some (isEmail : string -> bool) (body : RegisterBody)
    (email password : string) :
  registerSchema_safeParse isEmail body = Some (email, password) ->
  b_email body = Some email /\
  b_password body = Some password /\
  b_confirmPassword body = Some password /\
  isEmail email = true /\
  (6 <= String.length password)%nat /\
  has isUpper password = true /\
  has isLower password = true /\
  has isSpecial password = true.
Proof.
  unfold registerSchema_safeParse.
  destruct (b_email body) as [e|]; [|discriminate].
  destruct (b_password body) as [p|]; [|discriminate].
  destruct (b_confirmPassword body) as [c|]; [|discriminate].
  destruct (_ && _) eqn:E; [|discriminate]. intros [= <- <-].
  repeat (apply andb_prop in E as [E ?]).
  match goal with H : String.eqb _ _ = true |- _ => apply String.eqb_eq in H; subst c end.
  match goal with H : (6 <=? _)%nat = true |- _ => apply Nat.leb_le in H end.
  auto 10.
Qed.

(** The handler over the in-memory backend in closed form. *)
Lemma register_mem (isEmail : string -> bool) (hashPassword : string -> outcome string)
    (generateToken : User -> outcome string) (fresh : ObjectId) (now : Z)
    (body : RegisterBody) (m : Mem.Machine) :
  register isEmail hashPassword generateToken fresh now body m =
  match registerSchema_safeParse isEmail body with
  | None => (mkResponse 400 Errors, m)
  | Some (email, password) =>
      match js_find (fun user => String.eqb (Schema.email user) email)
              (Mem.users (Mem.this m)) with
      | Some _ => (mkResponse 400 (Error "Email already exists"), m)
      | None =>
          match hashPassword password with
          | Returned hashedPassword =>
              let newUser := mkUser fresh email hashedPassword (Some now) in
              let m' :=
                Mem.mkMachine (Mem.arrays m)
                  (Mem.mkMemStorage (Mem.users (Mem.this m) ++ [newUser])
                     (Mem.conversions (Mem.this m)) (Mem.userId (Mem.this m) + 1)
                     (Mem.conversionId (Mem.this m))) in
              match generateToken newUser with
              | Returned token =>
                  (mkResponse 201 (Created fresh email (Some now) token), m')
              | Thrown _ => (server_error, m')
              end
          | Thrown _ => (server_error, m)
          end
      end
  end.
Proof.
  unfold register.
  destruct (registerSchema_safeParse isEmail body) as [[email password]|];
    [|reflexivity].
  cbn [Storage.getUserByEmail Storage.MemStorage_IStorage]. unfold Storage.lift at 1.
  unfold Mem.getUserByEmail at 1 2, Mem.bind, Mem.get_this, Mem.ret. cbn [fst snd].
  destruct (js_find _ (Mem.users (Mem.this m))); [reflexivity|].
  destruct (hashPassword password) as [h|e]; [|reflexivity].
  reflexivity.
Qed.

Lemma serve_users (q : Request) (m : Mem.Machine) :
  Mem.stored (serve m q) = Mem.stored m /\
  (Mem.users (Mem.this (serve m q)) = Mem.users (Mem.this m) \/
   exists u,
     Mem.users (Mem.this (serve m q)) = Mem.users (Mem.this m) ++ [u] /\
     js_find (fun user => String.eqb (Schema.email user) (Schema.email u))
       (Mem.users (Mem.this m)) = None).
Proof.
  unfold serve. rewrite register_mem.
  destruct (registerSchema_safeParse _ _) as [[email password]|]; [|auto].
  destruct (js_find _ (Mem.users (Mem.this m))) eqn:Hf; [auto|].
  destruct (hashPassword q password) as [h|e]; [|auto].
  cbv zeta.
  destruct (generateToken q _); cbn [fst snd]; (split; [reflexivity|]);
    right; eexists; (split; [reflexivity | exact Hf]).
Qed.

Lemma NoDup_snoc_email (us : list User) (u : User) :
  NoDup (map Schema.email us) ->
  js_find (fun user => String.eqb (Schema.email user) (Schema.email u)) us = None ->
  NoDup (map Schema.email (us ++ [u])).
Proof.
  intros Hnd Hf. rewrite map_app. apply NoDup_app. split; [exact Hnd|].
  split; [|apply NoDup_singleton].
  intros e He Hu. apply list_elem_of_singleton in Hu. subst e.
  apply list_elem_of_In, in_map_iff in He as (x & Hx & Hin).
  pose proof (proj1 (CreateFacts.js_find_none _ _) Hf x Hin) as Hx'.
  cbv beta in Hx'. rewrite Hx, String.eqb_refl in Hx'. discriminate Hx'.
Qed.

End AuthFacts.

(** X21. When registration requests are handled one after the other
    by the in-memory backend, starting from users with pairwise distinct
    emails, the stored emails stay pairwise distinct; the users already
    stored are kept in front, and no conversion is touched. *)
Theorem registration_keeps_emails_distinct (qs : list Auth.Request) (m : Mem.Machine) :
  NoDup (map Schema.email (Mem.users (Mem.this m))) ->
  NoDup (map Schema.email (Mem.users (Mem.this (Auth.serve_all qs m)))) /\
  Mem.users (Mem.this m) `prefix_of` Mem.users (Mem.this (Auth.serve_all qs m)) /\
  Mem.stored (Auth.serve_all qs m) = Mem.stored m.
Proof.
  revert m. induction qs as [|q qs IH]; intros m Hnd.
  - split; [exact Hnd|]. split; reflexivity.
  - change (Auth.serve_all (q :: qs) m) with (Auth.serve_all qs (Auth.serve m q)).
    destruct (AuthFacts.serve_users q m) as [Hs [Hu | (u & Hu & Hf)]].
    + destruct (IH (Auth.serve m q)) as (H1 & H2 & H3); [rewrite Hu; exact Hnd|].
      rewrite Hu in H2. rewrite H3. auto.
    + destruct (IH (Auth.serve m q)) as (H1 & H2 & H3).
      { rewrite Hu. apply AuthFacts.NoDup_snoc_email; assumption. }
      split; [exact H1|]. split; [|rewrite H3; exact Hs].
      etransitivity; [|exact H2]. rewrite Hu. apply prefix_app_r. reflexivity.
Qed.

Lemma registration_keeps_emails_distinct_witness :
  NoDup
    (map Schema.email
       (Mem.users
          (Mem.this
             (Auth.serve_all
                [Auth.mkRequest (fun _ => true) (fun p => Returned ("#" ++ p)%string)
                   (fun _ => Returned "t1") (Scenario.oid "1") 1000
                   (Auth.mkRegisterBody (Some "ann@example.org") (Some "Secret!1")
                      (Some "Secret!1"));
                 Auth.mkRequest (fun _ => true) (fun p => Returned ("#" ++ p)%string)
                   (fun _ => Returned "t2") (Scenario.oid "2") 2000
                   (Auth.mkRegisterBody (Some "ann@example.org") (Some "Other?2x")
                      (Some "Other?2x"))]
                Mem.constructor)))).
Proof.
  apply (registration_keeps_emails_distinct
           [Auth.mkRequest (fun _ => true) (fun p => Returned ("#" ++ p)%string)
              (fun _ => Returned "t1") (Scenario.oid "1") 1000
              (Auth.mkRegisterBody (Some "ann@example.org") (Some "Secret!1")
                 (Some "Secret!1"));
            Auth.mkRequest (fun _ => true) (fun p => Returned ("#" ++ p)%string)
              (fun _ => Returned "t2") (Scenario.oid "2") 2000
              (Auth.mkRegisterBody (Some "ann@example.org") (Some "Other?2x")
                 (Some "Other?2x"))]
           Mem.constructor).
  apply NoDup_nil_2.
Defined.

(** X22. Whatever the storage implementation, [register] answers 201
    only to a body that carries an email of valid format, a password of at
    least 6 characters with an uppercase letter, a lowercase letter and a
    character that is neither a letter nor a digit, and the same password
    as confirmation. *)
Theorem register_accepts_only_valid_bodies
    {S : Type} `{Storage.IStorage S}
    (isEmail : string -> bool) (hashPassword : string -> outcome string)
    (generateToken : User -> outcome string) (fresh : ObjectId) (now : Z)
    (body : Auth.RegisterBody) (s : S) :
  Auth.status
    (fst (Auth.register isEmail hashPassword generateToken fresh now body s)) = 201 ->
  exists email password,
    Auth.b_email body = Some email /\
    Auth.b_password body = Some password /\
    Auth.b_confirmPassword body = Some password /\
    isEmail email = true /\
    (6 <= String.length password)%nat /\
    Auth.has Auth.isUpper password = true /\
    Auth.has Auth.isLower password = true /\
    Auth.has Auth.isSpecial password = true.
Proof.
  unfold Auth.register.
  destruct (Auth.registerSchema_safeParse isEmail body) as [[email password]|] eqn:Hp;
    [|discriminate].
  intros _. exists email, password. apply AuthFacts.safeParse_Some. exact Hp.
Qed.

Lemma register_accepts_only_valid_bodies_witness :
  exists email password,
    Auth.b_email
      (Auth.mkRegisterBody (Some "ann@example.org") (Some "Secret!1")
         (Some "Secret!1")) = Some email /\
    Auth.b_password
      (Auth.mkRegisterBody (Some "ann@example.org") (Some "Secret!1")
         (Some "Secret!1")) = Some password /\
    Auth.b_confirmPassword
      (Auth.mkRegisterBody (Some "ann@example.org") (Some "Secret!1")
         (Some "Secret!1")) = Some password /\
    (fun _ : string => true) email = true /\
    (6 <= String.length password)%nat /\
    Auth.has Auth.isUpper password = true /\
    Auth.has Auth.isLower password = true /\
    Auth.has Auth.isSpecial password = true.
Proof.
  apply (register_accepts_only_valid_bodies (fun _ => true)
           (fun p => Returned ("#" ++ p)%string) (fun _ => Returned "t1")
           (Scenario.oid "1") 1000
           (Auth.mkRegisterBody (Some "ann@example.org") (Some "Secret!1")
              (Some "Secret!1"))
           Mem.constructor).
  reflexivity.
Defined.

(** X23. Over the in-memory backend [register] answers 400 with
    [Email already exists] exactly when the body is valid and a stored user
    has that very email, and then stores nothing.  When the token cannot be
    generated the answer is 500 although the user has been stored with the
    hashed password: the same body sent again is answered with
    [Email already exists]. *)
Theorem register_duplicate_and_token_failure
    (isEmail : string -> bool) (hashPassword hashPassword' : string -> outcome string)
    (generateToken generateToken' : User -> outcome string)
    (fresh fresh' : ObjectId) (now now' : Z)
    (body : Auth.RegisterBody) (m : Mem.Machine) :
  (Auth.json (fst (Auth.register isEmail hashPassword generateToken fresh now body m)) =
     Auth.Error "Email already exists" <->
   exists email password u,
     Auth.registerSchema_safeParse isEmail body = Some (email, password) /\
     In u (Mem.users (Mem.this m)) /\ Schema.email u = email) /\
  (Auth.json (fst (Auth.register isEmail hashPassword generateToken fresh now body m)) =
     Auth.Error "Email already exists" ->
   snd (Auth.register isEmail hashPassword generateToken fresh now body m) = m) /\
  (forall email password hashedPassword error,
     Auth.registerSchema_safeParse isEmail body = Some (email, password) ->
     (forall u, In u (Mem.users (Mem.this m)) -> Schema.email u <> email) ->
     hashPassword password = Returned hashedPassword ->
     generateToken (mkUser fresh email hashedPassword (Some now)) = Thrown error ->
     Auth.status
       (fst (Auth.register isEmail hashPassword generateToken fresh now body m)) = 500 /\
     Mem.users
       (Mem.this
          (snd (Auth.register isEmail hashPassword generateToken fresh now body m))) =
       Mem.users (Mem.this m) ++ [mkUser fresh email hashedPassword (Some now)] /\
     fst (Auth.register isEmail hashPassword' generateToken' fresh' now' body
            (snd (Auth.register isEmail hashPassword generateToken fresh now body m))) =
       Auth.mkResponse 400 (Auth.Error "Email already exists")).
Proof.
  split; [|split].
  - rewrite AuthFacts.register_mem.
    destruct (Auth.registerSchema_safeParse isEmail body) as [[email password]|];
      cbn [fst Auth.json].
    + destruct (js_find _ (Mem.users (Mem.this m))) as [u|] eqn:Hf; cbn [fst Auth.json].
      * split; [|reflexivity]. intros _.
        apply RouteFacts.js_find_Some in Hf as [Hin Hp].
        apply String.eqb_eq in Hp. exists email, password, u. auto.
      * split.
        -- destruct (hashPassword password); cbv zeta;
             [destruct (generateToken _)|]; cbn [fst Auth.json]; discriminate.
        -- intros (e & p & u & [= <- <-] & Hin & He).
           pose proof (proj1 (CreateFacts.js_find_none _ _) Hf u Hin) as Hu.
           cbv beta in Hu. rewrite He, String.eqb_refl in Hu. discriminate Hu.
    + split; [discriminate|]. intros (e & p & u & Hp & _). discriminate Hp.
  - rewrite AuthFacts.register_mem.
    destruct (Auth.registerSchema_safeParse isEmail body) as [[email password]|];
      cbn [fst snd Auth.json]; [|reflexivity].
    destruct (js_find _ (Mem.users (Mem.this m))); cbn [fst snd Auth.json];
      [reflexivity|].
    destruct (hashPassword password); cbv zeta;
      [destruct (generateToken _)|]; cbn [fst snd Auth.json]; discriminate.
  - intros email password h error Hp Hnew Hh Ht.
    rewrite (AuthFacts.register_mem isEmail hashPassword), Hp.
    assert (js_find (fun user => String.eqb (Schema.email user) email)
              (Mem.users (Mem.this m)) = None) as ->.
    { apply CreateFacts.js_find_none. intros u Hin. apply String.eqb_neq.
      apply Hnew. exact Hin. }
    rewrite Hh. cbv zeta. rewrite Ht. cbn [fst snd].
    split; [reflexivity|]. split; [reflexivity|].
    rewrite AuthFacts.register_mem, Hp. cbn [Mem.this Mem.users].
    rewrite CreateFacts.js_find_snoc.
    destruct (js_find _ (Mem.users (Mem.this m))); [reflexivity|].
    cbn [Schema.email]. rewrite String.eqb_refl. reflexivity.
Qed.

Lemma register_duplicate_and_token_failure_witness :
  fst (Auth.register (fun _ => true) (fun p => Returned ("#" ++ p)%string)
         (fun _ => Returned "t2") (Scenario.oid "2") 2000
         (Auth.mkRegisterBody (Some "ann@example.org") (Some "Secret!1")
            (Some "Secret!1"))
         (snd (Auth.register (fun _ => true) (fun p => Returned ("#" ++ p)%string)
                 (fun _ => Thrown "secretOrPrivateKey must have a value")
                 (Scenario.oid "1") 1000
                 (Auth.mkRegisterBody (Some "ann@example.org") (Some "Secret!1")
                    (Some "Secret!1"))
                 Mem.constructor))) =
  Auth.mkResponse 400 (Auth.Error "Email already exists").
Proof.
  destruct (register_duplicate_and_token_failure (fun _ => true)
              (fun p => Returned ("#" ++ p)%string)
              (fun p => Returned ("#" ++ p)%string)
              (fun _ => Thrown "secretOrPrivateKey must have a value")
              (fun _ => Returned "t2") (Scenario.oid "1") (Scenario.oid "2")
              1000 2000
              (Auth.mkRegisterBody (Some "ann@example.org") (Some "Secret!1")
                 (Some "Secret!1"))
              Mem.constructor) as (_ & _ & Hfail).
  destruct (Hfail "ann@example.org" "Secret!1" "#Secret!1"
              "secretOrPrivateKey must have a value") as (_ & _ & Hagain).
  - reflexivity.
  - intros u [].
  - reflexivity.
  - reflexivity.
  - exact Hagain.
Defined.

(** ** The clock read where the source reads it *)

Module ClockFacts.

Lemma clock_bind_run {A B} (c : Clocked.R A) (f : A -> Clocked.R B) (k : nat) :
  Clocked.bind c f k = f (fst (c k)) (snd (c k)).
Proof. unfold Clocked.bind. destruct (c k). reflexivity. Qed.

Lemma clocked_filter_cons (p : Conversion -> Clocked.R bool) (x : Conversion)
    (l : list Conversion) (k : nat) :
  fst (Clocked.Array_filter p (x :: l) k) =
  if fst (p x k)
  then x :: fst (Clocked.Array_filter p l (snd (p x k)))
  else fst (Clocked.Array_filter p l (snd (p x k))).
Proof.
  cbn [Clocked.Array_filter]. rewrite !clock_bind_run. reflexivity.
Qed.

Lemma clocked_filter_pure (p : Conversion -> Clocked.R bool)
    (q : Conversion -> bool) (l : list Conversion) (k : nat) :
  (forall x, In x l -> forall j, fst (p x j) = q x) ->
  fst (Clocked.Array_filter p l k) = List.filter q l.
Proof.
  revert k. induction l as [|x l IH]; intros k H; [reflexivity|].
  rewrite clocked_filter_cons. cbn [List.filter].
  rewrite (H x) by (left; reflexivity).
  rewrite IH by (intros y Hy; apply H; right; exact Hy).
  reflexivity.
Qed.

Lemma clocked_filter_sublist (p : Conversion -> Clocked.R bool)
    (l : list Conversion) (k : nat) :
  fst (Clocked.Array_filter p l k) `sublist_of` l.
Proof.
  revert k. induction l as [|x l IH]; intros k.
  - constructor.
  - rewrite clocked_filter_cons. destruct (fst (p x k)).
    + apply sublist_skip, IH.
    + apply sublist_cons, IH.
Qed.

Lemma clocked_filter_In (p : Conversion -> Clocked.R bool)
    (l : list Conversion) (k : nat) (x : Conversion) :
  In x (fst (Clocked.Array_filter p l k)) ->
  In x l /\ exists j, fst (p x j) = true.
Proof.
  revert k. induction l as [|y l IH]; intros k; [intros []|].
  rewrite clocked_filter_cons. destruct (fst (p y k)) eqn:E.
  - intros [<-|H].
    + split; [left; reflexivity | exists k; exact E].
    + destruct (IH _ H) as [H1 H2]. split; [right; exact H1 | exact H2].
  - intros H. destruct (IH _ H) as [H1 H2]. split; [right; exact H1 | exact H2].
Qed.

Lemma clocked_filter_keeps (p : Conversion -> Clocked.R bool)
    (l : list Conversion) (k : nat) (x : Conversion) :
  In x l -> (forall j, fst (p x j) = true) ->
  In x (fst (Clocked.Array_filter p l k)).
Proof.
  revert k. induction l as [|y l IH]; intros k; [intros []|].
  intros Hx Hp. rewrite clocked_filter_cons. destruct Hx as [<-|Hx].
  - rewrite Hp. left. reflexivity.
  - destruct (fst (p y k)); [right|]; apply IH; assumption.
Qed.

Lemma pure_filter_sublist (q : Conversion -> bool) (l : list Conversion) :
  List.filter q l `sublist_of` l.
Proof.
  induction l as [|x l IH]; simpl; [constructor|].
  destruct (q x); [apply sublist_skip | apply sublist_cons]; exact IH.
Qed.

Lemma sublist_In (l1 l2 : list Conversion) (x : Conversion) :
  l1 `sublist_of` l2 -> In x l1 -> In x l2.
Proof.
  intros Hs Hx. apply list_elem_of_In. apply list_elem_of_In in Hx.
  eapply elem_of_sublist; eassumption.
Qed.

Lemma sublist_count (u : Conversion -> bool) (l1 l2 : list Conversion) :
  l1 `sublist_of` l2 ->
  (length (List.filter u l1) <= length (List.filter u l2))%nat.
Proof.
  induction 1 as [|x l1 l2 Hs IH|x l1 l2 Hs IH]; simpl.
  - lia.
  - destruct (u x); simpl; lia.
  - destruct (u x); simpl; lia.
Qed.

Lemma sublist_before (t : Z) (l1 l2 : list Conversion) :
  l1 `sublist_of` l2 -> Clocked.before t l2 -> Clocked.before t l1.
Proof.
  unfold Clocked.before. intros Hs H. rewrite List.Forall_forall in *.
  intros x Hx. apply H. eapply sublist_In; eassumption.
Qed.

(** Whatever the comparator answers, the sort rearranges. *)
Lemma clocked_insert_Permutation (cmp : Conversion -> Conversion -> Clocked.R Z)
    (x : Conversion) (l : list Conversion) (k : nat) :
  Permutation (x :: l) (fst (Clocked.sort_insert cmp x l k)).
Proof.
  revert k. induction l as [|y l IH]; intros k; cbn [Clocked.sort_insert].
  - reflexivity.
  - rewrite clock_bind_run. destruct (fst (cmp x y k) <=? 0).
    + reflexivity.
    + rewrite clock_bind_run. cbn [Clocked.ret fst].
      rewrite perm_swap. constructor. apply IH.
Qed.

Lemma clocked_sort_Permutation (cmp : Conversion -> Conversion -> Clocked.R Z)
    (l : list Conversion) (k : nat) :
  Permutation l (fst (Clocked.Array_sort cmp l k)).
Proof.
  revert k. induction l as [|x l IH]; intros k; cbn [Clocked.Array_sort].
  - reflexivity.
  - rewrite clock_bind_run. rewrite <- clocked_insert_Permutation.
    constructor. apply IH.
Qed.

(** Where the answers of the comparator do not depend on the readings,
    the sort is the stable sort by these answers. *)
Lemma clocked_insert_pure (cmp : Conversion -> Conversion -> Clocked.R Z)
    (pure : Conversion -> Conversion -> Z) (x : Conversion)
    (l : list Conversion) (k : nat) :
  (forall y, In y l -> forall j, fst (cmp x y j) = pure x y) ->
  fst (Clocked.sort_insert cmp x l k) = sort_insert pure x l.
Proof.
  revert k. induction l as [|y l IH]; intros k H; cbn [Clocked.sort_insert sort_insert].
  - reflexivity.
  - rewrite clock_bind_run, (H y) by (left; reflexivity).
    destruct (pure x y <=? 0); [reflexivity|].
    rewrite clock_bind_run. cbn [Clocked.ret fst].
    rewrite IH by (intros z Hz; apply H; right; exact Hz). reflexivity.
Qed.

Lemma clocked_sort_pure (cmp : Conversion -> Conversion -> Clocked.R Z)
    (pure : Conversion -> Conversion -> Z) (l : list Conversion) (k : nat) :
  ForallOrdPairs (fun x y => forall j, fst (cmp x y j) = pure x y) l ->
  fst (Clocked.Array_sort cmp l k) = stable_sort pure l.
Proof.
  intros H. revert k.
  induction H as [|x l Hx Hl IH]; intros k;
    cbn [Clocked.Array_sort stable_sort]; [reflexivity|].
  rewrite clock_bind_run, IH. apply clocked_insert_pure.
  intros y Hy. apply Basics.elem_of_stable_sort in Hy.
  rewrite List.Forall_forall in Hx. apply Hx. exact Hy.
Qed.

Section Readings.

Variable clock : Clocked.Clock.

(** The comparator when at most one side reads the clock, every date
    lying before every reading. *)
Lemma compareFn_one_reading (f : SortField) (o : SortOrder) (t0 : Z)
    (a b : Conversion) (j : nat) :
  (forall k, t0 <= clock k) ->
  (forall d, convertedAt a = Some d -> d < t0) ->
  (forall d, convertedAt b = Some d -> d < t0) ->
  Clocked.undated a = false \/ Clocked.undated b = false ->
  fst (Clocked.compareFn clock f o a b j) = Mem.compareFn f o t0 a b.
Proof.
  intros Hk Ha Hb Hone.
  unfold Clocked.compareFn, Mem.compareFn, Clocked.sortVal, Mem.sortVal,
    Clocked.undated in *.
  rewrite !clock_bind_run.
  destruct f; [reflexivity | | reflexivity].
  destruct (convertedAt a) as [da|], (convertedAt b) as [db|];
    cbn [Clocked.ret Clocked.read Clocked.bind fst snd].
  - reflexivity.
  - specialize (Ha da eq_refl). specialize (Hk j).
    unfold js_lt, js_gt.
    destruct o;
      repeat match goal with
             | |- context [?x <? ?y] => destruct (Z.ltb_spec x y)
             end; try reflexivity; lia.
  - specialize (Hb db eq_refl). specialize (Hk j).
    unfold js_lt, js_gt.
    destruct o;
      repeat match goal with
             | |- context [?x <? ?y] => destruct (Z.ltb_spec x y)
             end; try reflexivity; lia.
  - destruct Hone as [H|H]; discriminate H.
Qed.

(** The comparator under one clock value for the call. *)
Lemma compareFn_steady (f : SortField) (o : SortOrder) (now : Z)
    (a b : Conversion) (j : nat) :
  (forall k, clock k = now) \/ (convertedAt a <> None /\ convertedAt b <> None) ->
  fst (Clocked.compareFn clock f o a b j) = Mem.compareFn f o now a b.
Proof.
  intros H.
  unfold Clocked.compareFn, Mem.compareFn, Clocked.sortVal, Mem.sortVal.
  rewrite !clock_bind_run.
  destruct f; [reflexivity | | reflexivity].
  destruct (convertedAt a) as [da|], (convertedAt b) as [db|];
    cbn [Clocked.ret Clocked.read Clocked.bind fst snd];
    try reflexivity;
    (destruct H as [H|[H1 H2]]; [rewrite ?H; reflexivity | congruence]).
Qed.

Lemma convDate_steady (now : Z) (test : Z -> bool) (x : Conversion) (j : nat) :
  (forall k, clock k = now) \/ convertedAt x <> None ->
  fst (Clocked.bind (Clocked.convDate clock x)
         (fun t => Clocked.ret (test t)) j) =
  test (Mem.convDate now x).
Proof.
  intros H. rewrite clock_bind_run. unfold Clocked.convDate, Mem.convDate.
  destruct (convertedAt x) as [d|]; cbn [Clocked.ret Clocked.read fst snd];
    [reflexivity|].
  destruct H as [H|H]; [rewrite H; reflexivity | congruence].
Qed.

Lemma steady_sublist (now : Z) (l1 l2 : list Conversion) :
  l1 `sublist_of` l2 -> Clocked.steady clock now l2 -> Clocked.steady clock now l1.
Proof.
  intros Hs [H|H]; [left; exact H | right].
  rewrite List.Forall_forall in *. intros x Hx. apply H.
  eapply sublist_In; eassumption.
Qed.

Lemma steady_In (now : Z) (l : list Conversion) (x : Conversion) :
  Clocked.steady clock now l -> In x l ->
  (forall k, clock k = now) \/ convertedAt x <> None.
Proof.
  intros [H|H] Hx; [left; exact H | right].
  rewrite List.Forall_forall in H. apply H. exact Hx.
Qed.

(** The selection under one clock value for the call. *)
Lemma applyFilters_steady (now : Z) (filters : option ConversionFilters)
    (l : list Conversion) (k : nat) :
  Clocked.steady clock now l ->
  fst (Clocked.applyFilters clock filters l k) = MemView.applyFilters now filters l.
Proof.
  intros Hst. destruct filters as [f|]; [|reflexivity].
  unfold Clocked.applyFilters, MemView.applyFilters.
  set (l1 := match truthy (search f) with
             | Some s =>
                 List.filter
                   (fun conv => includes (toLowerCase (filename conv)) (toLowerCase s)) l
             | None => l
             end).
  assert (MemView.optFilter (truthy (search f))
            (fun s conv => includes (toLowerCase (filename conv)) (toLowerCase s)) l
          = l1) as -> by (unfold l1; destruct (truthy (search f)); reflexivity).
  assert (Clocked.steady clock now l1) as H1.
  { apply (steady_sublist now l1 l); [|exact Hst].
    unfold l1. destruct (truthy (search f)); [apply pure_filter_sublist | reflexivity]. }
  rewrite !clock_bind_run.
  assert (fst (match dateFrom f with
               | Some d =>
                   Clocked.Array_filter
                     (fun conv =>
                        Clocked.bind (Clocked.convDate clock conv)
                          (fun t => Clocked.ret (d <=? t))) l1
               | None => Clocked.ret l1
               end k) =
          MemView.optFilter (dateFrom f)
            (fun d conv => d <=? Mem.convDate now conv) l1) as E2.
  { destruct (dateFrom f) as [d|]; [|reflexivity]. cbn [MemView.optFilter].
    apply clocked_filter_pure. intros x Hx j.
    apply (convDate_steady now (fun t => d <=? t)).
    eapply steady_In; eassumption. }
  rewrite E2.
  set (l2 := MemView.optFilter (dateFrom f)
               (fun d conv => d <=? Mem.convDate now conv) l1) in *.
  assert (Clocked.steady clock now l2) as H2.
  { apply (steady_sublist now l2 l1); [|exact H1].
    unfold l2. destruct (dateFrom f); [apply pure_filter_sublist | reflexivity]. }
  match goal with
  | |- context [match dateTo f with Some d => _ | None => _ end ?k'] =>
      assert (fst (match dateTo f with
                   | Some d =>
                       Clocked.Array_filter
                         (fun conv =>
                            Clocked.bind (Clocked.convDate clock conv)
                              (fun t => Clocked.ret (t <=? d))) l2
                   | None => Clocked.ret l2
                   end k') =
              MemView.optFilter (dateTo f)
                (fun d conv => Mem.convDate now conv <=? d) l2) as E3
  end.
  { destruct (dateTo f) as [d|]; [|reflexivity]. cbn [MemView.optFilter].
    apply clocked_filter_pure. intros x Hx j.
    apply (convDate_steady now (fun t => t <=? d)).
    eapply steady_In; eassumption. }
  rewrite E3. cbn [Clocked.ret fst].
  destruct (sizeMin f), (sizeMax f); reflexivity.
Qed.

Lemma applyFilters_sublist (filters : option ConversionFilters)
    (l : list Conversion) (k : nat) :
  fst (Clocked.applyFilters clock filters l k) `sublist_of` l.
Proof.
  destruct filters as [f|]; [|reflexivity].
  unfold Clocked.applyFilters. rewrite !clock_bind_run. cbn [Clocked.ret fst].
  set (l1 := match truthy (search f) with
             | Some s =>
                 List.filter
                   (fun conv =>
                      includes (toLowerCase (filename conv)) (toLowerCase s)) l
             | None => l
             end).
  assert (l1 `sublist_of` l) as S1
    by (unfold l1; destruct (truthy (search f));
        [apply pure_filter_sublist | reflexivity]).
  match goal with
  | |- context [fst (?c k)] => set (l2 := fst (c k)); set (k2 := snd (c k))
  end.
  assert (l2 `sublist_of` l1) as S2
    by (unfold l2; destruct (dateFrom f);
        [apply clocked_filter_sublist | reflexivity]).
  match goal with
  | |- context [fst (?c k2)] => set (l3 := fst (c k2))
  end.
  assert (l3 `sublist_of` l2) as S3
    by (unfold l3; destruct (dateTo f);
        [apply clocked_filter_sublist | reflexivity]).
  transitivity l3; [|transitivity l2; [exact S3 | transitivity l1; assumption]].
  destruct (sizeMin f), (sizeMax f);
    repeat (etransitivity; [apply pure_filter_sublist|]); reflexivity.
Qed.

Lemma selection_sublist (userId : string) (filters : option ConversionFilters)
    (l : list Conversion) (k : nat) :
  fst (Clocked.applyFilters clock filters
         (List.filter (fun conv => String.eqb (Schema.userId conv) userId) l) k)
  `sublist_of` l.
Proof.
  etransitivity; [apply applyFilters_sublist | apply pure_filter_sublist].
Qed.

(** A stage of the date filters. *)
Lemma clocked_stage_In (o : option Z) (p : Z -> Conversion -> Clocked.R bool)
    (l : list Conversion) (k : nat) (x : Conversion) :
  In x (fst (match o with
             | Some d => Clocked.Array_filter (p d) l
             | None => Clocked.ret l
             end k)) ->
  In x l /\ (forall d, o = Some d -> exists j, fst (p d x j) = true).
Proof.
  destruct o as [d|].
  - intros H. apply clocked_filter_In in H as [H1 H2].
    split; [exact H1|]. intros d' [= <-]. exact H2.
  - intros H. split; [exact H | discriminate].
Qed.

Lemma clocked_stage_keeps (o : option Z) (p : Z -> Conversion -> Clocked.R bool)
    (l : list Conversion) (k : nat) (x : Conversion) :
  In x l -> (forall d, o = Some d -> forall j, fst (p d x j) = true) ->
  In x (fst (match o with
             | Some d => Clocked.Array_filter (p d) l
             | None => Clocked.ret l
             end k)).
Proof.
  intros Hx Hp. destruct o as [d|]; [|exact Hx].
  apply clocked_filter_keeps; [exact Hx|]. apply Hp. reflexivity.
Qed.

(** What the date filters test on a record without [convertedAt]: a
    reading of the clock. *)
Lemma undated_test (test : Z -> bool) (c : Conversion) (j : nat) :
  convertedAt c = None ->
  fst (Clocked.bind (Clocked.convDate clock c)
         (fun t => Clocked.ret (test t)) j) = test (clock j).
Proof.
  intros Hc. rewrite clock_bind_run. unfold Clocked.convDate. rewrite Hc.
  reflexivity.
Qed.

(** A record without [convertedAt] that is selected has passed each date
    bound with a reading of the clock. *)
Lemma undated_selected (f : ConversionFilters) (l : list Conversion) (k : nat)
    (c : Conversion) :
  convertedAt c = None ->
  In c (fst (Clocked.applyFilters clock (Some f) l k)) ->
  In c l /\
  (forall s, search f = Some s -> Contract.search_accepts s c) /\
  (forall d, dateFrom f = Some d -> exists j, d <= clock j) /\
  (forall d, dateTo f = Some d -> exists j, clock j <= d) /\
  (forall n, sizeMin f = Some n -> n <= originalSize c) /\
  (forall n, sizeMax f = Some n -> originalSize c <= n).
Proof.
  intros Hc. unfold Clocked.applyFilters.
  rewrite !clock_bind_run. cbn [Clocked.ret fst].
  change (match sizeMax f with
          | Some n => List.filter (fun conv => originalSize conv <=? n) ?l4
          | None => ?l4
          end)
    with (MemView.optFilter (sizeMax f) (fun n conv => originalSize conv <=? n) l4).
  rewrite FilterFacts.optFilter_In. intros [H Hmax].
  change (match sizeMin f with
          | Some n => List.filter (fun conv => n <=? originalSize conv) ?l3
          | None => ?l3
          end)
    with (MemView.optFilter (sizeMin f) (fun n conv => n <=? originalSize conv) l3)
    in H.
  apply FilterFacts.optFilter_In in H as [H Hmin].
  apply (clocked_stage_In (dateTo f)
           (fun d conv =>
              Clocked.bind (Clocked.convDate clock conv)
                (fun t => Clocked.ret (t <=? d)))) in H as [H Hto].
  apply (clocked_stage_In (dateFrom f)
           (fun d conv =>
              Clocked.bind (Clocked.convDate clock conv)
                (fun t => Clocked.ret (d <=? t)))) in H as [H Hfrom].
  change (match truthy (search f) with
          | Some s =>
              List.filter
                (fun conv => includes (toLowerCase (filename conv)) (toLowerCase s)) l
          | None => l
          end)
    with (MemView.optFilter (truthy (search f))
            (fun s conv => includes (toLowerCase (filename conv)) (toLowerCase s)) l)
    in H.
  apply FilterFacts.optFilter_In in H as [H Hs].
  split; [exact H|]. split; [apply FilterFacts.truthy_search; exact Hs|].
  split; [|split; [|split]].
  - intros d Hd. destruct (Hfrom d Hd) as [j Hj]. exists j.
    rewrite (undated_test (fun t => d <=? t)) in Hj by exact Hc.
    apply Z.leb_le. exact Hj.
  - intros d Hd. destruct (Hto d Hd) as [j Hj]. exists j.
    rewrite (undated_test (fun t => t <=? d)) in Hj by exact Hc.
    apply Z.leb_le. exact Hj.
  - intros n Hn. apply Z.leb_le, Hmin, Hn.
  - intros n Hn. apply Z.leb_le, Hmax, Hn.
Qed.

(** A record without [convertedAt] is selected when each date bound
    admits every reading of the clock. *)
Lemma undated_kept (f : ConversionFilters) (l : list Conversion) (k : nat)
    (c : Conversion) :
  convertedAt c = None ->
  In c l ->
  (forall s, search f = Some s -> Contract.search_accepts s c) ->
  (forall d, dateFrom f = Some d -> forall j, d <= clock j) ->
  (forall d, dateTo f = Some d -> forall j, clock j <= d) ->
  (forall n, sizeMin f = Some n -> n <= originalSize c) ->
  (forall n, sizeMax f = Some n -> originalSize c <= n) ->
  In c (fst (Clocked.applyFilters clock (Some f) l k)).
Proof.
  intros Hc H Hs Hfrom Hto Hmin Hmax. unfold Clocked.applyFilters.
  rewrite !clock_bind_run. cbn [Clocked.ret fst].
  change (match sizeMax f with
          | Some n => List.filter (fun conv => originalSize conv <=? n) ?l4
          | None => ?l4
          end)
    with (MemView.optFilter (sizeMax f) (fun n conv => originalSize conv <=? n) l4).
  apply FilterFacts.optFilter_In.
  split; [|intros n Hn; apply Z.leb_le, Hmax, Hn].
  change (match sizeMin f with
          | Some n => List.filter (fun conv => n <=? originalSize conv) ?l3
          | None => ?l3
          end)
    with (MemView.optFilter (sizeMin f) (fun n conv => n <=? originalSize conv) l3).
  apply FilterFacts.optFilter_In.
  split; [|intros n Hn; apply Z.leb_le, Hmin, Hn].
  apply (clocked_stage_keeps (dateTo f)
           (fun d conv =>
              Clocked.bind (Clocked.convDate clock conv)
                (fun t => Clocked.ret (t <=? d)))).
  2:{ intros d Hd j. rewrite (undated_test (fun t => t <=? d)) by exact Hc.
      apply Z.leb_le, Hto, Hd. }
  apply (clocked_stage_keeps (dateFrom f)
           (fun d conv =>
              Clocked.bind (Clocked.convDate clock conv)
                (fun t => Clocked.ret (d <=? t)))).
  2:{ intros d Hd j. rewrite (undated_test (fun t => d <=? t)) by exact Hc.
      apply Z.leb_le, Hfrom, Hd. }
  change (match truthy (search f) with
          | Some s =>
              List.filter
                (fun conv => includes (toLowerCase (filename conv)) (toLowerCase s)) l
          | None => l
          end)
    with (MemView.optFilter (truthy (search f))
            (fun s conv => includes (toLowerCase (filename conv)) (toLowerCase s)) l).
  apply FilterFacts.optFilter_In. split; [exact H|].
  apply FilterFacts.truthy_search. exact Hs.
Qed.

Lemma listed_In (userId : string) (filters : option ConversionFilters)
    (sortOptions : option SortOptions) (l : list Conversion) (x : Conversion) :
  In x (Clocked.listed clock userId filters sortOptions None l) <->
  In x (fst (Clocked.applyFilters clock filters
               (List.filter (fun conv => String.eqb (Schema.userId conv) userId) l)
               O)).
Proof.
  unfold Clocked.listed, Clocked.getConversions.
  rewrite !clock_bind_run. cbn [Clocked.ret fst].
  split; apply Permutation_in; [symmetry|]; apply clocked_sort_Permutation.
Qed.

(** Under one clock value for the call the listing and the count are
    those of the in-memory backend. *)
Lemma listed_steady (now : Z) (userId : string)
    (filters : option ConversionFilters) (sortOptions : option SortOptions)
    (pagination : option PaginationOptions) (l : list Conversion) :
  Clocked.steady clock now l ->
  Clocked.listed clock userId filters sortOptions pagination l =
    MemView.paged pagination
      (MemView.ordered now sortOptions (MemView.selected now userId filters l)) /\
  Clocked.counted clock userId filters l =
    Z.of_nat (length (MemView.selected now userId filters l)).
Proof.
  intros Hst.
  assert (Clocked.steady clock now
            (List.filter (fun conv => String.eqb (Schema.userId conv) userId) l))
    as H0 by (apply (steady_sublist now _ l); [apply pure_filter_sublist | exact Hst]).
  unfold Clocked.listed, Clocked.counted, Clocked.getConversions,
    Clocked.getConversionsCount.
  rewrite !clock_bind_run, !(applyFilters_steady now filters _ _ H0).
  fold (MemView.selected now userId filters l). cbn [Clocked.ret fst].
  split; [|reflexivity].
  assert (Clocked.steady clock now (MemView.selected now userId filters l)) as Hs.
  { apply (steady_sublist now _
             (List.filter (fun conv => String.eqb (Schema.userId conv) userId) l));
      [|exact H0].
    unfold MemView.selected.
    rewrite <- (applyFilters_steady now filters _ O H0).
    apply applyFilters_sublist. }
  unfold MemView.ordered.
  rewrite (clocked_sort_pure _
             (Mem.compareFn (field_or_default sortOptions)
                (order_or_default sortOptions) now)).
  - destruct pagination; reflexivity.
  - apply ForallPairs_ForallOrdPairs. intros a b Ha Hb j.
    apply compareFn_steady.
    destruct Hs as [Hs|Hs]; [left; exact Hs | right].
    rewrite List.Forall_forall in Hs. split; apply Hs; assumption.
Qed.

Lemma Permutation_count (u : Conversion -> bool) (l1 l2 : list Conversion) :
  Permutation l1 l2 -> length (List.filter u l1) = length (List.filter u l2).
Proof.
  induction 1 as [|x l1 l2 _ IH|x y l|l1 l2 l3 _ IH1 _ IH2]; simpl.
  - reflexivity.
  - destruct (u x); simpl; lia.
  - destruct (u x), (u y); reflexivity.
  - lia.
Qed.

Lemma none_undated (l : list Conversion) (x : Conversion) :
  length (List.filter Clocked.undated l) = O -> In x l -> Clocked.undated x = false.
Proof.
  intros H Hx. destruct (Clocked.undated x) eqn:E; [|reflexivity].
  assert (In x (List.filter Clocked.undated l)) as Hin
    by (apply filter_In; auto).
  destruct (List.filter Clocked.undated l); [destruct Hin | discriminate H].
Qed.

(** With at most one record without [convertedAt], and every date before
    every reading, no comparison of the sort depends on the readings. *)
Lemma one_undated_pairs (f : SortField) (o : SortOrder) (t0 : Z)
    (l : list Conversion) :
  (forall k, t0 <= clock k) ->
  (length (List.filter Clocked.undated l) <= 1)%nat ->
  Clocked.before t0 l ->
  ForallOrdPairs
    (fun x y =>
       forall j, fst (Clocked.compareFn clock f o x y j) = Mem.compareFn f o t0 x y)
    l.
Proof.
  intros Hk. induction l as [|x l IH]; intros Hone Hb; [constructor|].
  unfold Clocked.before in *. apply List.Forall_cons_iff in Hb as [Hx Hb].
  cbn [List.filter] in Hone. constructor.
  - apply List.Forall_forall. intros y Hy j.
    rewrite List.Forall_forall in Hb.
    apply compareFn_one_reading; [exact Hk | exact Hx | apply Hb; exact Hy |].
    destruct (Clocked.undated x) eqn:E; [right | left; reflexivity].
    apply (none_undated l); [|exact Hy]. cbn [length] in Hone. lia.
  - apply IH; [|exact Hb]. destruct (Clocked.undated x); cbn [length] in Hone; lia.
Qed.

Lemma sorted_app_r {A} (R : A -> A -> Prop) (l1 l2 : list A) :
  StronglySorted R (l1 ++ l2) -> StronglySorted R l2.
Proof.
  induction l1 as [|x l1 IH]; simpl; [auto|].
  intros H. apply StronglySorted_inv in H as [H _]. auto.
Qed.

(** Under the sort by date a record without [convertedAt] that is listed,
    the only such record stored, every stored date lying before every
    reading: it comes first in descending order and last in ascending
    order. *)
Lemma undated_placed (t0 : Z) (userId : string)
    (filters : option ConversionFilters) (sortOptions : option SortOptions)
    (l : list Conversion) (c : Conversion) :
  (forall k, t0 <= clock k) ->
  convertedAt c = None ->
  field_or_default sortOptions = Field_convertedAt ->
  (length (List.filter Clocked.undated l) <= 1)%nat ->
  Clocked.before t0 l ->
  In c (Clocked.listed clock userId filters sortOptions None l) ->
  match order_or_default sortOptions with
  | desc =>
      exists rest, Clocked.listed clock userId filters sortOptions None l = c :: rest
  | asc =>
      exists rest, Clocked.listed clock userId filters sortOptions None l = rest ++ [c]
  end.
Proof.
  intros Hk Hc Hf Hone Hb Hin.
  set (sel := fst (Clocked.applyFilters clock filters
                     (List.filter
                        (fun conv => String.eqb (Schema.userId conv) userId) l) O)).
  assert (sel `sublist_of` l) as Hsub by apply selection_sublist.
  assert (Clocked.listed clock userId filters sortOptions None l =
          stable_sort
            (Mem.compareFn Field_convertedAt (order_or_default sortOptions) t0) sel)
    as Hxs.
  { unfold Clocked.listed, Clocked.getConversions.
    rewrite !clock_bind_run. cbn [Clocked.ret fst]. rewrite Hf.
    apply clocked_sort_pure. apply one_undated_pairs; [exact Hk | |].
    - etransitivity; [apply sublist_count, Hsub | exact Hone].
    - eapply sublist_before; eassumption. }
  rewrite Hxs in *.
  set (cmp := Mem.compareFn Field_convertedAt (order_or_default sortOptions) t0) in *.
  assert (StronglySorted (fun a b => cmp a b <= 0) (stable_sort cmp sel)) as Hsorted.
  { apply OrderFacts.stable_sort_sorted.
    - apply OrderFacts.compareFn_total.
    - apply OrderFacts.compareFn_trans. }
  assert (Permutation sel (stable_sort cmp sel)) as Hperm
    by apply Basics.stable_sort_Permutation.
  destruct (in_split _ _ Hin) as (l1 & l2 & Hsplit).
  rewrite Hsplit in Hsorted, Hperm.
  assert (Clocked.undated c = true) as Hu by (unfold Clocked.undated; rewrite Hc; reflexivity).
  assert ((length (List.filter Clocked.undated (l1 ++ c :: l2)) <= 1)%nat) as Hcount.
  { rewrite <- (Permutation_count Clocked.undated _ _ Hperm).
    etransitivity; [apply sublist_count, Hsub | exact Hone]. }
  rewrite List.filter_app, length_app in Hcount. cbn [List.filter] in Hcount.
  rewrite Hu in Hcount. cbn [length] in Hcount.
  assert (forall y, In y l1 \/ In y l2 ->
                    exists d, convertedAt y = Some d /\ d < t0) as Hdated.
  { intros y Hy.
    assert (Clocked.undated y = false) as Hy'.
    { destruct Hy as [Hy|Hy]; [apply (none_undated l1) | apply (none_undated l2)];
        try exact Hy; lia. }
    unfold Clocked.undated in Hy'. destruct (convertedAt y) as [d|] eqn:Ed;
      [|discriminate Hy'].
    exists d. split; [reflexivity|].
    assert (In y l) as Hyl.
    { apply (sublist_In sel l); [exact Hsub|].
      apply (Permutation_in _ (Permutation_sym Hperm)).
      apply in_or_app. destruct Hy as [Hy|Hy]; [left | right; right]; exact Hy. }
    unfold Clocked.before in Hb. rewrite List.Forall_forall in Hb.
    apply (Hb y Hyl). exact Ed. }
  destruct (order_or_default sortOptions) eqn:Eo.
  - (* ascending: nothing follows the record *)
    destruct l2 as [|y l2]; [exists l1; exact Hsplit|]. exfalso.
    apply sorted_app_r, StronglySorted_inv in Hsorted as [_ Hall].
    apply List.Forall_cons_iff in Hall as [Hcy _].
    destruct (Hdated y) as (d & Ed & Hd); [right; left; reflexivity|].
    unfold cmp in Hcy. apply OrderFacts.compareFn_le in Hcy.
    unfold Mem.sortVal in Hcy. rewrite Hc, Ed in Hcy. cbn [js_gt] in Hcy.
    apply Z.ltb_ge in Hcy. lia.
  - (* descending: nothing precedes it *)
    destruct l1 as [|y l1]; [exists l2; exact Hsplit|]. exfalso.
    cbn [app] in Hsorted. apply StronglySorted_inv in Hsorted as [_ Hall].
    rewrite List.Forall_forall in Hall.
    assert (cmp y c <= 0) as Hyc
      by (apply Hall, in_or_app; right; left; reflexivity).
    destruct (Hdated y) as (d & Ed & Hd); [left; left; reflexivity|].
    unfold cmp in Hyc. apply OrderFacts.compareFn_le in Hyc.
    unfold Mem.sortVal in Hyc. rewrite Hc, Ed in Hyc. cbn [js_gt] in Hyc.
    apply Z.ltb_ge in Hyc. lia.
Qed.

End Readings.

End ClockFacts.

(** C10. The in-memory backend treats a record without [convertedAt] as
    converted at the moment it looks at it.  The clock is read where the
    source reads it, every reading of a call lying between [t0] and [t1].
    In the date filters such a record is tested with a reading of the
    clock in the place of its date: when it is listed, each date bound has
    admitted a reading, and it is listed whenever the filters accept it
    with [t0] and with [t1] as its date.  In the sort by date, which is
    the default, its key is the reading made for the comparison, so that
    among records converted before the call it is listed first in
    descending order and last in ascending order, wherever it is stored.
    When one clock value is right for the whole call (the clock stands
    still, or no stored record lacks its date, as after [createConversion])
    the list and the count are those of [Mem.getConversions] and
    [Mem.getConversionsCount] at that value. *)
Theorem absent_convertedAt_reads_as_now
    (clock : Clocked.Clock) (t0 t1 : Z) (userId : string) (f : ConversionFilters)
    (filters : option ConversionFilters) (sortOptions : option SortOptions)
    (m : Mem.Machine) (c : Conversion) :
  (forall k, t0 <= clock k <= t1) ->
  convertedAt c = None ->
  (In c (Clocked.listed clock userId (Some f) sortOptions None (Mem.stored m)) ->
   In c (Mem.stored m) /\ Schema.userId c = userId /\
   exists t_from t_to,
     t0 <= t_from <= t1 /\ t0 <= t_to <= t1 /\
     Contract.accepts (Clocked.without_dateTo f) t_from c /\
     Contract.accepts (Clocked.without_dateFrom f) t_to c) /\
  (In c (Mem.stored m) -> Schema.userId c = userId ->
   Contract.accepts f t0 c -> Contract.accepts f t1 c ->
   In c (Clocked.listed clock userId (Some f) sortOptions None (Mem.stored m))) /\
  (forall k,
     Clocked.sortVal clock (field_or_default None) c k = (VNum (clock k), S k)) /\
  (field_or_default sortOptions = Field_convertedAt ->
   (length (List.filter Clocked.undated (Mem.stored m)) <= 1)%nat ->
   Clocked.before t0 (Mem.stored m) ->
   In c (Clocked.listed clock userId filters sortOptions None (Mem.stored m)) ->
   match order_or_default sortOptions with
   | desc =>
       exists rest,
         Clocked.listed clock userId filters sortOptions None (Mem.stored m) =
         c :: rest
   | asc =>
       exists rest,
         Clocked.listed clock userId filters sortOptions None (Mem.stored m) =
         rest ++ [c]
   end) /\
  (forall (now : Z) (pagination : option PaginationOptions),
     Clocked.steady clock now (Mem.stored m) ->
     Clocked.listed clock userId filters sortOptions pagination (Mem.stored m) =
       Mem.returned (Mem.getConversions now userId filters sortOptions pagination m) /\
     Clocked.counted clock userId filters (Mem.stored m) =
       fst (Mem.getConversionsCount now userId filters m)).
Proof.
  intros Hk Hc. split; [|split; [|split; [|split]]].
  - intros Hin. apply ClockFacts.listed_In in Hin.
    apply (ClockFacts.undated_selected clock f _ O c Hc) in Hin
      as (H0 & Hs & Hfrom & Hto & Hmin & Hmax).
    apply filter_In in H0 as [H0 Hu]. apply String.eqb_eq in Hu.
    split; [exact H0|]. split; [exact Hu|].
    assert (exists t, t0 <= t <= t1 /\ forall d, dateFrom f = Some d -> d <= t)
      as (ta & Ha & Hda).
    { destruct (dateFrom f) as [d|] eqn:Ed.
      - destruct (Hfrom d eq_refl) as [j Hj]. exists (clock j).
        split; [apply Hk|]. intros d' [= <-]. exact Hj.
      - exists (clock O). split; [apply Hk | discriminate]. }
    assert (exists t, t0 <= t <= t1 /\ forall d, dateTo f = Some d -> t <= d)
      as (tb & Hb & Hdb).
    { destruct (dateTo f) as [d|] eqn:Ed.
      - destruct (Hto d eq_refl) as [j Hj]. exists (clock j).
        split; [apply Hk|]. intros d' [= <-]. exact Hj.
      - exists (clock O). split; [apply Hk | discriminate]. }
    exists ta, tb. split; [exact Ha|]. split; [exact Hb|].
    unfold Contract.accepts, Clocked.without_dateTo, Clocked.without_dateFrom.
    cbn [search dateFrom dateTo sizeMin sizeMax].
    split; (split; [exact Hs|]); (split; [|split; [|split]]);
      first [assumption | discriminate].
  - intros H0 Hu (Hs & Hfrom & _ & Hmin & Hmax) (_ & _ & Hto & _ & _).
    apply ClockFacts.listed_In.
    apply ClockFacts.undated_kept; try assumption.
    + apply filter_In. split; [exact H0 | apply String.eqb_eq; exact Hu].
    + intros d Hd j. specialize (Hfrom d Hd). specialize (Hk j). lia.
    + intros d Hd j. specialize (Hto d Hd). specialize (Hk j). lia.
  - intros k. cbn [field_or_default Clocked.sortVal]. rewrite Hc. reflexivity.
  - intros Hf Hone Hb Hin.
    apply (ClockFacts.undated_placed clock t0); try assumption.
    intros k. apply Hk.
  - intros now pagination Hst.
    destruct (ClockFacts.listed_steady clock now userId filters sortOptions
                pagination (Mem.stored m) Hst) as [Hl Hn].
    rewrite Hl, Hn, MemFacts.getConversions_returned.
    destruct (MemFacts.getConversionsCount_run now userId filters m) as (-> & _).
    split; reflexivity.
Qed.

Lemma absent_convertedAt_reads_as_now_witness :
  (exists rest,
     Clocked.listed Scenario.ticking "u1" None None None
       (Mem.stored Scenario.mem_one_undated) = Scenario.undated :: rest) /\
  In Scenario.undated
    (Clocked.listed Scenario.ticking "u1"
       (Some (mkFilters None (Some 4000) None None None)) None None
       (Mem.stored Scenario.mem_one_undated)).
Proof.
  destruct (absent_convertedAt_reads_as_now Scenario.ticking 5000 5009 "u1"
              (mkFilters None (Some 4000) None None None) None None
              Scenario.mem_one_undated Scenario.undated)
    as (_ & Hkept & _ & Hplaced & _).
  - intros k. unfold Scenario.ticking. lia.
  - reflexivity.
  - split.
    + apply Hplaced.
      * reflexivity.
      * vm_compute. lia.
      * unfold Clocked.before. vm_compute.
        constructor; [intros d [= <-]; reflexivity|].
        constructor; [intros d H; discriminate H | constructor].
      * vm_compute. left. reflexivity.
    + apply Hkept.
      * right. left. reflexivity.
      * reflexivity.
      * unfold Contract.accepts. cbn.
        split; [discriminate|]. split; [intros d [= <-]; lia|].
        split; [discriminate|]. split; discriminate.
      * unfold Contract.accepts. cbn.
        split; [discriminate|]. split; [intros d [= <-]; lia|].
        split; [discriminate|]. split; discriminate.
Defined.
